(** * ng-dragdrop: the drag coordination service and its two directives

    A shallow embedding of [dragdrop.service.ts], [draggable-item.ts],
    [draggable.directive.ts] and [droppable.directive.ts], with the
    properties of the specification and further properties of the code
    stated over it.

    Conventions of the embedding.
    - The service object, the DOM and the browser's timers and listeners form
      one explicit state, [World]; a method of the service is a function on
      [World].
    - DOM nodes live in a store indexed by handles ([ElementId]); an
      [ElementRef], a ghost reference or a viewport reference is a handle, so
      two references to one node alias.
    - A [DraggableItem] is an object of the [_draggables] array that the
      service mutates in place; a loop over the array is a left-to-right
      traversal that rebuilds the array from the mutated objects.
    - A field that the source leaves [undefined] until some method assigns it
      is an [option]; reading a property of [undefined] raises [TypeError].
    - Pointer coordinates and thresholds are integers (pixels); rectangles
      returned by [getBoundingClientRect] are rationals, which is why the
      source rounds them with [Math.round].
    - Calls into the DOM succeed: a style assignment stores the string it is
      given, [classList.add] and [classList.remove] take any token, and
      [removeChild] detaches the node if it is attached.
    - Time is left out: a mouse move of the model is one that [sampleTime]
      has let through, a resize one that [debounceTime] has let through, and
      an interval timer ticks, and a timeout fires, whenever the model lets
      it. *)

From Stdlib Require Import ZArith QArith Qround List String Ascii Bool Lia.
Import ListNotations.

Local Open Scope Z_scope.

(** ** JavaScript values and helpers *)

(** The opaque application payloads ([data: any], [droppable: any]). *)
Inductive any : Type :=
| Undefined
| Null
| JSNumber (z : Z)
| JSString (s : string)
| JSBoolean (b : bool).

Inductive Exception : Type :=
| TypeError.

Inductive Result (A : Type) : Type :=
| Ok (a : A)
| Throw (e : Exception).

Arguments Ok {A} a.
Arguments Throw {A} e.

Definition bind {A B : Type} (m : Result A) (k : A -> Result B) : Result B :=
  match m with
  | Ok a => k a
  | Throw e => Throw e
  end.

Notation "x <- m ;; k" := (bind m (fun x => k))
  (at level 61, m at next level, right associativity).
Notation "' p <- m ;; k" := (bind m (fun v => match v with p => k end))
  (at level 61, p pattern, m at next level, right associativity).

(** Reading a property of a possibly [undefined] object. *)
Definition deref {A : Type} (o : option A) : Result A :=
  match o with
  | Some a => Ok a
  | None => Throw TypeError
  end.

(** [Math.round] on a rational: the nearest integer, halves going up. *)
Definition Math_round (q : Q) : Z := Qfloor (q + (1 # 2)).

Definition Qltb (a b : Q) : bool := negb (Qle_bool b a).

(** [a - b], where [a] may be [undefined]: [None] is [NaN]. *)
Definition js_sub (a : option Z) (b : Z) : option Z :=
  match a with
  | Some a => Some (a - b)
  | None => None
  end.

(** [v || 0] on a number: [NaN] and [0] are falsy. *)
Definition js_or_zero (v : option Z) : Z :=
  match v with
  | Some z => if z =? 0 then 0 else z
  | None => 0
  end.

(** [n >= t], where [t] may be [undefined] (the comparison is then false). *)
Definition js_ge (n : Z) (t : option Z) : bool :=
  match t with
  | Some t => t <=? n
  | None => false
  end.

(** [s.split(' ')]. *)
Fixpoint split (s : string) : list string :=
  match s with
  | EmptyString => [EmptyString]
  | String c rest =>
      if Ascii.eqb c " "%char then EmptyString :: split rest
      else match split rest with
           | tok :: toks => String c tok :: toks
           | [] => [String c EmptyString]
           end
  end.

(** [!classes] for an optional string: [undefined] and [''] are falsy. *)
Definition falsy_string (s : option string) : bool :=
  match s with
  | None => true
  | Some EmptyString => true
  | Some _ => false
  end.


(** ** The DOM *)

Definition ElementId := nat.

Record MouseEvent : Type := {
  clientX : Z;
  clientY : Z;
  button : Z
}.

Record ClientRect : Type := {
  rect_left : Q;
  rect_top : Q;
  rect_right : Q;
  rect_bottom : Q;
  rect_width : Q;
  rect_height : Q
}.

(** The inline style of a node. A length ([left], [top], [width], [height])
    is its number of pixels, [None] when unset. *)
Record CSSStyle : Type := {
  cursor : string;
  position : string;
  style_left : option Q;
  style_top : option Q;
  style_width : option Q;
  style_height : option Q;
  zIndex : string;
  visibility : string;
  pointerEvents : string
}.

Record HTMLElement : Type := {
  style : CSSStyle;
  classList : list string;
  childNodes : list ElementId;
  scrollLeft : Z;
  scrollTop : Z;
  scrollWidth : Z;
  clientWidth : Z;
  scrollHeight : Z;
  clientHeight : Z;
  boundingClientRect : ClientRect
}.

Definition set_cursor (v : string) (s : CSSStyle) : CSSStyle :=
  {| cursor := v; position := position s; style_left := style_left s;
     style_top := style_top s; style_width := style_width s;
     style_height := style_height s; zIndex := zIndex s;
     visibility := visibility s; pointerEvents := pointerEvents s |}.

Definition set_position (v : string) (s : CSSStyle) : CSSStyle :=
  {| cursor := cursor s; position := v; style_left := style_left s;
     style_top := style_top s; style_width := style_width s;
     style_height := style_height s; zIndex := zIndex s;
     visibility := visibility s; pointerEvents := pointerEvents s |}.

Definition set_style_left (v : option Q) (s : CSSStyle) : CSSStyle :=
  {| cursor := cursor s; position := position s; style_left := v;
     style_top := style_top s; style_width := style_width s;
     style_height := style_height s; zIndex := zIndex s;
     visibility := visibility s; pointerEvents := pointerEvents s |}.

Definition set_style_top (v : option Q) (s : CSSStyle) : CSSStyle :=
  {| cursor := cursor s; position := position s; style_left := style_left s;
     style_top := v; style_width := style_width s;
     style_height := style_height s; zIndex := zIndex s;
     visibility := visibility s; pointerEvents := pointerEvents s |}.

Definition set_style_width (v : option Q) (s : CSSStyle) : CSSStyle :=
  {| cursor := cursor s; position := position s; style_left := style_left s;
     style_top := style_top s; style_width := v;
     style_height := style_height s; zIndex := zIndex s;
     visibility := visibility s; pointerEvents := pointerEvents s |}.

Definition set_style_height (v : option Q) (s : CSSStyle) : CSSStyle :=
  {| cursor := cursor s; position := position s; style_left := style_left s;
     style_top := style_top s; style_width := style_width s;
     style_height := v; zIndex := zIndex s;
     visibility := visibility s; pointerEvents := pointerEvents s |}.

Definition set_zIndex (v : string) (s : CSSStyle) : CSSStyle :=
  {| cursor := cursor s; position := position s; style_left := style_left s;
     style_top := style_top s; style_width := style_width s;
     style_height := style_height s; zIndex := v;
     visibility := visibility s; pointerEvents := pointerEvents s |}.

Definition set_visibility (v : string) (s : CSSStyle) : CSSStyle :=
  {| cursor := cursor s; position := position s; style_left := style_left s;
     style_top := style_top s; style_width := style_width s;
     style_height := style_height s; zIndex := zIndex s;
     visibility := v; pointerEvents := pointerEvents s |}.

Definition set_pointerEvents (v : string) (s : CSSStyle) : CSSStyle :=
  {| cursor := cursor s; position := position s; style_left := style_left s;
     style_top := style_top s; style_width := style_width s;
     style_height := style_height s; zIndex := zIndex s;
     visibility := visibility s; pointerEvents := v |}.

Definition set_style (f : CSSStyle -> CSSStyle) (e : HTMLElement) : HTMLElement :=
  {| style := f (style e); classList := classList e;
     childNodes := childNodes e; scrollLeft := scrollLeft e;
     scrollTop := scrollTop e; scrollWidth := scrollWidth e;
     clientWidth := clientWidth e; scrollHeight := scrollHeight e;
     clientHeight := clientHeight e;
     boundingClientRect := boundingClientRect e |}.

Definition set_classList (f : list string -> list string) (e : HTMLElement)
  : HTMLElement :=
  {| style := style e; classList := f (classList e);
     childNodes := childNodes e; scrollLeft := scrollLeft e;
     scrollTop := scrollTop e; scrollWidth := scrollWidth e;
     clientWidth := clientWidth e; scrollHeight := scrollHeight e;
     clientHeight := clientHeight e;
     boundingClientRect := boundingClientRect e |}.

Definition set_childNodes (f : list ElementId -> list ElementId)
  (e : HTMLElement) : HTMLElement :=
  {| style := style e; classList := classList e;
     childNodes := f (childNodes e); scrollLeft := scrollLeft e;
     scrollTop := scrollTop e; scrollWidth := scrollWidth e;
     clientWidth := clientWidth e; scrollHeight := scrollHeight e;
     clientHeight := clientHeight e;
     boundingClientRect := boundingClientRect e |}.

(** The browser keeps a scroll offset between 0 and the scrollable overflow. *)
Definition clamp (lo hi v : Z) : Z := Z.max lo (Z.min hi v).

Definition set_scrollLeft (v : Z) (e : HTMLElement) : HTMLElement :=
  {| style := style e; classList := classList e;
     childNodes := childNodes e;
     scrollLeft := clamp 0 (scrollWidth e - clientWidth e) v;
     scrollTop := scrollTop e; scrollWidth := scrollWidth e;
     clientWidth := clientWidth e; scrollHeight := scrollHeight e;
     clientHeight := clientHeight e;
     boundingClientRect := boundingClientRect e |}.

Definition set_scrollTop (v : Z) (e : HTMLElement) : HTMLElement :=
  {| style := style e; classList := classList e;
     childNodes := childNodes e; scrollLeft := scrollLeft e;
     scrollTop := clamp 0 (scrollHeight e - clientHeight e) v;
     scrollWidth := scrollWidth e;
     clientWidth := clientWidth e; scrollHeight := scrollHeight e;
     clientHeight := clientHeight e;
     boundingClientRect := boundingClientRect e |}.

Definition empty_style : CSSStyle :=
  {| cursor := EmptyString; position := EmptyString; style_left := None; style_top := None;
     style_width := None; style_height := None; zIndex := EmptyString;
     visibility := EmptyString; pointerEvents := EmptyString |}.

Definition empty_rect : ClientRect :=
  {| rect_left := 0; rect_top := 0; rect_right := 0; rect_bottom := 0;
     rect_width := 0; rect_height := 0 |}.

(** [document.createElement('div')], before it is attached. *)
Definition new_div : HTMLElement :=
  {| style := empty_style; classList := []; childNodes := [];
     scrollLeft := 0; scrollTop := 0; scrollWidth := 0; clientWidth := 0;
     scrollHeight := 0; clientHeight := 0; boundingClientRect := empty_rect |}.

(** [classList.add] and [classList.remove]. *)
Definition classList_add (tok : string) (l : list string) : list string :=
  if existsb (String.eqb tok) l then l else l ++ [tok].

Definition classList_remove (tok : string) (l : list string) : list string :=
  filter (fun c => negb (String.eqb tok c)) l.

(** ** draggable-item.ts *)

Record ElementRef : Type := {
  nativeElement : ElementId
}.

(** [pos] and [grabPoint]: plain objects with an [x] and a [y]. *)
Record Point : Type := {
  point_x : Q;
  point_y : Q
}.

Record DraggableItem : Type := {
  id : option Z;
  el : ElementRef;
  dragEl : option ElementId;
  data : any;
  draggedClass : option string;
  draggingClass : option string;
  mouseDownEvent : MouseEvent;
  pos : option Point;
  grabPoint : option Point;
  startThreshold : option Z;
  isDragging : bool;
  cancelled : option bool
}.

Definition set_dragEl (v : option ElementId) (d : DraggableItem) : DraggableItem :=
  {| id := id d; el := el d; dragEl := v; data := data d;
     draggedClass := draggedClass d; draggingClass := draggingClass d;
     mouseDownEvent := mouseDownEvent d; pos := pos d;
     grabPoint := grabPoint d; startThreshold := startThreshold d;
     isDragging := isDragging d; cancelled := cancelled d |}.

Definition set_pos (v : option Point) (d : DraggableItem) : DraggableItem :=
  {| id := id d; el := el d; dragEl := dragEl d; data := data d;
     draggedClass := draggedClass d; draggingClass := draggingClass d;
     mouseDownEvent := mouseDownEvent d; pos := v;
     grabPoint := grabPoint d; startThreshold := startThreshold d;
     isDragging := isDragging d; cancelled := cancelled d |}.

Definition set_grabPoint (v : option Point) (d : DraggableItem) : DraggableItem :=
  {| id := id d; el := el d; dragEl := dragEl d; data := data d;
     draggedClass := draggedClass d; draggingClass := draggingClass d;
     mouseDownEvent := mouseDownEvent d; pos := pos d;
     grabPoint := v; startThreshold := startThreshold d;
     isDragging := isDragging d; cancelled := cancelled d |}.

Definition set_isDragging (v : bool) (d : DraggableItem) : DraggableItem :=
  {| id := id d; el := el d; dragEl := dragEl d; data := data d;
     draggedClass := draggedClass d; draggingClass := draggingClass d;
     mouseDownEvent := mouseDownEvent d; pos := pos d;
     grabPoint := grabPoint d; startThreshold := startThreshold d;
     isDragging := v; cancelled := cancelled d |}.

Definition set_cancelled (v : option bool) (d : DraggableItem) : DraggableItem :=
  {| id := id d; el := el d; dragEl := dragEl d; data := data d;
     draggedClass := draggedClass d; draggingClass := draggingClass d;
     mouseDownEvent := mouseDownEvent d; pos := pos d;
     grabPoint := grabPoint d; startThreshold := startThreshold d;
     isDragging := isDragging d; cancelled := v |}.

(** ** The browser: nodes, interval timers, event listeners *)

(** The four closures that [scrollViewportAsNeeded] hands to [setInterval]. *)
Inductive TimerHandler : Type :=
| ScrollLeftDec
| ScrollLeftInc
| ScrollTopDec
| ScrollTopInc.

Inductive EventTarget : Type :=
| OnElement (e : ElementId)
| OnWindow.

Inductive EventType : Type :=
| mousemove
| resize
| mouseup
| mousedown
| keydown
| blur
| mouseenter
| mouseleave.

(** A subscription to [fromEvent(target, type)] that stays until it is
    unsubscribed. *)
Record Subscription : Type := {
  sub_id : nat;
  sub_target : EventTarget;
  sub_type : EventType
}.

(** The two callbacks that [activate] attaches behind [first()]. *)
Inductive Callback : Type :=
| CallOnVieportMouseUp
| CallDeactivateCancelled.

Record Listener : Type := {
  listener_target : EventTarget;
  listener_type : EventType;
  listener_callback : Callback
}.

Record Browser : Type := {
  nodes : ElementId -> HTMLElement;
  nextNode : ElementId;
  selectors : string -> option ElementId;
  body : ElementId;
  intervals : list (nat * TimerHandler);
  nextInterval : nat;
  subscriptions : list Subscription;
  nextSubscription : nat;
  oneShots : list Listener
}.

Definition set_nodes (v : ElementId -> HTMLElement) (b : Browser) : Browser :=
  {| nodes := v; nextNode := nextNode b; selectors := selectors b;
     body := body b; intervals := intervals b;
     nextInterval := nextInterval b; subscriptions := subscriptions b;
     nextSubscription := nextSubscription b; oneShots := oneShots b |}.

Definition set_nextNode (v : ElementId) (b : Browser) : Browser :=
  {| nodes := nodes b; nextNode := v; selectors := selectors b;
     body := body b; intervals := intervals b;
     nextInterval := nextInterval b; subscriptions := subscriptions b;
     nextSubscription := nextSubscription b; oneShots := oneShots b |}.

Definition set_intervals (v : list (nat * TimerHandler)) (b : Browser) : Browser :=
  {| nodes := nodes b; nextNode := nextNode b; selectors := selectors b;
     body := body b; intervals := v;
     nextInterval := nextInterval b; subscriptions := subscriptions b;
     nextSubscription := nextSubscription b; oneShots := oneShots b |}.

Definition set_nextInterval (v : nat) (b : Browser) : Browser :=
  {| nodes := nodes b; nextNode := nextNode b; selectors := selectors b;
     body := body b; intervals := intervals b;
     nextInterval := v; subscriptions := subscriptions b;
     nextSubscription := nextSubscription b; oneShots := oneShots b |}.

Definition set_subscriptions (v : list Subscription) (b : Browser) : Browser :=
  {| nodes := nodes b; nextNode := nextNode b; selectors := selectors b;
     body := body b; intervals := intervals b;
     nextInterval := nextInterval b; subscriptions := v;
     nextSubscription := nextSubscription b; oneShots := oneShots b |}.

Definition set_nextSubscription (v : nat) (b : Browser) : Browser :=
  {| nodes := nodes b; nextNode := nextNode b; selectors := selectors b;
     body := body b; intervals := intervals b;
     nextInterval := nextInterval b; subscriptions := subscriptions b;
     nextSubscription := v; oneShots := oneShots b |}.

Definition set_oneShots (v : list Listener) (b : Browser) : Browser :=
  {| nodes := nodes b; nextNode := nextNode b; selectors := selectors b;
     body := body b; intervals := intervals b;
     nextInterval := nextInterval b; subscriptions := subscriptions b;
     nextSubscription := nextSubscription b; oneShots := v |}.

(** Writing one node of the store. *)
Definition update_node (e : ElementId) (f : HTMLElement -> HTMLElement)
  (b : Browser) : Browser :=
  set_nodes (fun i => if Nat.eqb i e then f (nodes b i) else nodes b i) b.

(** [document.querySelector(selector)]; [None] is [null]. *)
Definition querySelector (b : Browser) (selector : option string)
  : option ElementId :=
  match selector with
  | Some s => selectors b s
  | None => None
  end.

(** [parent.appendChild(child)] and [parent.removeChild(child)]. *)
Definition appendChild (parent child : ElementId) (b : Browser) : Browser :=
  update_node parent (set_childNodes (fun l => l ++ [child])) b.

Definition removeChild (parent child : ElementId) (b : Browser) : Browser :=
  update_node parent
    (set_childNodes (filter (fun c => negb (Nat.eqb c child)))) b.

(** [setInterval(handler, delay)]: a fresh timer id. *)
Definition setInterval (h : TimerHandler) (b : Browser) : nat * Browser :=
  (nextInterval b,
   set_nextInterval (S (nextInterval b))
     (set_intervals (intervals b ++ [(nextInterval b, h)]) b)).

(** [clearInterval(id)]; [None] is [null]. *)
Definition clearInterval (t : option nat) (b : Browser) : Browser :=
  match t with
  | Some n =>
      set_intervals (filter (fun p => negb (Nat.eqb (fst p) n)) (intervals b)) b
  | None => b
  end.

(** [fromEvent(target, type).subscribe(...)]: a fresh subscription. *)
Definition subscribe (target : EventTarget) (type : EventType) (b : Browser)
  : nat * Browser :=
  (nextSubscription b,
   set_nextSubscription (S (nextSubscription b))
     (set_subscriptions
        (subscriptions b ++
         [{| sub_id := nextSubscription b; sub_target := target;
             sub_type := type |}]) b)).

(** [subscription.unsubscribe()]; unsubscribing twice is harmless. *)
Definition unsubscribe (s : nat) (b : Browser) : Browser :=
  set_subscriptions
    (filter (fun x => negb (Nat.eqb (sub_id x) s)) (subscriptions b)) b.

(** [fromEvent(target, type).pipe(first()).subscribe(callback)]. *)
Definition subscribe_first (target : EventTarget) (type : EventType)
  (c : Callback) (b : Browser) : Browser :=
  set_oneShots
    (oneShots b ++
     [{| listener_target := target; listener_type := type;
         listener_callback := c |}]) b.

(** ** dragdrop.service.ts: the state of the service *)

(** [lastMousePos] and [lastDisplacement] start as the empty object [{}]:
    both properties are [undefined] until a move assigns them. *)
Record MousePos : Type := {
  pos_x : option Z;
  pos_y : option Z
}.

Definition empty_object : MousePos := {| pos_x := None; pos_y := None |}.

(** The two subjects [_dragging] and [_dropping] are kept as the sequence of
    values pushed through them, oldest first. Delivery to the subscribers is
    synchronous, so a value is the object as it is when [next] is called. *)
Record DragDropService : Type := {
  _draggables : list DraggableItem;
  _dragging : list DraggableItem;
  _dropping : list DraggableItem;
  lastMousePos : MousePos;
  lastDisplacement : MousePos;
  _viewportRect : ClientRect;
  _viewportElement : ElementId;
  viewportMouseMoveSubscription : option nat;
  viewportResizeSubscription : option nat;
  viewportCursor : option string;
  scrollXInterval : option nat;
  scrollYInterval : option nat;
  scrollIntervalDelay : Z
}.

Definition set__draggables (v : list DraggableItem) (s : DragDropService)
  : DragDropService :=
  {| _draggables := v; _dragging := _dragging s; _dropping := _dropping s;
     lastMousePos := lastMousePos s; lastDisplacement := lastDisplacement s;
     _viewportRect := _viewportRect s; _viewportElement := _viewportElement s;
     viewportMouseMoveSubscription := viewportMouseMoveSubscription s;
     viewportResizeSubscription := viewportResizeSubscription s;
     viewportCursor := viewportCursor s; scrollXInterval := scrollXInterval s;
     scrollYInterval := scrollYInterval s;
     scrollIntervalDelay := scrollIntervalDelay s |}.

Definition set__dragging (v : list DraggableItem) (s : DragDropService)
  : DragDropService :=
  {| _draggables := _draggables s; _dragging := v; _dropping := _dropping s;
     lastMousePos := lastMousePos s; lastDisplacement := lastDisplacement s;
     _viewportRect := _viewportRect s; _viewportElement := _viewportElement s;
     viewportMouseMoveSubscription := viewportMouseMoveSubscription s;
     viewportResizeSubscription := viewportResizeSubscription s;
     viewportCursor := viewportCursor s; scrollXInterval := scrollXInterval s;
     scrollYInterval := scrollYInterval s;
     scrollIntervalDelay := scrollIntervalDelay s |}.

Definition set__dropping (v : list DraggableItem) (s : DragDropService)
  : DragDropService :=
  {| _draggables := _draggables s; _dragging := _dragging s; _dropping := v;
     lastMousePos := lastMousePos s; lastDisplacement := lastDisplacement s;
     _viewportRect := _viewportRect s; _viewportElement := _viewportElement s;
     viewportMouseMoveSubscription := viewportMouseMoveSubscription s;
     viewportResizeSubscription := viewportResizeSubscription s;
     viewportCursor := viewportCursor s; scrollXInterval := scrollXInterval s;
     scrollYInterval := scrollYInterval s;
     scrollIntervalDelay := scrollIntervalDelay s |}.

Definition set_lastMousePos (v : MousePos) (s : DragDropService)
  : DragDropService :=
  {| _draggables := _draggables s; _dragging := _dragging s;
     _dropping := _dropping s;
     lastMousePos := v; lastDisplacement := lastDisplacement s;
     _viewportRect := _viewportRect s; _viewportElement := _viewportElement s;
     viewportMouseMoveSubscription := viewportMouseMoveSubscription s;
     viewportResizeSubscription := viewportResizeSubscription s;
     viewportCursor := viewportCursor s; scrollXInterval := scrollXInterval s;
     scrollYInterval := scrollYInterval s;
     scrollIntervalDelay := scrollIntervalDelay s |}.

Definition set_lastDisplacement (v : MousePos) (s : DragDropService)
  : DragDropService :=
  {| _draggables := _draggables s; _dragging := _dragging s;
     _dropping := _dropping s;
     lastMousePos := lastMousePos s; lastDisplacement := v;
     _viewportRect := _viewportRect s; _viewportElement := _viewportElement s;
     viewportMouseMoveSubscription := viewportMouseMoveSubscription s;
     viewportResizeSubscription := viewportResizeSubscription s;
     viewportCursor := viewportCursor s; scrollXInterval := scrollXInterval s;
     scrollYInterval := scrollYInterval s;
     scrollIntervalDelay := scrollIntervalDelay s |}.

Definition set__viewportRect (v : ClientRect) (s : DragDropService)
  : DragDropService :=
  {| _draggables := _draggables s; _dragging := _dragging s;
     _dropping := _dropping s;
     lastMousePos := lastMousePos s; lastDisplacement := lastDisplacement s;
     _viewportRect := v; _viewportElement := _viewportElement s;
     viewportMouseMoveSubscription := viewportMouseMoveSubscription s;
     viewportResizeSubscription := viewportResizeSubscription s;
     viewportCursor := viewportCursor s; scrollXInterval := scrollXInterval s;
     scrollYInterval := scrollYInterval s;
     scrollIntervalDelay := scrollIntervalDelay s |}.

Definition set__viewportElement (v : ElementId) (s : DragDropService)
  : DragDropService :=
  {| _draggables := _draggables s; _dragging := _dragging s;
     _dropping := _dropping s;
     lastMousePos := lastMousePos s; lastDisplacement := lastDisplacement s;
     _viewportRect := _viewportRect s; _viewportElement := v;
     viewportMouseMoveSubscription := viewportMouseMoveSubscription s;
     viewportResizeSubscription := viewportResizeSubscription s;
     viewportCursor := viewportCursor s; scrollXInterval := scrollXInterval s;
     scrollYInterval := scrollYInterval s;
     scrollIntervalDelay := scrollIntervalDelay s |}.

Definition set_viewportMouseMoveSubscription (v : option nat)
  (s : DragDropService) : DragDropService :=
  {| _draggables := _draggables s; _dragging := _dragging s;
     _dropping := _dropping s;
     lastMousePos := lastMousePos s; lastDisplacement := lastDisplacement s;
     _viewportRect := _viewportRect s; _viewportElement := _viewportElement s;
     viewportMouseMoveSubscription := v;
     viewportResizeSubscription := viewportResizeSubscription s;
     viewportCursor := viewportCursor s; scrollXInterval := scrollXInterval s;
     scrollYInterval := scrollYInterval s;
     scrollIntervalDelay := scrollIntervalDelay s |}.

Definition set_viewportResizeSubscription (v : option nat)
  (s : DragDropService) : DragDropService :=
  {| _draggables := _draggables s; _dragging := _dragging s;
     _dropping := _dropping s;
     lastMousePos := lastMousePos s; lastDisplacement := lastDisplacement s;
     _viewportRect := _viewportRect s; _viewportElement := _viewportElement s;
     viewportMouseMoveSubscription := viewportMouseMoveSubscription s;
     viewportResizeSubscription := v;
     viewportCursor := viewportCursor s; scrollXInterval := scrollXInterval s;
     scrollYInterval := scrollYInterval s;
     scrollIntervalDelay := scrollIntervalDelay s |}.

Definition set_viewportCursor (v : option string) (s : DragDropService)
  : DragDropService :=
  {| _draggables := _draggables s; _dragging := _dragging s;
     _dropping := _dropping s;
     lastMousePos := lastMousePos s; lastDisplacement := lastDisplacement s;
     _viewportRect := _viewportRect s; _viewportElement := _viewportElement s;
     viewportMouseMoveSubscription := viewportMouseMoveSubscription s;
     viewportResizeSubscription := viewportResizeSubscription s;
     viewportCursor := v; scrollXInterval := scrollXInterval s;
     scrollYInterval := scrollYInterval s;
     scrollIntervalDelay := scrollIntervalDelay s |}.

Definition set_scrollXInterval (v : option nat) (s : DragDropService)
  : DragDropService :=
  {| _draggables := _draggables s; _dragging := _dragging s;
     _dropping := _dropping s;
     lastMousePos := lastMousePos s; lastDisplacement := lastDisplacement s;
     _viewportRect := _viewportRect s; _viewportElement := _viewportElement s;
     viewportMouseMoveSubscription := viewportMouseMoveSubscription s;
     viewportResizeSubscription := viewportResizeSubscription s;
     viewportCursor := viewportCursor s; scrollXInterval := v;
     scrollYInterval := scrollYInterval s;
     scrollIntervalDelay := scrollIntervalDelay s |}.

Definition set_scrollYInterval (v : option nat) (s : DragDropService)
  : DragDropService :=
  {| _draggables := _draggables s; _dragging := _dragging s;
     _dropping := _dropping s;
     lastMousePos := lastMousePos s; lastDisplacement := lastDisplacement s;
     _viewportRect := _viewportRect s; _viewportElement := _viewportElement s;
     viewportMouseMoveSubscription := viewportMouseMoveSubscription s;
     viewportResizeSubscription := viewportResizeSubscription s;
     viewportCursor := viewportCursor s; scrollXInterval := scrollXInterval s;
     scrollYInterval := v;
     scrollIntervalDelay := scrollIntervalDelay s |}.

(** The service together with the browser it runs in. *)
Record World : Type := {
  service : DragDropService;
  browser : Browser
}.

Definition upd_service (f : DragDropService -> DragDropService) (w : World)
  : World :=
  {| service := f (service w); browser := browser w |}.

Definition upd_browser (f : Browser -> Browser) (w : World) : World :=
  {| service := service w; browser := f (browser w) |}.

(** The node that [this._viewportElement] refers to. *)
Definition viewport (w : World) : HTMLElement :=
  nodes (browser w) (_viewportElement (service w)).

(** ** dragdrop.service.ts: the methods *)

Definition DRAG_Z_INDEX : string := "100000".

(** [set viewportElement(selector)]: resolve the selector, fall back to the
    document body, cache the bounding rectangle. *)
Definition set_viewportElement (selector : option string) (w : World) : World :=
  let e := match querySelector (browser w) selector with
           | Some e => e
           | None => body (browser w)
           end in
  upd_service
    (fun s => set__viewportRect (boundingClientRect (nodes (browser w) e))
                (set__viewportElement e s)) w.

(** [new DragDropService()] in a given browser: the field initialisers, then
    the constructor's [this.viewportElement = 'body']. *)
Definition new_DragDropService (b : Browser) : World :=
  set_viewportElement (Some "body"%string)
    {| service :=
         {| _draggables := []; _dragging := []; _dropping := [];
            lastMousePos := empty_object; lastDisplacement := empty_object;
            _viewportRect := empty_rect; _viewportElement := body b;
            viewportMouseMoveSubscription := None;
            viewportResizeSubscription := None;
            viewportCursor := None;
            scrollXInterval := None; scrollYInterval := None;
            scrollIntervalDelay := 0 |};
       browser := b |}.

Definition dragStart (w : World) : World :=
  upd_service
    (fun s => set_lastDisplacement empty_object
                (set_lastMousePos empty_object
                   (set__viewportRect (boundingClientRect (viewport w)) s))) w.

(** [activate]: the two saved subscriptions, then the five listeners behind
    [first()]. *)
Definition activate (w : World) : World :=
  let w := dragStart w in
  let v := _viewportElement (service w) in
  let m := subscribe (OnElement v) mousemove (browser w) in
  let w := upd_service (set_viewportMouseMoveSubscription (Some (fst m)))
             (upd_browser (fun _ => snd m) w) in
  let r := subscribe OnWindow resize (browser w) in
  let w := upd_service (set_viewportResizeSubscription (Some (fst r)))
             (upd_browser (fun _ => snd r) w) in
  let w := upd_browser
             (subscribe_first (OnElement v) mouseup CallOnVieportMouseUp) w in
  let w := upd_browser
             (subscribe_first (OnElement v) mousedown CallDeactivateCancelled) w in
  let w := upd_browser
             (subscribe_first OnWindow mouseup CallDeactivateCancelled) w in
  let w := upd_browser
             (subscribe_first OnWindow keydown CallDeactivateCancelled) w in
  upd_browser (subscribe_first OnWindow blur CallDeactivateCancelled) w.

(** [addClasses(el, classes)] and [removeClasses(el, classes)]. They touch
    the DOM only; [el] is a handle, never [null]. *)
Definition addClasses (e : ElementId) (classes : option string) (b : Browser)
  : Browser :=
  match classes with
  | Some s =>
      if falsy_string classes then b
      else fold_left
             (fun b tok => update_node e (set_classList (classList_add tok)) b)
             (split s) b
  | None => b
  end.

Definition removeClasses (e : ElementId) (classes : option string) (b : Browser)
  : Browser :=
  match classes with
  | Some s =>
      if falsy_string classes then b
      else fold_left
             (fun b tok => update_node e (set_classList (classList_remove tok)) b)
             (split s) b
  | None => b
  end.

(** [document.createElement('div')] and [node.cloneNode(true)]: a fresh
    handle each. The clone carries the same inline style, classes and
    children list as its original. *)
Definition createElement (b : Browser) : ElementId * Browser :=
  (nextNode b,
   set_nextNode (S (nextNode b)) (update_node (nextNode b) (fun _ => new_div) b)).

Definition cloneNode (e : ElementId) (b : Browser) : ElementId * Browser :=
  (nextNode b,
   set_nextNode (S (nextNode b))
     (update_node (nextNode b) (fun _ => nodes b e) b)).

Definition createDraggableElement (draggable : DraggableItem) (w : World)
  : DraggableItem * World :=
  let elRect :=
    boundingClientRect (nodes (browser w) (nativeElement (el draggable))) in
  let o := createElement (browser w) in
  let overlay := fst o in
  let b := snd o in
  let p := {| point_x := rect_left elRect; point_y := rect_top elRect |} in
  let draggable := set_pos (Some p) draggable in
  let draggable :=
    set_grabPoint
      (Some {| point_x :=
                 (inject_Z (clientX (mouseDownEvent draggable)) - point_x p)%Q;
               point_y :=
                 (inject_Z (clientY (mouseDownEvent draggable)) - point_y p)%Q |})
      draggable in
  let c := cloneNode (nativeElement (el draggable)) b in
  let ghost := fst c in
  let b := snd c in
  let draggable := set_dragEl (Some ghost) draggable in
  let b := addClasses ghost (draggingClass draggable) b in
  let b := update_node ghost (set_style (set_position "fixed")) b in
  let b := update_node ghost (set_style (set_style_left (Some (point_x p)))) b in
  let b := update_node ghost (set_style (set_style_top (Some (point_y p)))) b in
  let b := update_node ghost
             (set_style (set_style_width (Some (rect_width elRect)))) b in
  let b := update_node ghost
             (set_style (set_style_height (Some (rect_height elRect)))) b in
  let b := update_node ghost (set_style (set_zIndex DRAG_Z_INDEX)) b in
  let b := update_node ghost (set_style (set_visibility "hidden")) b in
  let b := update_node ghost (set_style (set_pointerEvents "none")) b in
  let b := update_node overlay (set_style (set_position "absolute")) b in
  let b := update_node overlay (set_style (set_style_left (Some 0%Q))) b in
  let b := update_node overlay (set_style (set_style_top (Some 0%Q))) b in
  let b := update_node overlay
             (set_style (set_style_width (Some (rect_width elRect)))) b in
  let b := update_node overlay
             (set_style (set_style_height (Some (rect_height elRect)))) b in
  let b := appendChild ghost overlay b in
  let b := appendChild (_viewportElement (service w)) ghost b in
  (draggable, upd_browser (fun _ => b) w).

Definition beginItemDrag (draggable : DraggableItem) (w : World)
  : Result (DraggableItem * World) :=
  if isDragging draggable then Ok (draggable, w)
  else
    let v := _viewportElement (service w) in
    let w := upd_service
               (set_viewportCursor (Some (cursor (style (viewport w))))) w in
    let w := upd_browser (update_node v (set_style (set_cursor "pointer"))) w in
    let w := upd_browser (update_node v (set_style (set_cursor "grabbing"))) w in
    let w := upd_browser
               (update_node v (set_style (set_cursor "-webkit-grabbing"))) w in
    let c := createDraggableElement draggable w in
    let draggable := set_isDragging true (fst c) in
    let w := snd c in
    g <- deref (dragEl draggable) ;;
    let w := upd_browser
               (update_node g (set_style (set_visibility "visible"))) w in
    let w := upd_browser
               (addClasses (nativeElement (el draggable))
                  (draggedClass draggable)) w in
    Ok (draggable,
        upd_service (fun s => set__dragging (_dragging s ++ [draggable]) s) w).

Definition endItemDrag (draggable : DraggableItem) (cancelled' : option bool)
  (w : World) : DraggableItem * World :=
  if negb (isDragging draggable) then (draggable, w)
  else
    let draggable := set_cancelled cancelled' (set_isDragging false draggable) in
    (draggable,
     upd_service (fun s => set__dropping (_dropping s ++ [draggable]) s) w).

Definition isMouseOutsideViewport (w : World) (mouseX mouseY : Z) : bool :=
  Qltb (inject_Z mouseX) (rect_left (_viewportRect (service w))) ||
  Qltb (rect_right (_viewportRect (service w))) (inject_Z mouseX) ||
  Qltb (inject_Z mouseY) (rect_top (_viewportRect (service w))) ||
  Qltb (rect_bottom (_viewportRect (service w))) (inject_Z mouseY).

Definition moveDraggableElement (draggable : DraggableItem) (left top : Z)
  (w : World) : Result (DraggableItem * World) :=
  p <- deref (pos draggable) ;;
  g <- deref (grabPoint draggable) ;;
  let p := {| point_x := (inject_Z left - point_x g)%Q;
              point_y := (inject_Z top - point_y g)%Q |} in
  let draggable := set_pos (Some p) draggable in
  e <- deref (dragEl draggable) ;;
  let w := upd_browser
             (update_node e (set_style (set_style_left (Some (point_x p))))) w in
  let w := upd_browser
             (update_node e (set_style (set_style_top (Some (point_y p))))) w in
  Ok (draggable, w).

Definition destroyDraggableElement (draggable : DraggableItem) (w : World)
  : DraggableItem * World :=
  match dragEl draggable with
  | Some g =>
      (set_dragEl None draggable,
       upd_browser (removeChild (_viewportElement (service w)) g) w)
  | None => (draggable, w)
  end.

(** The body of the loop of [dragStop], for the object at one index. *)
Definition dragStop_item (cancelled' : option bool) (draggable : DraggableItem)
  (w : World) : DraggableItem * World :=
  let e := endItemDrag draggable cancelled' w in
  let w := upd_browser
             (removeClasses (nativeElement (el (fst e))) (draggedClass (fst e)))
             (snd e) in
  destroyDraggableElement (fst e) w.

Fixpoint dragStop_loop (cancelled' : option bool) (ds : list DraggableItem)
  (w : World) : list DraggableItem * World :=
  match ds with
  | [] => ([], w)
  | d :: rest =>
      let r := dragStop_item cancelled' d w in
      let k := dragStop_loop cancelled' rest (snd r) in
      (fst r :: fst k, snd k)
  end.

(** Assigning [undefined] to a style property leaves the property as it is. *)
Definition assign_cursor (v : option string) (e : HTMLElement) : HTMLElement :=
  match v with
  | Some c => set_style (set_cursor c) e
  | None => e
  end.

Definition dragStop (cancelled' : option bool) (w : World) : World :=
  let k := dragStop_loop cancelled' (_draggables (service w)) w in
  let w := upd_service (set__draggables (fst k)) (snd k) in
  upd_browser
    (update_node (_viewportElement (service w))
       (assign_cursor (viewportCursor (service w)))) w.

Definition clearScrollIntervals (w : World) : World :=
  upd_browser
    (fun b => clearInterval (scrollYInterval (service w))
                (clearInterval (scrollXInterval (service w)) b)) w.

Definition deactivate (cancelled' : option bool) (w : World) : Result World :=
  m <- deref (viewportMouseMoveSubscription (service w)) ;;
  let w := upd_browser (unsubscribe m) w in
  r <- deref (viewportResizeSubscription (service w)) ;;
  let w := upd_browser (unsubscribe r) w in
  let w := dragStop cancelled' w in
  let w := upd_service (set__draggables []) w in
  Ok (clearScrollIntervals w).

(** [this.scrollXInterval = setInterval(handler, delay)], and the same for
    the vertical axis. *)
Definition startScrollX (h : TimerHandler) (w : World) : World :=
  let t := setInterval h (browser w) in
  upd_service (set_scrollXInterval (Some (fst t)))
    (upd_browser (fun _ => snd t) w).

Definition startScrollY (h : TimerHandler) (w : World) : World :=
  let t := setInterval h (browser w) in
  upd_service (set_scrollYInterval (Some (fst t)))
    (upd_browser (fun _ => snd t) w).

Definition scrollViewportAsNeeded (x y : Z) (w : World) : World :=
  let bottomBias := 3%Q in
  let rightBias := 2%Q in
  let w := clearScrollIntervals w in
  let w :=
    if (x <=? Math_round (rect_left (_viewportRect (service w)))) &&
       (0 <? scrollLeft (viewport w))
    then startScrollX ScrollLeftDec w
    else if Math_round (rect_right (_viewportRect (service w)) - rightBias) <=? x
    then startScrollX ScrollLeftInc w
    else w in
  if (y <=? Math_round (rect_top (_viewportRect (service w)))) &&
     (0 <? scrollTop (viewport w))
  then startScrollY ScrollTopDec w
  else if Math_round (rect_bottom (_viewportRect (service w)) - bottomBias) <=? y
  then startScrollY ScrollTopInc w
  else w.

Definition startThresholdPassed (draggable : DraggableItem) (x y : Z) : bool :=
  js_ge (Z.abs (clientX (mouseDownEvent draggable) - x))
        (startThreshold draggable) ||
  js_ge (Z.abs (clientY (mouseDownEvent draggable) - y))
        (startThreshold draggable).

(** The loop of [onViewportMouseMove] over the registered objects. *)
Fixpoint moveDraggables (ds : list DraggableItem) (x y : Z) (w : World)
  : Result (list DraggableItem * World) :=
  match ds with
  | [] => Ok ([], w)
  | d :: rest =>
      if startThresholdPassed d x y then
        b <- beginItemDrag d w ;;
        m <- moveDraggableElement (fst b) x y (snd b) ;;
        k <- moveDraggables rest x y (snd m) ;;
        Ok (fst m :: fst k, snd k)
      else
        k <- moveDraggables rest x y w ;;
        Ok (d :: fst k, snd k)
  end.

Definition onViewportMouseMove (event : MouseEvent) (w : World) : Result World :=
  let w := scrollViewportAsNeeded (clientX event) (clientY event) w in
  if isMouseOutsideViewport w (clientX event) (clientY event) then Ok w
  else
    let dx := js_or_zero (js_sub (pos_x (lastMousePos (service w)))
                            (clientX event)) in
    let dy := js_or_zero (js_sub (pos_y (lastMousePos (service w)))
                            (clientY event)) in
    let w := upd_service
               (set_lastDisplacement {| pos_x := Some dx; pos_y := Some dy |})
               w in
    let w := upd_service
               (set_lastMousePos {| pos_x := Some (clientX event);
                                    pos_y := Some (clientY event) |}) w in
    if (dx =? 0) && (dy =? 0) then Ok w
    else
      k <- moveDraggables (_draggables (service w))
             (clientX event) (clientY event) w ;;
      Ok (upd_service (set__draggables (fst k)) (snd k)).

Definition onVieportMouseUp (event : MouseEvent) (w : World) : Result World :=
  deactivate None w.

Definition registerDraggable (event : MouseEvent) (el' : ElementRef)
  (data' : any) (containerSelector draggingClass' draggedClass' : option string)
  (startThreshold' : option Z) (w : World) : World :=
  let w := set_viewportElement containerSelector w in
  let draggable :=
    {| id := None; el := el'; dragEl := None; data := data';
       draggedClass := draggedClass'; draggingClass := draggingClass';
       mouseDownEvent := event; pos := None; grabPoint := None;
       startThreshold := startThreshold';
       isDragging := false; cancelled := Some false |} in
  let w := upd_service
             (fun s => set__draggables (_draggables s ++ [draggable]) s) w in
  activate w.

(** ** Events and timers reaching the service *)

Definition EventTarget_eqb (a b : EventTarget) : bool :=
  match a, b with
  | OnElement x, OnElement y => Nat.eqb x y
  | OnWindow, OnWindow => true
  | _, _ => false
  end.

Definition EventType_eqb (a b : EventType) : bool :=
  match a, b with
  | mousemove, mousemove | resize, resize | mouseup, mouseup
  | mousedown, mousedown | keydown, keydown | blur, blur
  | mouseenter, mouseenter | mouseleave, mouseleave => true
  | _, _ => false
  end.

Definition listens (t : EventTarget) (ty : EventType) (l : Listener) : bool :=
  EventTarget_eqb (listener_target l) t && EventType_eqb (listener_type l) ty.

Definition run_callback (c : Callback) (event : MouseEvent) (w : World)
  : Result World :=
  match c with
  | CallOnVieportMouseUp => onVieportMouseUp event w
  | CallDeactivateCancelled => deactivate (Some true) w
  end.

Fixpoint run_callbacks (ls : list Listener) (event : MouseEvent) (w : World)
  : Result World :=
  match ls with
  | [] => Ok w
  | l :: rest =>
      w <- run_callback (listener_callback l) event w ;;
      run_callbacks rest event w
  end.

(** An event of type [ty] reaches target [t]: every listener that [activate]
    attached there behind [first()] runs once, in the order of attachment,
    and is gone afterwards. *)
Definition fire (t : EventTarget) (ty : EventType) (event : MouseEvent)
  (w : World) : Result World :=
  let fired := filter (listens t ty) (oneShots (browser w)) in
  let w := upd_browser
             (fun b => set_oneShots
                         (filter (fun l => negb (listens t ty l)) (oneShots b)) b)
             w in
  run_callbacks fired event w.

(** A sampled [mousemove] on element [t]: the handler runs once for every
    subscription that is still attached there. *)
Fixpoint emit_mousemove_to (subs : list Subscription) (t : ElementId)
  (event : MouseEvent) (w : World) : Result World :=
  match subs with
  | [] => Ok w
  | s :: rest =>
      if EventTarget_eqb (sub_target s) (OnElement t) &&
         EventType_eqb (sub_type s) mousemove
      then w <- onViewportMouseMove event w ;; emit_mousemove_to rest t event w
      else emit_mousemove_to rest t event w
  end.

Definition emit_mousemove (t : ElementId) (event : MouseEvent) (w : World)
  : Result World :=
  emit_mousemove_to (subscriptions (browser w)) t event w.

(** A debounced [resize] of the window. *)
Definition emit_resize (w : World) : World :=
  if existsb (fun s => EventTarget_eqb (sub_target s) OnWindow &&
                       EventType_eqb (sub_type s) resize)
       (subscriptions (browser w))
  then upd_service (set__viewportRect (boundingClientRect (viewport w))) w
  else w.

(** One tick of a running interval timer. *)
Definition run_timer (h : TimerHandler) (w : World) : World :=
  let v := _viewportElement (service w) in
  match h with
  | ScrollLeftDec =>
      upd_browser (update_node v (fun e => set_scrollLeft (scrollLeft e - 1) e)) w
  | ScrollLeftInc =>
      upd_browser (update_node v (fun e => set_scrollLeft (scrollLeft e + 1) e)) w
  | ScrollTopDec =>
      upd_browser (update_node v (fun e => set_scrollTop (scrollTop e - 1) e)) w
  | ScrollTopInc =>
      upd_browser (update_node v (fun e => set_scrollTop (scrollTop e + 1) e)) w
  end.

Definition tick (t : nat) (w : World) : World :=
  match find (fun p => Nat.eqb (fst p) t) (intervals (browser w)) with
  | Some p => run_timer (snd p) w
  | None => w
  end.

(** ** droppable.directive.ts *)

Module Droppable.

(** The object emitted on [ddOnDrop]. *)
Record DropEvent : Type := {
  drop_draggable : any;
  drop_droppable : any;
  drop_isDropTarget : bool;
  drop_cancelled : option bool
}.

(** The object emitted on [ddDroppableTest]. *)
Record TestEvent : Type := {
  test_draggable : any;
  test_droppable : any
}.

(** The two emitters [testDrop] and [drop] are kept as the sequence of
    objects emitted, oldest first; both are created with the directive, so
    the guards [if (this.testDrop)] and [if (this.drop)] always pass. *)
Record DroppableDirective : Type := {
  directive_el : ElementRef;
  dragging : bool;
  isDropTarget : bool;
  mouseEnterSubscription : option nat;
  mouseLeaveSubscription : option nat;
  testDrop : list TestEvent;
  droppable : any;
  acceptDrop : bool;
  droppableClasses : string;
  notDroppableClasses : string;
  hoverDelay : Z;
  drop : list DropEvent
}.

Definition set_dragging (v : bool) (d : DroppableDirective) : DroppableDirective :=
  {| directive_el := directive_el d; dragging := v;
     isDropTarget := isDropTarget d;
     mouseEnterSubscription := mouseEnterSubscription d;
     mouseLeaveSubscription := mouseLeaveSubscription d;
     testDrop := testDrop d; droppable := droppable d;
     acceptDrop := acceptDrop d; droppableClasses := droppableClasses d;
     notDroppableClasses := notDroppableClasses d;
     hoverDelay := hoverDelay d; drop := drop d |}.

Definition set_isDropTarget (v : bool) (d : DroppableDirective)
  : DroppableDirective :=
  {| directive_el := directive_el d; dragging := dragging d;
     isDropTarget := v;
     mouseEnterSubscription := mouseEnterSubscription d;
     mouseLeaveSubscription := mouseLeaveSubscription d;
     testDrop := testDrop d; droppable := droppable d;
     acceptDrop := acceptDrop d; droppableClasses := droppableClasses d;
     notDroppableClasses := notDroppableClasses d;
     hoverDelay := hoverDelay d; drop := drop d |}.

Definition set_mouseEnterSubscription (v : option nat) (d : DroppableDirective)
  : DroppableDirective :=
  {| directive_el := directive_el d; dragging := dragging d;
     isDropTarget := isDropTarget d;
     mouseEnterSubscription := v;
     mouseLeaveSubscription := mouseLeaveSubscription d;
     testDrop := testDrop d; droppable := droppable d;
     acceptDrop := acceptDrop d; droppableClasses := droppableClasses d;
     notDroppableClasses := notDroppableClasses d;
     hoverDelay := hoverDelay d; drop := drop d |}.

Definition set_mouseLeaveSubscription (v : option nat) (d : DroppableDirective)
  : DroppableDirective :=
  {| directive_el := directive_el d; dragging := dragging d;
     isDropTarget := isDropTarget d;
     mouseEnterSubscription := mouseEnterSubscription d;
     mouseLeaveSubscription := v;
     testDrop := testDrop d; droppable := droppable d;
     acceptDrop := acceptDrop d; droppableClasses := droppableClasses d;
     notDroppableClasses := notDroppableClasses d;
     hoverDelay := hoverDelay d; drop := drop d |}.

Definition set_testDrop (v : list TestEvent) (d : DroppableDirective)
  : DroppableDirective :=
  {| directive_el := directive_el d; dragging := dragging d;
     isDropTarget := isDropTarget d;
     mouseEnterSubscription := mouseEnterSubscription d;
     mouseLeaveSubscription := mouseLeaveSubscription d;
     testDrop := v; droppable := droppable d;
     acceptDrop := acceptDrop d; droppableClasses := droppableClasses d;
     notDroppableClasses := notDroppableClasses d;
     hoverDelay := hoverDelay d; drop := drop d |}.

Definition set_drop (v : list DropEvent) (d : DroppableDirective)
  : DroppableDirective :=
  {| directive_el := directive_el d; dragging := dragging d;
     isDropTarget := isDropTarget d;
     mouseEnterSubscription := mouseEnterSubscription d;
     mouseLeaveSubscription := mouseLeaveSubscription d;
     testDrop := testDrop d; droppable := droppable d;
     acceptDrop := acceptDrop d; droppableClasses := droppableClasses d;
     notDroppableClasses := notDroppableClasses d;
     hoverDelay := hoverDelay d; drop := v |}.

(** [new DroppableDirective(el, dragDropService)] with its inputs bound. *)
Definition new_DroppableDirective (e : ElementRef) (droppable' : any)
  (droppableClasses' notDroppableClasses' : string) : DroppableDirective :=
  {| directive_el := e; dragging := false; isDropTarget := false;
     mouseEnterSubscription := None; mouseLeaveSubscription := None;
     testDrop := []; droppable := droppable'; acceptDrop := false;
     droppableClasses := droppableClasses';
     notDroppableClasses := notDroppableClasses';
     hoverDelay := 0; drop := [] |}.

(** [onMouseEnter] calls the service's [addClasses] and [removeClasses]. *)
Definition onMouseEnter (d : DroppableDirective) (b : Browser)
  : DroppableDirective * Browser :=
  if negb (dragging d) then (d, b)
  else
    let d := set_isDropTarget true d in
    if acceptDrop d then
      (d, removeClasses (nativeElement (directive_el d))
            (Some (notDroppableClasses d))
            (addClasses (nativeElement (directive_el d))
               (Some (droppableClasses d)) b))
    else
      (d, removeClasses (nativeElement (directive_el d))
            (Some (droppableClasses d))
            (addClasses (nativeElement (directive_el d))
               (Some (notDroppableClasses d)) b)).

(** The directive's own [removeClasses()]. *)
Definition removeClasses (d : DroppableDirective) (b : Browser) : Browser :=
  let b := removeClasses (nativeElement (directive_el d))
             (Some (droppableClasses d)) b in
  removeClasses (nativeElement (directive_el d))
    (Some (notDroppableClasses d)) b.

Definition onDragging (d : DroppableDirective) (draggable : DraggableItem)
  (b : Browser) : DroppableDirective * Browser :=
  let d := set_testDrop
             (testDrop d ++ [{| test_draggable := data draggable;
                                test_droppable := droppable d |}]) d in
  let e := subscribe (OnElement (nativeElement (directive_el d))) mouseenter b in
  let d := set_mouseEnterSubscription (Some (fst e)) d in
  let l := subscribe (OnElement (nativeElement (directive_el d))) mouseleave
             (snd e) in
  let d := set_mouseLeaveSubscription (Some (fst l)) d in
  (set_dragging true d, snd l).

Definition onDropping (d : DroppableDirective) (draggable : DraggableItem)
  (b : Browser) : Result (DroppableDirective * Browser) :=
  let d := set_drop
             (drop d ++ [{| drop_draggable := data draggable;
                            drop_droppable := droppable d;
                            drop_isDropTarget := isDropTarget d;
                            drop_cancelled := cancelled draggable |}]) d in
  let d := set_dragging false d in
  e <- deref (mouseEnterSubscription d) ;;
  let b := unsubscribe e b in
  l <- deref (mouseLeaveSubscription d) ;;
  let b := unsubscribe l b in
  let d := set_isDropTarget false d in
  Ok (d, removeClasses d b).

Definition onMouseLeave (d : DroppableDirective) (b : Browser)
  : DroppableDirective * Browser :=
  if negb (dragging d) then (d, b)
  else
    let d := set_isDropTarget false d in
    (d, removeClasses d b).

End Droppable.

(** ** The event loop *)

(** What can happen to the service: a registration by a drag source, a
    sampled mouse move on an element, an event reaching the listeners behind
    [first()], a debounced resize, a tick of an interval timer. *)
Inductive Event : Type :=
| Register (event : MouseEvent) (e : ElementRef) (payload : any)
    (selector draggingClass' draggedClass' : option string)
    (threshold : option Z)
| SampledMove (t : ElementId) (event : MouseEvent)
| Fire (t : EventTarget) (ty : EventType) (event : MouseEvent)
| Resize
| Tick (t : nat).

Definition handle (e : Event) (w : World) : Result World :=
  match e with
  | Register event e payload selector draggingClass' draggedClass' threshold =>
      Ok (registerDraggable event e payload selector draggingClass'
            draggedClass' threshold w)
  | SampledMove t event => emit_mousemove t event w
  | Fire t ty event => fire t ty event w
  | Resize => Ok (emit_resize w)
  | Tick t => Ok (tick t w)
  end.

Fixpoint handle_all (es : list Event) (w : World) : Result World :=
  match es with
  | [] => Ok w
  | e :: rest => w <- handle e w ;; handle_all rest w
  end.

(** Feeding a sequence of sampled moves to the handler. *)
Fixpoint moves (evs : list MouseEvent) (w : World) : Result World :=
  match evs with
  | [] => Ok w
  | ev :: rest => w <- onViewportMouseMove ev w ;; moves rest w
  end.

(** ** Well-formed states *)

Definition is_some {A : Type} (o : option A) : bool :=
  match o with
  | Some _ => true
  | None => false
  end.

(** An object that is being dragged has its ghost, its position and its grab
    point. *)
Definition item_ok (d : DraggableItem) : bool :=
  implb (isDragging d)
    (is_some (pos d) && is_some (grabPoint d) && is_some (dragEl d)).

(** The service has been activated at least once: both saved subscriptions
    are defined. *)
Definition activated (w : World) : bool :=
  is_some (viewportMouseMoveSubscription (service w)) &&
  is_some (viewportResizeSubscription (service w)).

(** The listeners that [activate] attaches: the viewport's [mouseup] ends the
    drag normally, the four others abort it. *)
Definition listener_ok (l : Listener) : bool :=
  match listener_callback l, listener_target l, listener_type l with
  | CallOnVieportMouseUp, OnElement _, mouseup => true
  | CallDeactivateCancelled, OnElement _, mousedown => true
  | CallDeactivateCancelled, OnWindow, mouseup => true
  | CallDeactivateCancelled, OnWindow, keydown => true
  | CallDeactivateCancelled, OnWindow, blur => true
  | _, _, _ => false
  end.

(** Every running interval timer is one of the two the service remembers,
    with the horizontal handlers under [scrollXInterval] and the vertical
    ones under [scrollYInterval]. *)
Definition horizontal (h : TimerHandler) : bool :=
  match h with
  | ScrollLeftDec | ScrollLeftInc => true
  | _ => false
  end.

Definition timer_tracked (w : World) (p : nat * TimerHandler) : bool :=
  if horizontal (snd p)
  then match scrollXInterval (service w) with
       | Some t => Nat.eqb (fst p) t
       | None => false
       end
  else match scrollYInterval (service w) with
       | Some t => Nat.eqb (fst p) t
       | None => false
       end.

Definition timers_tracked (w : World) : bool :=
  forallb (timer_tracked w) (intervals (browser w)).

(** The horizontal and the vertical timers that are running. *)
Definition horizontal_timers (w : World) : list (nat * TimerHandler) :=
  filter (fun p => horizontal (snd p)) (intervals (browser w)).

Definition vertical_timers (w : World) : list (nat * TimerHandler) :=
  filter (fun p => negb (horizontal (snd p))) (intervals (browser w)).

(** The well-formedness that every handler relies on and keeps. *)
Definition invariant (w : World) : Prop :=
  Forall (fun d => item_ok d = true) (_draggables (service w)) /\
  Forall (fun l => listener_ok l = true) (oneShots (browser w)) /\
  timers_tracked w = true /\
  (oneShots (browser w) <> [] -> activated w = true).

(** ** Vocabulary of the properties *)

(** The abort routes, and the normal release. *)
Definition abort_route (t : EventTarget) (ty : EventType) : bool :=
  match t, ty with
  | OnElement _, mousedown => true
  | OnWindow, mouseup => true
  | OnWindow, keydown => true
  | OnWindow, blur => true
  | _, _ => false
  end.

Definition normal_route (t : EventTarget) (ty : EventType) : bool :=
  match t, ty with
  | OnElement _, mouseup => true
  | _, _ => false
  end.

(** The flag a callback of [activate] passes to [deactivate]. *)
Definition callback_cancelled (cb : Callback) : option bool :=
  match cb with
  | CallOnVieportMouseUp => None
  | CallDeactivateCancelled => Some true
  end.

(** The flag with which a route ends the drag. *)
Definition route_cancelled (t : EventTarget) (ty : EventType) : option bool :=
  if abort_route t ty then Some true else None.

(** What the object delivered on [_dropping] looks like. *)
Definition ended (c : option bool) (d : DraggableItem) : DraggableItem :=
  set_cancelled c (set_isDragging false d).

(** An object after the body of the loop of [dragStop]. *)
Definition stopped (c : option bool) (d : DraggableItem) : DraggableItem :=
  let d1 := if isDragging d then ended c d else d in
  match dragEl d1 with
  | Some _ => set_dragEl None d1
  | None => d1
  end.

(** The ghosts that a list of objects refers to. *)
Definition ghosts (ds : list DraggableItem) : list ElementId :=
  flat_map (fun d => match dragEl d with Some g => [g] | None => [] end) ds.


(** The ghost's rendered position: its inline [left] and [top]. *)
Definition rendered (w : World) (g : ElementId) : option Q * option Q :=
  (style_left (style (nodes (browser w) g)),
   style_top (style (nodes (browser w) g))).

(** A sampled move is processed when neither guard of the handler fires: the
    pointer is inside the viewport and it has moved since the last saved
    position. *)
Definition processed (event : MouseEvent) (w : World) : bool :=
  negb (isMouseOutsideViewport w (clientX event) (clientY event)) &&
  negb ((js_or_zero (js_sub (pos_x (lastMousePos (service w)))
                       (clientX event)) =? 0) &&
        (js_or_zero (js_sub (pos_y (lastMousePos (service w)))
                       (clientY event)) =? 0)).

(** The state in which the loop of [onViewportMouseMove] starts. *)
Definition before_loop (event : MouseEvent) (w : World) : World :=
  upd_service
    (set_lastMousePos {| pos_x := Some (clientX event);
                         pos_y := Some (clientY event) |})
    (upd_service
       (set_lastDisplacement
          {| pos_x := Some (js_or_zero
                              (js_sub (pos_x (lastMousePos (service w)))
                                 (clientX event)));
             pos_y := Some (js_or_zero
                              (js_sub (pos_y (lastMousePos (service w)))
                                 (clientY event))) |})
       (scrollViewportAsNeeded (clientX event) (clientY event) w)).

(** The objects that a move turns from not dragging to dragging. *)
Definition begins (x y : Z) (d : DraggableItem) : bool :=
  startThresholdPassed d x y && negb (isDragging d).

(** A pair (object before, object after) whose flag went from false to true. *)
Definition flipped (p : DraggableItem * DraggableItem) : bool :=
  negb (isDragging (fst p)) && isDragging (snd p).

(** The effect of one sampled move on one registered object: nothing below
    the threshold, otherwise the object is dragging and positioned at the
    pointer minus its grab point. *)
Definition moved (x y : Z) (d d' : DraggableItem) : Prop :=
  if startThresholdPassed d x y
  then isDragging d' = true /\
       item_ok d' = true /\
       mouseDownEvent d' = mouseDownEvent d /\
       startThreshold d' = startThreshold d /\
       (isDragging d = true -> grabPoint d' = grabPoint d) /\
       exists g, grabPoint d' = Some g /\
                 pos d' = Some {| point_x := (inject_Z x - point_x g)%Q;
                                  point_y := (inject_Z y - point_y g)%Q |}
  else d' = d.

(** Two states that differ at most in the interval timers. *)
Definition same_but_timers (w w' : World) : Prop :=
  _draggables (service w') = _draggables (service w) /\
  _dragging (service w') = _dragging (service w) /\
  _dropping (service w') = _dropping (service w) /\
  lastMousePos (service w') = lastMousePos (service w) /\
  lastDisplacement (service w') = lastDisplacement (service w) /\
  _viewportRect (service w') = _viewportRect (service w) /\
  _viewportElement (service w') = _viewportElement (service w) /\
  viewportMouseMoveSubscription (service w') =
    viewportMouseMoveSubscription (service w) /\
  viewportResizeSubscription (service w') =
    viewportResizeSubscription (service w) /\
  viewportCursor (service w') = viewportCursor (service w) /\
  nodes (browser w') = nodes (browser w) /\
  nextNode (browser w') = nextNode (browser w) /\
  subscriptions (browser w') = subscriptions (browser w) /\
  oneShots (browser w') = oneShots (browser w).

(** What [beginItemDrag] leaves alone in the service and the browser. *)
Definition begin_frame (w w' : World) : Prop :=
  _draggables (service w') = _draggables (service w) /\
  _dropping (service w') = _dropping (service w) /\
  lastMousePos (service w') = lastMousePos (service w) /\
  lastDisplacement (service w') = lastDisplacement (service w) /\
  _viewportRect (service w') = _viewportRect (service w) /\
  _viewportElement (service w') = _viewportElement (service w) /\
  viewportMouseMoveSubscription (service w') =
    viewportMouseMoveSubscription (service w) /\
  viewportResizeSubscription (service w') =
    viewportResizeSubscription (service w) /\
  scrollXInterval (service w') = scrollXInterval (service w) /\
  scrollYInterval (service w') = scrollYInterval (service w) /\
  intervals (browser w') = intervals (browser w) /\
  subscriptions (browser w') = subscriptions (browser w) /\
  oneShots (browser w') = oneShots (browser w).

(** Two states of the service that differ at most in what was pushed on
    [_dropping]. *)
Definition service_but_dropping (s s' : DragDropService) : Prop :=
  _draggables s' = _draggables s /\
  _dragging s' = _dragging s /\
  lastMousePos s' = lastMousePos s /\
  lastDisplacement s' = lastDisplacement s /\
  _viewportRect s' = _viewportRect s /\
  _viewportElement s' = _viewportElement s /\
  viewportMouseMoveSubscription s' = viewportMouseMoveSubscription s /\
  viewportResizeSubscription s' = viewportResizeSubscription s /\
  viewportCursor s' = viewportCursor s /\
  scrollXInterval s' = scrollXInterval s /\
  scrollYInterval s' = scrollYInterval s /\
  scrollIntervalDelay s' = scrollIntervalDelay s.

(** What [dragStop] and [deactivate] leave alone in the browser: everything
    but the class lists, the children of the viewport and its cursor. *)
Definition stop_frame (b b' : Browser) : Prop :=
  nextNode b' = nextNode b /\
  intervals b' = intervals b /\
  nextInterval b' = nextInterval b /\
  subscriptions b' = subscriptions b /\
  nextSubscription b' = nextSubscription b /\
  oneShots b' = oneShots b.

(** ** A concrete page

    The page of [dragdrop.service.spec.ts]: a 300 by 300 container
    [#testContainer] holding a drag target and a drop target, used to run the
    methods on concrete inputs. *)

Definition rect (l t r b : Z) : ClientRect :=
  {| rect_left := inject_Z l; rect_top := inject_Z t;
     rect_right := inject_Z r; rect_bottom := inject_Z b;
     rect_width := inject_Z (r - l); rect_height := inject_Z (b - t) |}.

(** A node with the given rectangle and cursor and nothing to scroll. *)
Definition element (rc : ClientRect) (c : string) (classes : list string)
  : HTMLElement :=
  {| style := set_cursor c empty_style; classList := classes; childNodes := [];
     scrollLeft := 0; scrollTop := 0;
     scrollWidth := Qfloor (rect_width rc); clientWidth := Qfloor (rect_width rc);
     scrollHeight := Qfloor (rect_height rc);
     clientHeight := Qfloor (rect_height rc);
     boundingClientRect := rc |}.

Definition page_body : ElementId := 0%nat.
Definition testContainer : ElementId := 1%nat.
Definition dragTarget : ElementId := 2%nat.
Definition dropTarget : ElementId := 3%nat.

Definition page : Browser :=
  {| nodes := fun i =>
       match i with
       | 0%nat => element (rect 0 0 1000 800) EmptyString []
       | 1%nat => element (rect 0 0 300 300) "default" []
       | 2%nat => element (rect 40 40 60 60) EmptyString []
       | 3%nat => element (rect 200 200 260 260) EmptyString ["ok"%string]
       | _ => new_div
       end;
     nextNode := 4%nat;
     selectors := fun s =>
       if String.eqb s "body" then Some page_body
       else if String.eqb s "#testContainer" then Some testContainer
       else None;
     body := page_body;
     intervals := []; nextInterval := 0%nat;
     subscriptions := []; nextSubscription := 0%nat; oneShots := [] |}.

Definition mouse (x y : Z) : MouseEvent :=
  {| clientX := x; clientY := y; button := 0 |}.

(** The service just constructed, and after the drag source directive has
    registered the drag target on a mouse-down at (50, 50) with the
    directive's default threshold of 10 pixels. *)
Definition idle : World := new_DragDropService page.

Definition register_card (w : World) : World :=
  registerDraggable (mouse 50 50) {| nativeElement := dragTarget |}
    (JSString "card") (Some "#testContainer"%string)
    (Some "ghost"%string) (Some "lifted"%string) (Some 10) w.

Definition registered : World := register_card idle.

(** The scenario of the specification: threshold 10, origin (50, 50). *)
Definition card : DraggableItem :=
  {| id := None; el := {| nativeElement := dragTarget |}; dragEl := None;
     data := JSString "card"; draggedClass := Some "lifted"%string;
     draggingClass := Some "ghost"%string; mouseDownEvent := mouse 50 50;
     pos := None; grabPoint := None; startThreshold := Some 10;
     isDragging := false; cancelled := Some false |}.

(** The state a run ended in, or a default if it raised. *)
Definition state_after (r : Result World) (w : World) : World :=
  match r with
  | Ok w' => w'
  | Throw _ => w
  end.

Definition is_Ok {A : Type} (r : Result A) : bool :=
  match r with
  | Ok _ => true
  | Throw _ => false
  end.

(** The concrete page after some sampled moves. *)
Definition after (evs : list MouseEvent) (w : World) : World :=
  state_after (moves evs w) w.

(** The concrete page after the first sampled move, which the handler
    discards. *)
Definition after_first_move : World := after [mouse 55 53] registered.

(** The card once its drag has begun: first move discarded, second move one
    pixel beyond the threshold. *)
Definition dragging_card : World :=
  after [mouse 55 53; mouse 61 50] registered.



(** The is-dragging flags of the registered objects after a run, [None] if
    the run raised. *)
Definition dragging_flags (r : Result World) : option (list bool) :=
  match r with
  | Ok w => Some (map isDragging (_draggables (service w)))
  | Throw _ => None
  end.

(** The cancelled flags of the objects pushed on [_dropping] by a run. *)
Definition dropped_flags (r : Result World) : option (list (option bool)) :=
  match r with
  | Ok w => Some (map cancelled (_dropping (service w)))
  | Throw _ => None
  end.

(** The cursor of the viewport after a run, [None] if the run raised. *)
Definition viewport_cursor (r : Result World) : option string :=
  match r with
  | Ok w => Some (cursor (style (viewport w)))
  | Throw _ => None
  end.

(** For each registered object after a run: its grab point, its position and
    the rendered position of its ghost. *)
Definition ghost_positions (r : Result World)
  : option (list (option Point * option Point * (option Q * option Q))) :=
  match r with
  | Ok w =>
      Some (map (fun d => (grabPoint d, pos d,
                           match dragEl d with
                           | Some g => rendered w g
                           | None => (None, None)
                           end))
              (_draggables (service w)))
  | Throw _ => None
  end.

(** ** draggable.directive.ts *)

Module Draggable.

(** The directive with its inputs. [containerSelector] and [data] are
    [undefined] unless the template binds them; the others carry the
    initialisers of the source. *)
Record DraggableDirective : Type := {
  directive_el : ElementRef;
  containerSelector : option string;
  data : any;
  canDrag : bool;
  draggedClasses : string;
  draggingClasses : string;
  dragStartThreshold : Z
}.

Definition new_DraggableDirective (e : ElementRef) : DraggableDirective :=
  {| directive_el := e; containerSelector := None; data := Undefined;
     canDrag := true; draggedClasses := EmptyString;
     draggingClasses := EmptyString; dragStartThreshold := 10 |}.

(** What a host listener has done when it returns: the state it leaves, the
    custom events it dispatched on the document, and whether it called
    [preventDefault] and [stopPropagation] on its event. *)
Record Handled : Type := {
  world : World;
  dispatched : list string;
  defaultPrevented : bool;
  propagationStopped : bool
}.

Definition onMouseDown (d : DraggableDirective) (event : MouseEvent) (w : World)
  : Handled :=
  if negb (button event =? 0) then
    {| world := w; dispatched := []; defaultPrevented := false;
       propagationStopped := false |}
  else if negb (canDrag d) then
    {| world := w; dispatched := []; defaultPrevented := false;
       propagationStopped := false |}
  else
    {| world := registerDraggable event (directive_el d) (data d)
                  (containerSelector d) (Some (draggingClasses d))
                  (Some (draggedClasses d)) (Some (dragStartThreshold d)) w;
       dispatched := ["dragstart"%string];
       defaultPrevented := true;
       propagationStopped := true |}.

Definition onDragStart (w : World) : Handled :=
  {| world := w; dispatched := []; defaultPrevented := true;
     propagationStopped := false |}.

End Draggable.

(** ** A mouse-down on a drag source

    The host listener of the directive runs first, on the source element.
    Unless it stopped the propagation, the event then visits the ancestors of
    the source, innermost first, and the window, where the listeners that
    [activate] attached behind [first()] hear it. A drag source lies inside
    its viewport, so the service has no listener on the source element
    itself. *)

Fixpoint bubble (path : list EventTarget) (ty : EventType) (event : MouseEvent)
  (w : World) : Result World :=
  match path with
  | [] => Ok w
  | t :: rest => w <- fire t ty event w ;; bubble rest ty event w
  end.

Definition mousedown_on_source (d : Draggable.DraggableDirective)
  (ancestors : list ElementId) (event : MouseEvent) (w : World) : Result World :=
  let h := Draggable.onMouseDown d event w in
  if Draggable.propagationStopped h then Ok (Draggable.world h)
  else bubble (map OnElement ancestors ++ [OnWindow]) mousedown event
         (Draggable.world h).

(** ** droppable.directive.ts: the hover timer and the events of a drop target *)

Module Hover.

(** A drop target with its hover timer: [hoverTimer] is the handle the
    directive remembers ([undefined] at first), [timeouts] the timeouts it
    has set that have neither fired nor been cleared, oldest first. Each of
    them, when it fires, calls [onMouseEnter]. *)
Record Target : Type := {
  directive : Droppable.DroppableDirective;
  hoverTimer : option nat;
  timeouts : list nat;
  nextTimeout : nat
}.

Definition new_Target (d : Droppable.DroppableDirective) : Target :=
  {| directive := d; hoverTimer := None; timeouts := []; nextTimeout := 0%nat |}.

Definition set_directive (d : Droppable.DroppableDirective) (h : Target)
  : Target :=
  {| directive := d; hoverTimer := hoverTimer h; timeouts := timeouts h;
     nextTimeout := nextTimeout h |}.

(** [clearTimeout(id)]; clearing [undefined] or a timeout that is gone does
    nothing. *)
Definition clearTimeout (t : option nat) (l : list nat) : list nat :=
  match t with
  | Some n => filter (fun x => negb (Nat.eqb x n)) l
  | None => l
  end.

(** The callback of the [mouseenter] subscription:
    [clearTimeout(this.hoverTimer); this.hoverTimer = setTimeout(...)]. *)
Definition mouseenter_callback (h : Target) : Target :=
  {| directive := directive h;
     hoverTimer := Some (nextTimeout h);
     timeouts := clearTimeout (hoverTimer h) (timeouts h) ++ [nextTimeout h];
     nextTimeout := S (nextTimeout h) |}.

(** The callback of the [mouseleave] subscription:
    [clearTimeout(this.hoverTimer); this.onMouseLeave(event)]. *)
Definition mouseleave_callback (h : Target) (b : Browser) : Target * Browser :=
  let r := Droppable.onMouseLeave (directive h) b in
  ({| directive := fst r;
      hoverTimer := hoverTimer h;
      timeouts := clearTimeout (hoverTimer h) (timeouts h);
      nextTimeout := nextTimeout h |},
   snd r).

(** The subscriptions of a given type that are attached to an element. *)
Definition attached (e : ElementId) (ty : EventType) (b : Browser)
  : list Subscription :=
  filter (fun s => EventTarget_eqb (sub_target s) (OnElement e) &&
                   EventType_eqb (sub_type s) ty)
    (subscriptions b).

(** The pointer enters the element of the target: the callback runs once for
    every [mouseenter] subscription attached there. *)
Definition mouseenter_event (h : Target) (b : Browser) : Target :=
  fold_left (fun h _ => mouseenter_callback h)
    (attached (nativeElement (Droppable.directive_el (directive h)))
       mouseenter b)
    h.

(** The pointer leaves the element of the target. *)
Definition mouseleave_event (h : Target) (b : Browser) : Target * Browser :=
  fold_left (fun p _ => mouseleave_callback (fst p) (snd p))
    (attached (nativeElement (Droppable.directive_el (directive h)))
       mouseleave b)
    (h, b).

(** The timeout [t] fires, if it is still pending. *)
Definition timeout (t : nat) (h : Target) (b : Browser) : Target * Browser :=
  if existsb (Nat.eqb t) (timeouts h) then
    let r := Droppable.onMouseEnter (directive h) b in
    ({| directive := fst r;
        hoverTimer := hoverTimer h;
        timeouts := filter (fun x => negb (Nat.eqb x t)) (timeouts h);
        nextTimeout := nextTimeout h |},
     snd r)
  else (h, b).

(** The host component binds [ddAcceptDrop]; it is expected to do so in its
    handler of the test notification. *)
Definition set_acceptDrop (v : bool) (d : Droppable.DroppableDirective)
  : Droppable.DroppableDirective :=
  {| Droppable.directive_el := Droppable.directive_el d;
     Droppable.dragging := Droppable.dragging d;
     Droppable.isDropTarget := Droppable.isDropTarget d;
     Droppable.mouseEnterSubscription := Droppable.mouseEnterSubscription d;
     Droppable.mouseLeaveSubscription := Droppable.mouseLeaveSubscription d;
     Droppable.testDrop := Droppable.testDrop d;
     Droppable.droppable := Droppable.droppable d;
     Droppable.acceptDrop := v;
     Droppable.droppableClasses := Droppable.droppableClasses d;
     Droppable.notDroppableClasses := Droppable.notDroppableClasses d;
     Droppable.hoverDelay := Droppable.hoverDelay d;
     Droppable.drop := Droppable.drop d |}.

(** What can happen to a drop target: the two broadcasts of the service, the
    pointer entering or leaving its element, one of its timeouts firing, the
    host binding [ddAcceptDrop]. *)
Inductive TargetEvent : Type :=
| Dragging (item : DraggableItem)
| Dropping (item : DraggableItem)
| MouseEnter
| MouseLeave
| Timeout (t : nat)
| Accept (a : bool).

Definition handle (e : TargetEvent) (s : Target * Browser)
  : Result (Target * Browser) :=
  match e with
  | Dragging item =>
      let r := Droppable.onDragging (directive (fst s)) item (snd s) in
      Ok (set_directive (fst r) (fst s), snd r)
  | Dropping item =>
      r <- Droppable.onDropping (directive (fst s)) item (snd s) ;;
      Ok (set_directive (fst r) (fst s), snd r)
  | MouseEnter => Ok (mouseenter_event (fst s) (snd s), snd s)
  | MouseLeave => Ok (mouseleave_event (fst s) (snd s))
  | Timeout t => Ok (timeout t (fst s) (snd s))
  | Accept a =>
      Ok (set_directive (set_acceptDrop a (directive (fst s))) (fst s), snd s)
  end.

Fixpoint handle_all (es : list TargetEvent) (s : Target * Browser)
  : Result (Target * Browser) :=
  match es with
  | [] => Ok s
  | e :: rest => s <- handle e s ;; handle_all rest s
  end.

End Hover.
(** ** The directives on the concrete page *)

(** The drag source directive on the drag target of the page, and a press of
    the secondary button. *)
Definition card_source : Draggable.DraggableDirective :=
  {| Draggable.directive_el := {| nativeElement := dragTarget |};
     Draggable.containerSelector := Some "#testContainer"%string;
     Draggable.data := JSString "card";
     Draggable.canDrag := true;
     Draggable.draggedClasses := "lifted";
     Draggable.draggingClasses := "ghost";
     Draggable.dragStartThreshold := 10 |}.

Definition secondary_button (x y : Z) : MouseEvent :=
  {| clientX := x; clientY := y; button := 2 |}.

(** ** Vocabulary of the further properties *)










(** The drop target [zone] of the concrete page, below, once it has received
    the "dragging" broadcast for the card and the pointer has entered its
    element: a hover timeout is pending. *)
Definition hovering (d : Droppable.DroppableDirective) (b : Browser)
  : Hover.Target * Browser :=
  let r := Droppable.onDragging d card b in
  (Hover.mouseenter_event (Hover.set_directive (fst r) (Hover.new_Target d))
     (snd r),
   snd r).

(** What a run of a drop target shows: whether it is a drop target, the
    classes of its element and its pending timeouts; [None] if it raised. *)
Definition target_shows (r : Result (Hover.Target * Browser))
  : option (bool * list string * list nat) :=
  match r with
  | Ok s =>
      Some (Droppable.isDropTarget (Hover.directive (fst s)),
            classList (nodes (snd s)
                         (nativeElement
                            (Droppable.directive_el (Hover.directive (fst s))))),
            Hover.timeouts (fst s))
  | Throw _ => None
  end.

(** A drop target on the drop element of the concrete page, with feedback
    classes that the page does not use. *)
Definition zone : Droppable.DroppableDirective :=
  Droppable.new_DroppableDirective {| nativeElement := dropTarget |}
    (JSString "zone") "accepts" "rejects".

(** The ghost of a dragging object is drawn where the object says it is: the
    inline [left] and [top] of the ghost are the object's position. *)
Definition ghost_drawn (w : World) (d : DraggableItem) : Prop :=
  isDragging d = true ->
  exists g p,
    dragEl d = Some g /\ pos d = Some p /\
    (g < nextNode (browser w))%nat /\
    rendered w g = (Some (point_x p), Some (point_y p)).

(** Every dragging object has its ghost drawn at its position, and no two
    dragging objects share a ghost. *)
Definition ghosts_drawn (w : World) : Prop :=
  Forall (ghost_drawn w) (_draggables (service w)) /\
  NoDup (ghosts (filter isDragging (_draggables (service w)))).

(** The subscription handles in use are below the next fresh one. *)
Definition fresh_subscriptions (b : Browser) : Prop :=
  Forall (fun s => (sub_id s < nextSubscription b)%nat) (subscriptions b).

(** * Properties *)

(** ** Helpers on numbers and results *)

(** Splits a conjunction into its conjuncts, leaving equivalences whole. *)
Ltac split_ands :=
  repeat match goal with
         | |- _ /\ _ => split
         end.

Lemma Qltb_lt (a b : Q) : Qltb a b = true <-> (a < b)%Q.
Proof.
  unfold Qltb. rewrite negb_true_iff. split.
  - intro H. apply Qnot_le_lt. intro L.
    apply Qle_bool_iff in L. congruence.
  - intro H. destruct (Qle_bool b a) eqn:E; [|reflexivity].
    apply Qle_bool_iff in E. exfalso. exact (Qlt_not_le _ _ H E).
Qed.

Lemma js_ge_spec (n : Z) (t : option Z) :
  js_ge n t = true <-> exists k, t = Some k /\ k <= n.
Proof.
  unfold js_ge. destruct t as [k|].
  - rewrite Z.leb_le. split.
    + intro H. exists k. auto.
    + intros [k' [E H]]. injection E as ->. exact H.
  - split; [discriminate|]. intros [k [E _]]. discriminate.
Qed.

Lemma js_or_zero_undefined (b : Z) : js_or_zero (js_sub None b) = 0.
Proof. reflexivity. Qed.

Example Math_round_halves_go_up :
  Math_round (5 # 2) = 3 /\ Math_round (-5 # 2) = -2 /\
  Math_round (149 # 10) = 15 /\ Math_round (inject_Z 300 - 2) = 298.
Proof. repeat split. Qed.

Example split_on_single_spaces :
  split "lifted" = ["lifted"%string] /\
  split "a b" = ["a"%string; "b"%string] /\
  split "a  b" = ["a"%string; EmptyString; "b"%string].
Proof. repeat split. Qed.

Lemma bind_Ok {A B : Type} (m : Result A) (k : A -> Result B) (b : B) :
  bind m k = Ok b -> exists a, m = Ok a /\ k a = Ok b.
Proof.
  destruct m as [a|e]; simpl; intro H; [|discriminate].
  exists a. auto.
Qed.

Lemma Ok_state_after (r : Result World) (w : World) :
  is_Ok r = true -> r = Ok (state_after r w).
Proof. destruct r; [reflexivity|discriminate]. Qed.

(** ** The threshold test *)

Lemma startThresholdPassed_iff (d : DraggableItem) (x y : Z) :
  startThresholdPassed d x y = true <->
  exists t, startThreshold d = Some t /\
            (t <= Z.abs (clientX (mouseDownEvent d) - x) \/
             t <= Z.abs (clientY (mouseDownEvent d) - y)).
Proof.
  unfold startThresholdPassed. rewrite orb_true_iff, !js_ge_spec. split.
  - intros [[t [E H]]|[t [E H]]]; exists t; auto.
  - intros [t [E [H|H]]]; [left|right]; exists t; auto.
Qed.

(** ** States that differ in the timers only *)

Lemma same_but_timers_refl (w : World) : same_but_timers w w.
Proof. unfold same_but_timers. repeat split. Qed.

Lemma same_but_timers_trans (a b c : World) :
  same_but_timers a b -> same_but_timers b c -> same_but_timers a c.
Proof.
  unfold same_but_timers. intros H1 H2.
  decompose [and] H1. decompose [and] H2.
  repeat split; congruence.
Qed.

Lemma clearInterval_frame (t : option nat) (b : Browser) :
  nodes (clearInterval t b) = nodes b /\
  nextNode (clearInterval t b) = nextNode b /\
  subscriptions (clearInterval t b) = subscriptions b /\
  oneShots (clearInterval t b) = oneShots b /\
  nextInterval (clearInterval t b) = nextInterval b.
Proof. destruct t; repeat split. Qed.

Lemma clearScrollIntervals_same (w : World) :
  same_but_timers w (clearScrollIntervals w).
Proof.
  unfold same_but_timers, clearScrollIntervals. simpl.
  destruct (clearInterval_frame (scrollYInterval (service w))
              (clearInterval (scrollXInterval (service w)) (browser w)))
    as (N & X & S & O & _).
  destruct (clearInterval_frame (scrollXInterval (service w)) (browser w))
    as (N' & X' & S' & O' & _).
  repeat split; congruence.
Qed.

Lemma startScrollX_same (h : TimerHandler) (w : World) :
  same_but_timers w (startScrollX h w).
Proof. unfold same_but_timers. repeat split. Qed.

Lemma startScrollY_same (h : TimerHandler) (w : World) :
  same_but_timers w (startScrollY h w).
Proof. unfold same_but_timers. repeat split. Qed.

Lemma scrollViewportAsNeeded_same (x y : Z) (w : World) :
  same_but_timers w (scrollViewportAsNeeded x y w).
Proof.
  unfold scrollViewportAsNeeded. cbv zeta.
  set (w1 := clearScrollIntervals w).
  assert (H1 : same_but_timers w w1) by apply clearScrollIntervals_same.
  set (w2 := if (x <=? Math_round (rect_left (_viewportRect (service w1)))) &&
                (0 <? scrollLeft (viewport w1))
             then startScrollX ScrollLeftDec w1
             else if Math_round (rect_right (_viewportRect (service w1)) - 2)
                     <=? x
                  then startScrollX ScrollLeftInc w1 else w1).
  assert (H2 : same_but_timers w w2).
  { subst w2.
    destruct ((x <=? Math_round (rect_left (_viewportRect (service w1)))) &&
              (0 <? scrollLeft (viewport w1))).
    - eapply same_but_timers_trans; [exact H1|apply startScrollX_same].
    - destruct (Math_round (rect_right (_viewportRect (service w1)) - 2) <=? x).
      + eapply same_but_timers_trans; [exact H1|apply startScrollX_same].
      + exact H1. }
  clearbody w2.
  destruct ((y <=? Math_round (rect_top (_viewportRect (service w2)))) &&
            (0 <? scrollTop (viewport w2))).
  - eapply same_but_timers_trans; [exact H2|apply startScrollY_same].
  - destruct (Math_round (rect_bottom (_viewportRect (service w2)) - 3) <=? y).
    + eapply same_but_timers_trans; [exact H2|apply startScrollY_same].
    + exact H2.
Qed.

Lemma isMouseOutsideViewport_rect (w w' : World) (x y : Z) :
  _viewportRect (service w') = _viewportRect (service w) ->
  isMouseOutsideViewport w' x y = isMouseOutsideViewport w x y.
Proof. unfold isMouseOutsideViewport. intros ->. reflexivity. Qed.

Lemma isMouseOutsideViewport_iff (w : World) (mouseX mouseY : Z) :
  isMouseOutsideViewport w mouseX mouseY = true <->
  (inject_Z mouseX < rect_left (_viewportRect (service w)) \/
   rect_right (_viewportRect (service w)) < inject_Z mouseX \/
   inject_Z mouseY < rect_top (_viewportRect (service w)) \/
   rect_bottom (_viewportRect (service w)) < inject_Z mouseY)%Q.
Proof.
  unfold isMouseOutsideViewport.
  rewrite !orb_true_iff, !Qltb_lt. tauto.
Qed.

(** A move outside the viewport returns right after the scroll evaluation. *)
Lemma onViewportMouseMove_outside (event : MouseEvent) (w : World) :
  isMouseOutsideViewport w (clientX event) (clientY event) = true ->
  onViewportMouseMove event w =
  Ok (scrollViewportAsNeeded (clientX event) (clientY event) w).
Proof.
  intro H. unfold onViewportMouseMove. cbv zeta.
  rewrite (isMouseOutsideViewport_rect w).
  - rewrite H. reflexivity.
  - apply scrollViewportAsNeeded_same.
Qed.

(** A move with no last position, or at the last position, returns after
    saving the position. *)
Lemma onViewportMouseMove_still (event : MouseEvent) (w : World) :
  isMouseOutsideViewport w (clientX event) (clientY event) = false ->
  js_or_zero (js_sub (pos_x (lastMousePos (service w))) (clientX event)) = 0 ->
  js_or_zero (js_sub (pos_y (lastMousePos (service w))) (clientY event)) = 0 ->
  onViewportMouseMove event w =
  Ok (upd_service
        (set_lastMousePos {| pos_x := Some (clientX event);
                             pos_y := Some (clientY event) |})
        (upd_service
           (set_lastDisplacement {| pos_x := Some 0; pos_y := Some 0 |})
           (scrollViewportAsNeeded (clientX event) (clientY event) w))).
Proof.
  intros H X Y. unfold onViewportMouseMove. cbv zeta.
  pose proof (scrollViewportAsNeeded_same (clientX event) (clientY event) w) as S.
  destruct S as (_ & _ & _ & L & _ & R & _).
  rewrite (isMouseOutsideViewport_rect w _ _ _ R), H, L, X, Y.
  reflexivity.
Qed.

(** ** Class lists *)

Lemma update_node_same (e : ElementId) (f : HTMLElement -> HTMLElement)
  (b : Browser) : nodes (update_node e f b) e = f (nodes b e).
Proof. unfold update_node. simpl. rewrite Nat.eqb_refl. reflexivity. Qed.

Lemma update_node_other (e i : ElementId) (f : HTMLElement -> HTMLElement)
  (b : Browser) : i <> e -> nodes (update_node e f b) i = nodes b i.
Proof.
  intro H. unfold update_node. simpl.
  apply Nat.eqb_neq in H. rewrite H. reflexivity.
Qed.

Lemma stop_frame_refl (b : Browser) : stop_frame b b.
Proof. unfold stop_frame. repeat split. Qed.

Lemma stop_frame_trans (a b c : Browser) :
  stop_frame a b -> stop_frame b c -> stop_frame a c.
Proof.
  unfold stop_frame. intros H1 H2.
  decompose [and] H1. decompose [and] H2.
  repeat split; congruence.
Qed.

(** Rewriting the class list of one node, token by token. *)
Lemma fold_classList (F : string -> list string -> list string)
  (e : ElementId) (toks : list string) :
  forall b,
    let b' := fold_left
                (fun b tok => update_node e (set_classList (F tok)) b) toks b in
    stop_frame b b' /\
    (forall i, style (nodes b' i) = style (nodes b i)) /\
    (forall i, childNodes (nodes b' i) = childNodes (nodes b i)) /\
    classList (nodes b' e) =
      fold_left (fun l tok => F tok l) toks (classList (nodes b e)) /\
    (forall i, i <> e -> classList (nodes b' i) = classList (nodes b i)).
Proof.
  induction toks as [|tok toks IH]; intro b; simpl.
  - unfold stop_frame. repeat split.
  - destruct (IH (update_node e (set_classList (F tok)) b))
      as (S & St & Ch & Cl & Ot).
    split; [exact S|].
    split.
    { intro i. rewrite St. unfold update_node. simpl.
      destruct (i =? e)%nat; reflexivity. }
    split.
    { intro i. rewrite Ch. unfold update_node. simpl.
      destruct (i =? e)%nat; reflexivity. }
    split.
    { rewrite Cl, update_node_same. reflexivity. }
    intros i N. rewrite (Ot i N), (update_node_other e i _ b N). reflexivity.
Qed.

Lemma removeClasses_frame (e : ElementId) (classes : option string)
  (b : Browser) :
  stop_frame b (removeClasses e classes b) /\
  (forall i, style (nodes (removeClasses e classes b) i) = style (nodes b i)) /\
  (forall i, childNodes (nodes (removeClasses e classes b) i) =
             childNodes (nodes b i)).
Proof.
  unfold removeClasses. destruct classes as [s|].
  - destruct (falsy_string (Some s)).
    + unfold stop_frame. repeat split.
    + destruct (fold_classList classList_remove e (split s) b)
        as (S & St & Ch & _). auto.
  - unfold stop_frame. repeat split.
Qed.

Lemma addClasses_frame (e : ElementId) (classes : option string) (b : Browser) :
  stop_frame b (addClasses e classes b).
Proof.
  unfold addClasses. destruct classes as [s|]; [|apply stop_frame_refl].
  destruct (falsy_string (Some s)); [apply stop_frame_refl|].
  apply (fold_classList classList_add e (split s) b).
Qed.

Lemma addClasses_intervals (e : ElementId) (classes : option string)
  (b : Browser) : intervals (addClasses e classes b) = intervals b.
Proof. apply (addClasses_frame e classes b). Qed.

Lemma addClasses_subscriptions (e : ElementId) (classes : option string)
  (b : Browser) : subscriptions (addClasses e classes b) = subscriptions b.
Proof. apply (addClasses_frame e classes b). Qed.

Lemma addClasses_oneShots (e : ElementId) (classes : option string)
  (b : Browser) : oneShots (addClasses e classes b) = oneShots b.
Proof. apply (addClasses_frame e classes b). Qed.




(** ** Beginning a drag and moving the ghost *)

Lemma beginItemDrag_dragging (d : DraggableItem) (w : World) :
  isDragging d = true -> beginItemDrag d w = Ok (d, w).
Proof. intro H. unfold beginItemDrag. rewrite H. reflexivity. Qed.

Lemma begin_frame_refl (w : World) : begin_frame w w.
Proof. unfold begin_frame. repeat split. Qed.

Lemma begin_frame_trans (a b c : World) :
  begin_frame a b -> begin_frame b c -> begin_frame a c.
Proof.
  unfold begin_frame. intros H1 H2.
  decompose [and] H1. decompose [and] H2.
  repeat split; congruence.
Qed.

Lemma beginItemDrag_fresh (d : DraggableItem) (w : World) :
  isDragging d = false ->
  exists d' w',
    beginItemDrag d w = Ok (d', w') /\
    isDragging d' = true /\
    item_ok d' = true /\
    mouseDownEvent d' = mouseDownEvent d /\
    startThreshold d' = startThreshold d /\
    data d' = data d /\
    el d' = el d /\
    cancelled d' = cancelled d /\
    grabPoint d' =
      Some {| point_x :=
                (inject_Z (clientX (mouseDownEvent d)) -
                 rect_left (boundingClientRect
                              (nodes (browser w) (nativeElement (el d)))))%Q;
              point_y :=
                (inject_Z (clientY (mouseDownEvent d)) -
                 rect_top (boundingClientRect
                             (nodes (browser w) (nativeElement (el d)))))%Q |} /\
    dragEl d' = Some (S (nextNode (browser w))) /\
    viewportCursor (service w') = Some (cursor (style (viewport w))) /\
    _dragging (service w') = _dragging (service w) ++ [d'] /\
    begin_frame w w'.
Proof.
  intro H. unfold beginItemDrag. rewrite H. cbv zeta.
  eexists. eexists. split; [reflexivity|].
  unfold begin_frame, item_ok. cbn -[addClasses].
  split_ands; try reflexivity;
    try (destruct (nativeElement (el d) =? _viewportElement (service w))%nat;
         reflexivity);
    repeat (rewrite ?addClasses_intervals, ?addClasses_subscriptions,
              ?addClasses_oneShots; cbn -[addClasses]);
    reflexivity.
Qed.

Lemma moveDraggableElement_Ok (d : DraggableItem) (left top : Z) (w : World)
  (p g : Point) (e : ElementId) :
  pos d = Some p -> grabPoint d = Some g -> dragEl d = Some e ->
  moveDraggableElement d left top w =
  Ok (set_pos (Some {| point_x := (inject_Z left - point_x g)%Q;
                       point_y := (inject_Z top - point_y g)%Q |}) d,
      upd_browser
        (update_node e
           (set_style (set_style_top (Some (inject_Z top - point_y g)%Q))))
        (upd_browser
           (update_node e
              (set_style (set_style_left (Some (inject_Z left - point_x g)%Q))))
           w)).
Proof.
  intros P G E. unfold moveDraggableElement. rewrite P, G. simpl.
  rewrite E. reflexivity.
Qed.

(** After [moveDraggableElement] the ghost is rendered at the pointer minus the
    grab point, and the grab point is the one it was. *)
Lemma moveDraggableElement_spec (d : DraggableItem) (left top : Z) (w : World)
  (p g : Point) (e : ElementId) :
  pos d = Some p -> grabPoint d = Some g -> dragEl d = Some e ->
  exists d' w',
    moveDraggableElement d left top w = Ok (d', w') /\
    grabPoint d' = Some g /\
    dragEl d' = Some e /\
    isDragging d' = isDragging d /\
    pos d' = Some {| point_x := (inject_Z left - point_x g)%Q;
                     point_y := (inject_Z top - point_y g)%Q |} /\
    rendered w' e = (Some (inject_Z left - point_x g)%Q,
                     Some (inject_Z top - point_y g)%Q) /\
    _dragging (service w') = _dragging (service w) /\
    begin_frame w w'.
Proof.
  intros P G E. eexists. eexists.
  split; [apply (moveDraggableElement_Ok d left top w p g e P G E)|].
  unfold rendered, begin_frame. simpl. rewrite Nat.eqb_refl. simpl.
  repeat split; assumption || reflexivity.
Qed.

Lemma item_ok_dragging (d : DraggableItem) :
  item_ok d = true -> isDragging d = true ->
  exists p g e, pos d = Some p /\ grabPoint d = Some g /\ dragEl d = Some e.
Proof.
  unfold item_ok. intros O D. rewrite D in O. simpl in O.
  destruct (pos d) as [p|], (grabPoint d) as [g|], (dragEl d) as [e|];
    try discriminate.
  exists p, g, e. auto.
Qed.

(** The body of the loop for an object that passes the threshold. *)
Lemma move_one (d : DraggableItem) (x y : Z) (w : World) :
  item_ok d = true ->
  startThresholdPassed d x y = true ->
  exists d1 w1 d2 w2,
    beginItemDrag d w = Ok (d1, w1) /\
    moveDraggableElement d1 x y w1 = Ok (d2, w2) /\
    moved x y d d2 /\
    begin_frame w w2 /\
    exists begun,
      _dragging (service w2) = _dragging (service w) ++ begun /\
      List.length begun = (if isDragging d then 0 else 1)%nat.
Proof.
  intros O T. unfold moved. rewrite T.
  destruct (isDragging d) eqn:D.
  - destruct (item_ok_dragging d O D) as (p & g & e & P & G & E).
    destruct (moveDraggableElement_spec d x y w p g e P G E)
      as (d2 & w2 & M & G2 & E2 & D2 & P2 & _ & L & F).
    exists d, w, d2, w2. rewrite beginItemDrag_dragging by exact D.
    split; [reflexivity|]. split; [exact M|].
    assert (K : item_ok d2 = true).
    { unfold item_ok. rewrite D2, D, P2, G2, E2. reflexivity. }
    assert (V : mouseDownEvent d2 = mouseDownEvent d /\
                startThreshold d2 = startThreshold d).
    { rewrite (moveDraggableElement_Ok d x y w p g e P G E) in M.
      injection M as <- _. split; reflexivity. }
    destruct V as [V1 V2].
    split.
    { rewrite D2. repeat split; auto; try congruence. exists g. auto. }
    split; [exact F|]. exists []. rewrite app_nil_r. auto.
  - destruct (beginItemDrag_fresh d w D)
      as (d1 & w1 & B & D1 & O1 & M1 & T1 & _ & _ & _ & G1 & E1 & _ & L1 & F1).
    destruct (item_ok_dragging d1 O1 D1) as (p & g & e & P & G & E).
    destruct (moveDraggableElement_spec d1 x y w1 p g e P G E)
      as (d2 & w2 & M & G2 & E2 & D2 & P2 & _ & L & F).
    exists d1, w1, d2, w2. split; [exact B|]. split; [exact M|].
    assert (K : item_ok d2 = true).
    { unfold item_ok. rewrite D2, D1, P2, G2, E2. reflexivity. }
    assert (V : mouseDownEvent d2 = mouseDownEvent d1 /\
                startThreshold d2 = startThreshold d1).
    { rewrite (moveDraggableElement_Ok d1 x y w1 p g e P G E) in M.
      injection M as <- _. split; reflexivity. }
    destruct V as [V1 V2].
    split.
    { repeat split; try congruence. exists g. auto. }
    split; [eapply begin_frame_trans; eassumption|].
    exists [d1]. rewrite L, L1. auto.
Qed.

Lemma moveDraggables_spec (ds : list DraggableItem) (x y : Z) :
  Forall (fun d => item_ok d = true) ds ->
  forall w, exists ds' w',
    moveDraggables ds x y w = Ok (ds', w') /\
    Forall2 (moved x y) ds ds' /\
    Forall (fun d => item_ok d = true) ds' /\
    begin_frame w w' /\
    exists begun,
      _dragging (service w') = _dragging (service w) ++ begun /\
      List.length begun = List.length (filter (begins x y) ds).
Proof.
  induction 1 as [|d ds O _ IH]; intro w.
  - exists [], w. simpl. repeat split; auto using begin_frame_refl.
    exists []. rewrite app_nil_r. auto.
  - simpl. unfold begins at 1.
    destruct (startThresholdPassed d x y) eqn:T.
    + destruct (move_one d x y w O T)
        as (d1 & w1 & d2 & w2 & B & M & R & F & begun & L & N).
      destruct (IH w2) as (ds' & w' & E & R' & O' & F' & begun' & L' & N').
      exists (d2 :: ds'), w'. rewrite B. simpl. rewrite M. simpl.
      rewrite E. simpl. split; [reflexivity|].
      split; [constructor; assumption|].
      split.
      { constructor; [|assumption]. unfold moved in R. rewrite T in R. tauto. }
      split; [eapply begin_frame_trans; eassumption|].
      exists (begun ++ begun'). rewrite L', L, app_assoc.
      split; [reflexivity|]. rewrite length_app, N, N'.
      destruct (isDragging d); reflexivity.
    + destruct (IH w) as (ds' & w' & E & R' & O' & F' & begun' & L' & N').
      exists (d :: ds'), w'. rewrite E. simpl. split; [reflexivity|].
      split; [constructor; [unfold moved; rewrite T; reflexivity|assumption]|].
      split; [constructor; assumption|].
      split; [assumption|].
      exists begun'. auto.
Qed.

Lemma onViewportMouseMove_processed (event : MouseEvent) (w : World) :
  processed event w = true ->
  onViewportMouseMove event w =
  (k <- moveDraggables (_draggables (service w))
          (clientX event) (clientY event) (before_loop event w) ;;
   Ok (upd_service (set__draggables (fst k)) (snd k))).
Proof.
  unfold processed. rewrite andb_true_iff, !negb_true_iff. intros [O M].
  unfold onViewportMouseMove, before_loop. cbv zeta.
  pose proof (scrollViewportAsNeeded_same (clientX event) (clientY event) w) as S.
  destruct S as (D & _ & _ & L & _ & R & _).
  rewrite (isMouseOutsideViewport_rect w _ _ _ R), O, L, M.
  simpl. rewrite D. reflexivity.
Qed.

Lemma filter_flipped_same (ds : list DraggableItem) :
  filter flipped (combine ds ds) = [].
Proof.
  induction ds as [|d ds IH]; [reflexivity|].
  simpl. unfold flipped at 1. simpl.
  destruct (isDragging d); simpl; exact IH.
Qed.

Lemma moved_flipped (x y : Z) (ds ds' : list DraggableItem) :
  Forall2 (moved x y) ds ds' ->
  List.length (filter (begins x y) ds) =
  List.length (filter flipped (combine ds ds')).
Proof.
  induction 1 as [|d d' ds ds' M _ IH]; [reflexivity|].
  simpl. unfold begins at 1, flipped at 1. unfold moved in M. simpl.
  destruct (startThresholdPassed d x y).
  - destruct M as (D & _). rewrite D.
    destruct (isDragging d); simpl; congruence.
  - subst d'. destruct (isDragging d); simpl; exact IH.
Qed.


Lemma moved_only_past_threshold (x y : Z) (d d' : DraggableItem) :
  moved x y d d' -> isDragging d = false -> isDragging d' = true ->
  startThresholdPassed d x y = true.
Proof.
  unfold moved. destruct (startThresholdPassed d x y); [reflexivity|].
  intros ->. congruence.
Qed.

(** The handler on a well-formed state: it returns, the state stays
    well-formed, and the objects change as [moved] says when the move is
    processed and not at all otherwise. *)
Lemma onViewportMouseMove_spec (event : MouseEvent) (w : World) :
  Forall (fun d => item_ok d = true) (_draggables (service w)) ->
  exists w',
    onViewportMouseMove event w = Ok w' /\
    Forall (fun d => item_ok d = true) (_draggables (service w')) /\
    (if processed event w
     then Forall2 (moved (clientX event) (clientY event))
            (_draggables (service w)) (_draggables (service w'))
     else _draggables (service w') = _draggables (service w) /\
          nodes (browser w') = nodes (browser w)) /\
    _dropping (service w') = _dropping (service w) /\
    exists begun,
      _dragging (service w') = _dragging (service w) ++ begun /\
      List.length begun =
      List.length (filter flipped (combine (_draggables (service w))
                                     (_draggables (service w')))).
Proof.
  intro O. destruct (processed event w) eqn:P.
  - rewrite (onViewportMouseMove_processed event w P).
    destruct (moveDraggables_spec (_draggables (service w))
                (clientX event) (clientY event) O (before_loop event w))
      as (ds' & w' & E & R & O' & F & begun & L & N).
    rewrite E. simpl. eexists. split; [reflexivity|]. simpl.
    pose proof (scrollViewportAsNeeded_same (clientX event) (clientY event) w)
      as S.
    destruct S as (_ & G & Q & _).
    destruct F as (_ & F & _).
    repeat split; try assumption.
    + rewrite F. simpl. exact Q.
    + exists begun. rewrite L. simpl. rewrite G.
      split; [reflexivity|]. rewrite N. apply moved_flipped. exact R.
  - unfold processed in P. rewrite andb_false_iff, !negb_false_iff in P.
    destruct (isMouseOutsideViewport w (clientX event) (clientY event)) eqn:U.
    + rewrite (onViewportMouseMove_outside event w U).
      pose proof (scrollViewportAsNeeded_same (clientX event) (clientY event) w)
        as S.
      destruct S as (D & G & Q & _ & _ & _ & _ & _ & _ & _ & N & _).
      eexists. split; [reflexivity|]. rewrite D, G, Q, N.
      repeat split; try assumption.
      exists []. rewrite app_nil_r, filter_flipped_same. auto.
    + destruct P as [P|P]; [discriminate|].
      apply andb_true_iff in P. destruct P as [X Y].
      apply Z.eqb_eq in X. apply Z.eqb_eq in Y.
      rewrite (onViewportMouseMove_still event w U X Y).
      pose proof (scrollViewportAsNeeded_same (clientX event) (clientY event) w)
        as S.
      destruct S as (D & G & Q & _ & _ & _ & _ & _ & _ & _ & N & _).
      eexists. split; [reflexivity|]. simpl. rewrite D, G, Q, N.
      repeat split; try assumption.
      exists []. rewrite app_nil_r, filter_flipped_same. auto.
Qed.

(** ** The scenarios of the specification on the concrete page *)

Example threshold_scenario_below : startThresholdPassed card 55 53 = false.
Proof. reflexivity. Qed.

Example threshold_scenario_beyond : startThresholdPassed card 61 50 = true.
Proof. reflexivity. Qed.

(** The scenario on the concrete page: the move to (55, 53) leaves the card
    not dragging, the move to (61, 50) begins the drag, with one value pushed
    on [_dragging], one visible ghost attached to the viewport and the
    dragged class on the source element. *)
Example threshold_scenario_on_the_page :
  dragging_flags (moves [mouse 55 53] registered) = Some [false] /\
  dragging_flags (moves [mouse 55 53; mouse 61 50] registered) = Some [true] /\
  List.length (_dragging (service dragging_card)) = 1%nat /\
  map (fun g => visibility (style (nodes (browser dragging_card) g)))
    (childNodes (viewport dragging_card)) = ["visible"%string] /\
  classList (nodes (browser dragging_card) dragTarget) = ["lifted"%string].
Proof. split_ands; vm_compute; reflexivity. Qed.

(** On the boundary the pointer is still inside. *)
Example on_the_right_edge_is_inside :
  isMouseOutsideViewport registered 300 0 = false.
Proof. reflexivity. Qed.

(** [activate] forgets the last mouse position. *)
Lemma activate_lastMousePos (w : World) :
  lastMousePos (service (activate w)) = empty_object.
Proof. reflexivity. Qed.

(** ** The drop target *)

(** The "dragging" broadcast gives a drop target its two mouse subscriptions,
    and the "dropping" broadcast leaves the fields defined. *)
Lemma onDragging_subscribes (d : Droppable.DroppableDirective)
  (item : DraggableItem) (b : Browser) :
  Droppable.mouseEnterSubscription (fst (Droppable.onDragging d item b)) =
    Some (nextSubscription b) /\
  Droppable.mouseLeaveSubscription (fst (Droppable.onDragging d item b)) =
    Some (S (nextSubscription b)) /\
  Droppable.dragging (fst (Droppable.onDragging d item b)) = true.
Proof. repeat split. Qed.

Lemma onDropping_keeps_subscriptions (d d' : Droppable.DroppableDirective)
  (item : DraggableItem) (b b' : Browser) :
  Droppable.onDropping d item b = Ok (d', b') ->
  Droppable.mouseEnterSubscription d' = Droppable.mouseEnterSubscription d /\
  Droppable.mouseLeaveSubscription d' = Droppable.mouseLeaveSubscription d.
Proof.
  unfold Droppable.onDropping. simpl.
  destruct (Droppable.mouseEnterSubscription d) eqn:M; [|discriminate]. simpl.
  destruct (Droppable.mouseLeaveSubscription d) eqn:L; [|discriminate]. simpl.
  intro E. injection E as <- _. simpl. rewrite M, L. split; reflexivity.
Qed.

(** A drop target that has never received the "dragging" broadcast raises
    when "dropping" reaches it: its subscriptions are still undefined. *)
Example onDropping_before_any_drag :
  Droppable.onDropping
    (Droppable.new_DroppableDirective {| nativeElement := dropTarget |}
       (JSString "zone") "ok" "no")
    (ended None card) page = Throw TypeError.
Proof. reflexivity. Qed.

(** ** Ending a drag *)

Lemma endItemDrag_not_dragging (d : DraggableItem) (c : option bool) (w : World) :
  isDragging d = false -> endItemDrag d c w = (d, w).
Proof. intro H. unfold endItemDrag. rewrite H. reflexivity. Qed.

Lemma endItemDrag_dragging (d : DraggableItem) (c : option bool) (w : World) :
  isDragging d = true ->
  endItemDrag d c w =
  (ended c d,
   upd_service (fun s => set__dropping (_dropping s ++ [ended c d]) s) w).
Proof. intro H. unfold endItemDrag. rewrite H. reflexivity. Qed.

Lemma service_but_dropping_refl (s : DragDropService) :
  service_but_dropping s s.
Proof. unfold service_but_dropping. repeat split. Qed.

Lemma service_but_dropping_trans (a b c : DragDropService) :
  service_but_dropping a b -> service_but_dropping b c ->
  service_but_dropping a c.
Proof.
  unfold service_but_dropping. intros H1 H2.
  decompose [and] H1. decompose [and] H2.
  repeat split; congruence.
Qed.

Lemma removeChild_frame (v g : ElementId) (b : Browser) :
  stop_frame b (removeChild v g b) /\
  (forall i, style (nodes (removeChild v g b) i) = style (nodes b i)) /\
  (forall x, In x (childNodes (nodes (removeChild v g b) v)) <->
             In x (childNodes (nodes b v)) /\ x <> g) /\
  (forall i, i <> v -> childNodes (nodes (removeChild v g b) i) =
                       childNodes (nodes b i)).
Proof.
  unfold removeChild. split; [unfold stop_frame; repeat split|].
  split.
  { intro i. unfold update_node. simpl. destruct (i =? v)%nat; reflexivity. }
  split.
  { intro x. rewrite update_node_same. simpl.
    rewrite filter_In, negb_true_iff, Nat.eqb_neq. tauto. }
  intros i N. rewrite (update_node_other v i _ b N). reflexivity.
Qed.

(** The body of the loop of [dragStop] on one object. *)
Lemma dragStop_item_spec (c : option bool) (d : DraggableItem) (w : World) :
  fst (dragStop_item c d w) = stopped c d /\
  _dropping (service (snd (dragStop_item c d w))) =
    _dropping (service w) ++ map (ended c) (filter isDragging [d]) /\
  service_but_dropping (service w) (service (snd (dragStop_item c d w))) /\
  stop_frame (browser w) (browser (snd (dragStop_item c d w))) /\
  (forall i, style (nodes (browser (snd (dragStop_item c d w))) i) =
             style (nodes (browser w) i)) /\
  (forall x,
      In x (childNodes (nodes (browser (snd (dragStop_item c d w)))
                          (_viewportElement (service w)))) <->
      In x (childNodes (viewport w)) /\ ~ In x (ghosts [d])) /\
  (forall i, i <> _viewportElement (service w) ->
             childNodes (nodes (browser (snd (dragStop_item c d w))) i) =
             childNodes (nodes (browser w) i)).
Proof.
  unfold dragStop_item, stopped, viewport. cbv zeta. simpl filter.
  assert (E : exists d1 w1,
             endItemDrag d c w = (d1, w1) /\
             d1 = (if isDragging d then ended c d else d) /\
             _dropping (service w1) =
               _dropping (service w) ++
               map (ended c) (if isDragging d then [d] else []) /\
             service_but_dropping (service w) (service w1) /\
             browser w1 = browser w).
  { destruct (isDragging d) eqn:D.
    - rewrite (endItemDrag_dragging d c w D). eexists. eexists.
      split; [reflexivity|]. unfold service_but_dropping. simpl.
      repeat split.
    - rewrite (endItemDrag_not_dragging d c w D). eexists. eexists.
      split; [reflexivity|]. simpl. rewrite app_nil_r.
      repeat split. }
  destruct E as (d1 & w1 & E & D1 & L & S & B). rewrite E. simpl fst. simpl snd.
  assert (G : ghosts [d] = ghosts [d1]).
  { unfold ghosts. simpl. rewrite D1. destruct (isDragging d); reflexivity. }
  rewrite G. rewrite <- D1. clear D1 G E.
  destruct (removeClasses_frame (nativeElement (el d1)) (draggedClass d1)
              (browser w1)) as (F & St & Ch).
  unfold destroyDraggableElement.
  destruct S as (S1 & S2 & S3 & S4 & S5 & V & S').
  destruct (dragEl d1) as [g|] eqn:DE;
    cbn [fst snd service browser upd_browser].
  - destruct (removeChild_frame (_viewportElement (service w1)) g
                (removeClasses (nativeElement (el d1)) (draggedClass d1)
                   (browser w1))) as (F' & St' & Ch' & Ot').
    split; [reflexivity|]. split; [exact L|].
    split; [unfold service_but_dropping; tauto|].
    split; [rewrite <- B; eapply stop_frame_trans; eassumption|].
    split; [intro i; rewrite St', St, B; reflexivity|].
    split.
    + intro x. rewrite <- V, Ch', Ch, B. unfold ghosts. simpl.
      rewrite DE. simpl. intuition congruence.
    + intros i N. rewrite <- V in N. rewrite (Ot' i N), Ch, B. reflexivity.
  - split; [reflexivity|]. split; [exact L|].
    split; [unfold service_but_dropping; tauto|].
    split; [rewrite <- B; exact F|].
    split; [intro i; rewrite St, B; reflexivity|].
    split.
    + intro x. rewrite Ch, B. unfold ghosts. simpl. rewrite DE. simpl. tauto.
    + intros i N. rewrite Ch, B. reflexivity.
Qed.

Lemma ghosts_cons (d : DraggableItem) (ds : list DraggableItem) (x : ElementId) :
  In x (ghosts (d :: ds)) <-> In x (ghosts [d]) \/ In x (ghosts ds).
Proof.
  unfold ghosts. simpl. rewrite app_nil_r, in_app_iff. tauto.
Qed.

Lemma dragStop_loop_spec (c : option bool) (ds : list DraggableItem) :
  forall w,
    fst (dragStop_loop c ds w) = map (stopped c) ds /\
    _dropping (service (snd (dragStop_loop c ds w))) =
      _dropping (service w) ++ map (ended c) (filter isDragging ds) /\
    service_but_dropping (service w) (service (snd (dragStop_loop c ds w))) /\
    stop_frame (browser w) (browser (snd (dragStop_loop c ds w))) /\
    (forall i, style (nodes (browser (snd (dragStop_loop c ds w))) i) =
               style (nodes (browser w) i)) /\
    (forall x,
        In x (childNodes (nodes (browser (snd (dragStop_loop c ds w)))
                            (_viewportElement (service w)))) <->
        In x (childNodes (viewport w)) /\ ~ In x (ghosts ds)) /\
    (forall i, i <> _viewportElement (service w) ->
               childNodes (nodes (browser (snd (dragStop_loop c ds w))) i) =
               childNodes (nodes (browser w) i)).
Proof.
  induction ds as [|d ds IH]; intro w.
  - simpl. rewrite app_nil_r.
    repeat split; auto using service_but_dropping_refl, stop_frame_refl; tauto.
  - simpl dragStop_loop. cbv zeta. simpl fst. simpl snd.
    destruct (dragStop_item_spec c d w) as (R1 & L1 & S1 & F1 & St1 & Ch1 & Ot1).
    destruct (IH (snd (dragStop_item c d w)))
      as (R2 & L2 & S2 & F2 & St2 & Ch2 & Ot2).
    assert (V : _viewportElement (service (snd (dragStop_item c d w))) =
                _viewportElement (service w)) by apply S1.
    rewrite V in Ch2, Ot2.
    split; [rewrite R1, R2; reflexivity|].
    split.
    { rewrite L2, L1. simpl. destruct (isDragging d); simpl.
      - rewrite <- app_assoc. reflexivity.
      - rewrite app_nil_r. reflexivity. }
    split; [eapply service_but_dropping_trans; eassumption|].
    split; [eapply stop_frame_trans; eassumption|].
    split; [intro i; rewrite St2, St1; reflexivity|].
    split.
    + intro x. rewrite Ch2. unfold viewport. rewrite V, Ch1.
      rewrite (ghosts_cons d ds x). tauto.
    + intros i N. rewrite (Ot2 i N), (Ot1 i N). reflexivity.
Qed.

Lemma assign_cursor_childNodes (v : option string) (e : HTMLElement) :
  childNodes (assign_cursor v e) = childNodes e.
Proof. destruct v; reflexivity. Qed.

Lemma assign_cursor_cursor (v : option string) (e : HTMLElement) :
  cursor (style (assign_cursor v e)) =
  match v with
  | Some c => c
  | None => cursor (style e)
  end.
Proof. destruct v; reflexivity. Qed.

Lemma dragStop_spec (c : option bool) (w : World) :
  _draggables (service (dragStop c w)) =
    map (stopped c) (_draggables (service w)) /\
  _dropping (service (dragStop c w)) =
    _dropping (service w) ++
    map (ended c) (filter isDragging (_draggables (service w))) /\
  _dragging (service (dragStop c w)) = _dragging (service w) /\
  _viewportElement (service (dragStop c w)) = _viewportElement (service w) /\
  viewportCursor (service (dragStop c w)) = viewportCursor (service w) /\
  viewportMouseMoveSubscription (service (dragStop c w)) =
    viewportMouseMoveSubscription (service w) /\
  viewportResizeSubscription (service (dragStop c w)) =
    viewportResizeSubscription (service w) /\
  scrollXInterval (service (dragStop c w)) = scrollXInterval (service w) /\
  scrollYInterval (service (dragStop c w)) = scrollYInterval (service w) /\
  stop_frame (browser w) (browser (dragStop c w)) /\
  (forall x,
      In x (childNodes (viewport (dragStop c w))) <->
      In x (childNodes (viewport w)) /\
      ~ In x (ghosts (_draggables (service w)))) /\
  cursor (style (viewport (dragStop c w))) =
    match viewportCursor (service w) with
    | Some s => s
    | None => cursor (style (viewport w))
    end.
Proof.
  destruct (dragStop_loop_spec c (_draggables (service w)) w)
    as (R & L & S & F & St & Ch & _).
  destruct S as (_ & S2 & _ & _ & _ & V & M & Rz & VC & SX & SY & _).
  unfold dragStop, viewport. cbv zeta.
  cbn [service browser upd_service upd_browser _draggables set__draggables
       _dropping _dragging _viewportElement viewportCursor
       viewportMouseMoveSubscription viewportResizeSubscription
       scrollXInterval scrollYInterval].
  rewrite V, VC, update_node_same, assign_cursor_childNodes,
    assign_cursor_cursor, St.
  split_ands; try assumption; try reflexivity; exact F.
Qed.

(** [deactivate] on a service that has been activated. *)
Lemma deactivate_spec (c : option bool) (w : World) :
  activated w = true ->
  exists w',
    deactivate c w = Ok w' /\
    _draggables (service w') = [] /\
    _dropping (service w') =
      _dropping (service w) ++
      map (ended c) (filter isDragging (_draggables (service w))) /\
    _dragging (service w') = _dragging (service w) /\
    _viewportElement (service w') = _viewportElement (service w) /\
    viewportCursor (service w') = viewportCursor (service w) /\
    activated w' = true /\
    oneShots (browser w') = oneShots (browser w) /\
    (forall x,
        In x (childNodes (viewport w')) <->
        In x (childNodes (viewport w)) /\
        ~ In x (ghosts (_draggables (service w)))) /\
    cursor (style (viewport w')) =
      match viewportCursor (service w) with
      | Some s => s
      | None => cursor (style (viewport w))
      end.
Proof.
  unfold activated. rewrite andb_true_iff. intros [A1 A2].
  destruct (viewportMouseMoveSubscription (service w)) as [m|] eqn:M;
    [|discriminate].
  destruct (viewportResizeSubscription (service w)) as [r|] eqn:R;
    [|discriminate].
  unfold deactivate. rewrite M. simpl bind. rewrite R. simpl bind.
  set (w2 := upd_browser (unsubscribe r) (upd_browser (unsubscribe m) w)).
  destruct (dragStop_spec c w2)
    as (_ & L & G & V & VC & SM & SR & SX & SY & F & Ch & Cu).
  eexists. split; [reflexivity|].
  unfold clearScrollIntervals, viewport in *.
  cbn [service browser upd_service upd_browser _draggables set__draggables
       _dropping _dragging _viewportElement viewportCursor
       viewportMouseMoveSubscription viewportResizeSubscription
       scrollXInterval scrollYInterval] in *.
  destruct (clearInterval_frame (scrollYInterval (service (dragStop c w2)))
              (clearInterval (scrollXInterval (service (dragStop c w2)))
                 (browser (dragStop c w2)))) as (N1 & _ & _ & O1 & _).
  destruct (clearInterval_frame (scrollXInterval (service (dragStop c w2)))
              (browser (dragStop c w2))) as (N2 & _ & _ & O2 & _).
  rewrite N1, N2, O1, O2, V, SM, SR.
  destruct F as (_ & _ & _ & _ & _ & O).
  subst w2. cbn [service browser upd_browser] in *.
  rewrite M, R. rewrite V in Ch, Cu.
  change (nodes (unsubscribe r (unsubscribe m (browser w))))
    with (nodes (browser w)) in *.
  split_ands; try assumption; reflexivity.
Qed.

(** ** Events that end the drag *)

Lemma run_callback_deactivate (cb : Callback) (event : MouseEvent) (w : World) :
  run_callback cb event w = deactivate (callback_cancelled cb) w.
Proof. destruct cb; reflexivity. Qed.

Lemma deactivate_Ok_activated (c : option bool) (w w' : World) :
  deactivate c w = Ok w' -> activated w = true.
Proof.
  unfold deactivate, activated.
  destruct (viewportMouseMoveSubscription (service w)); [|discriminate].
  simpl. destruct (viewportResizeSubscription (service w)); [|discriminate].
  reflexivity.
Qed.

(** With nothing registered, the callbacks deliver nothing. *)
Lemma run_callbacks_idle (ls : list Listener) (event : MouseEvent) :
  forall w,
    activated w = true ->
    _draggables (service w) = [] ->
    exists w',
      run_callbacks ls event w = Ok w' /\
      _dropping (service w') = _dropping (service w) /\
      _draggables (service w') = [] /\
      activated w' = true.
Proof.
  induction ls as [|l ls IH]; intros w A D.
  - exists w. simpl. auto.
  - simpl. rewrite run_callback_deactivate.
    destruct (deactivate_spec (callback_cancelled (listener_callback l)) w A)
      as (w1 & E & D1 & L1 & _ & _ & _ & A1 & _).
    rewrite E. simpl. rewrite D in L1. simpl in L1. rewrite app_nil_r in L1.
    destruct (IH w1 A1 D1) as (w' & E' & L' & D' & A').
    exists w'. rewrite L', L1. auto.
Qed.


Lemma EventTarget_eqb_eq (a b : EventTarget) :
  EventTarget_eqb a b = true -> a = b.
Proof.
  destruct a as [x|], b as [y|]; simpl; try discriminate; try reflexivity.
  intro H. apply Nat.eqb_eq in H. congruence.
Qed.

Lemma EventType_eqb_eq (a b : EventType) : EventType_eqb a b = true -> a = b.
Proof. destruct a, b; simpl; try discriminate; reflexivity. Qed.

(** A listener of [activate] that hears an event passes the flag of the
    event's route. *)
Lemma listener_flag (t : EventTarget) (ty : EventType) (l : Listener) :
  listener_ok l = true -> listens t ty l = true ->
  callback_cancelled (listener_callback l) = route_cancelled t ty /\
  (abort_route t ty = true \/ normal_route t ty = true).
Proof.
  unfold listens, listener_ok, route_cancelled.
  rewrite andb_true_iff. intros O [T Y].
  apply EventTarget_eqb_eq in T. apply EventType_eqb_eq in Y. subst t ty.
  destruct (listener_callback l), (listener_target l), (listener_type l);
    try discriminate; simpl; auto.
Qed.


Lemma filter_existsb_false {A : Type} (P : A -> bool) (l : list A) :
  existsb P l = false -> filter P l = [].
Proof.
  induction l as [|a l IH]; [reflexivity|].
  simpl. destruct (P a); simpl; [discriminate|exact IH].
Qed.


(** The two scenarios of the specification on the concrete page. *)
Example key_down_delivers_cancelled :
  dropped_flags (w <- moves [mouse 55 53; mouse 61 50] registered ;;
                 fire OnWindow keydown (mouse 61 50) w) = Some [Some true].
Proof. vm_compute. reflexivity. Qed.

Example mouse_up_then_mouse_down_delivers_once :
  dropped_flags (w <- moves [mouse 55 53; mouse 61 50] registered ;;
                 w <- fire (OnElement testContainer) mouseup (mouse 61 50) w ;;
                 w <- fire OnWindow mouseup (mouse 61 50) w ;;
                 fire (OnElement testContainer) mousedown (mouse 61 50) w) =
  Some [None].
Proof. vm_compute. reflexivity. Qed.

(** ** Teardown *)





(** On the concrete page a cancelled drag leaves no child on the viewport and
    the cursor it had. *)
Example teardown_on_the_page :
  match w <- moves [mouse 55 53; mouse 61 50] registered ;;
        deactivate (Some true) w with
  | Ok w => (childNodes (viewport w), cursor (style (viewport w)),
             _draggables (service w))
  | Throw _ => ([0%nat], EmptyString, [])
  end = ([], "default"%string, []).
Proof. vm_compute. reflexivity. Qed.

(** The saved cursor outlives its drag: after a drag in the container, a
    mouse-down on a source whose viewport is the document body, released
    without a drag, leaves the body with the cursor saved from the
    container. *)
Example click_after_a_drag_assigns_the_saved_cursor :
  viewport_cursor
    (w <- moves [mouse 55 53; mouse 61 50] registered ;;
     w <- deactivate None w ;;
     Ok (registerDraggable (mouse 500 500) {| nativeElement := dragTarget |}
           (JSString "card") (Some "body"%string) None None (Some 10) w)) =
    Some EmptyString /\
  viewport_cursor
    (w <- moves [mouse 55 53; mouse 61 50] registered ;;
     w <- deactivate None w ;;
     deactivate None
       (registerDraggable (mouse 500 500) {| nativeElement := dragTarget |}
          (JSString "card") (Some "body"%string) None None (Some 10) w)) =
    Some "default"%string.
Proof. split; vm_compute; reflexivity. Qed.

(** ** The ghost follows the pointer only beyond the threshold *)

(** The grab point of a dragging object is never changed by a sampled move. *)
Lemma grabPoint_fixed_while_dragging (event : MouseEvent) (w : World) :
  Forall (fun d => item_ok d = true) (_draggables (service w)) ->
  exists w',
    onViewportMouseMove event w = Ok w' /\
    Forall2 (fun d d' => isDragging d = true -> grabPoint d' = grabPoint d)
      (_draggables (service w)) (_draggables (service w')).
Proof.
  intro O.
  destruct (onViewportMouseMove_spec event w O) as (w' & E & _ & R & _).
  exists w'. split; [exact E|].
  destruct (processed event w).
  - eapply Forall2_impl; [|exact R].
    intros d d'. unfold moved.
    destruct (startThresholdPassed d (clientX event) (clientY event)).
    + tauto.
    + intros ->. reflexivity.
  - destruct R as [-> _].
    clear. induction (_draggables (service w)); constructor; auto.
Qed.

(** A processed move at which a dragging object passes the threshold test
    leaves the object at the pointer minus its grab point. *)
Lemma ghost_follows_beyond_threshold (event : MouseEvent) (w : World) :
  Forall (fun d => item_ok d = true) (_draggables (service w)) ->
  processed event w = true ->
  exists w',
    onViewportMouseMove event w = Ok w' /\
    Forall2 (fun d d' =>
               startThresholdPassed d (clientX event) (clientY event) = true ->
               exists g,
                 grabPoint d' = Some g /\
                 pos d' =
                   Some {| point_x := (inject_Z (clientX event) - point_x g)%Q;
                           point_y := (inject_Z (clientY event) - point_y g)%Q |})
      (_draggables (service w)) (_draggables (service w')).
Proof.
  intros O P.
  destruct (onViewportMouseMove_spec event w O) as (w' & E & _ & R & _).
  exists w'. split; [exact E|]. rewrite P in R.
  eapply Forall2_impl; [|exact R].
  intros d d'. unfold moved. intros M T. rewrite T in M. tauto.
Qed.

(** ** Scroll timers *)

Lemma clearInterval_intervals (t : option nat) (b : Browser) :
  intervals (clearInterval t b) =
  match t with
  | Some n => filter (fun p => negb (Nat.eqb (fst p) n)) (intervals b)
  | None => intervals b
  end.
Proof. destruct t; reflexivity. Qed.

(** [clearScrollIntervals] stops every timer when all of them are tracked. *)
Lemma clearScrollIntervals_tracked (w : World) :
  timers_tracked w = true ->
  intervals (browser (clearScrollIntervals w)) = [].
Proof.
  unfold timers_tracked, timer_tracked, clearScrollIntervals. simpl.
  rewrite !clearInterval_intervals.
  generalize (scrollXInterval (service w)) (scrollYInterval (service w))
    (intervals (browser w)).
  intros sx sy l. induction l as [|p l IH]; simpl.
  - destruct sx, sy; reflexivity.
  - rewrite andb_true_iff. intros [T F]. specialize (IH F).
    destruct sx as [x|], sy as [y|]; simpl in *;
      destruct (horizontal (snd p)); try discriminate;
      rewrite ?T; simpl;
      try exact IH;
      destruct (fst p =? x)%nat; simpl; rewrite ?T; simpl; exact IH.
Qed.

(** After [scrollViewportAsNeeded], from a state whose timers are all
    tracked, at most one horizontal and one vertical timer run, and they are
    tracked again. *)
Lemma scrollViewportAsNeeded_one_timer_per_axis (x y : Z) (w : World) :
  timers_tracked w = true ->
  timers_tracked (scrollViewportAsNeeded x y w) = true /\
  (List.length (horizontal_timers (scrollViewportAsNeeded x y w)) <= 1)%nat /\
  (List.length (vertical_timers (scrollViewportAsNeeded x y w)) <= 1)%nat.
Proof.
  intro T. pose proof (clearScrollIntervals_tracked w T) as C.
  unfold scrollViewportAsNeeded. cbv zeta.
  set (w1 := clearScrollIntervals w) in *. clearbody w1.
  repeat match goal with
         | |- context [if ?c then _ else _] => destruct c
         end;
    unfold timers_tracked, timer_tracked, horizontal_timers, vertical_timers,
      startScrollX, startScrollY, setInterval; simpl;
    rewrite ?C; simpl; rewrite ?Nat.eqb_refl; simpl;
    split_ands; auto.
Qed.

(** A decrementing timer is started only at the near edge and with a positive
    scroll offset. *)
Lemma near_edge_timer_needs_room (x y : Z) (w : World) (n : nat) :
  timers_tracked w = true ->
  (In (n, ScrollLeftDec) (intervals (browser (scrollViewportAsNeeded x y w))) ->
   x <= Math_round (rect_left (_viewportRect (service w))) /\
   0 < scrollLeft (viewport w)) /\
  (In (n, ScrollTopDec) (intervals (browser (scrollViewportAsNeeded x y w))) ->
   y <= Math_round (rect_top (_viewportRect (service w))) /\
   0 < scrollTop (viewport w)).
Proof.
  intro T. pose proof (clearScrollIntervals_tracked w T) as C.
  pose proof (clearScrollIntervals_same w) as S.
  destruct S as (_ & _ & _ & _ & _ & R & V & _ & _ & _ & N & _).
  unfold scrollViewportAsNeeded. cbv zeta.
  unfold viewport in *. rewrite <- R, <- V, <- N.
  set (w1 := clearScrollIntervals w) in *. clearbody w1.
  destruct ((x <=? Math_round (rect_left (_viewportRect (service w1)))) &&
            (0 <? scrollLeft (nodes (browser w1) (_viewportElement (service w1)))))
    eqn:X.
  - apply andb_true_iff in X. destruct X as [X1 X2].
    apply Z.leb_le in X1. apply Z.ltb_lt in X2.
    cbn [service browser startScrollX upd_service upd_browser _viewportRect
         set_scrollXInterval _viewportElement setInterval fst snd nodes
         set_nextInterval set_intervals].
    destruct ((y <=? Math_round (rect_top (_viewportRect (service w1)))) &&
              (0 <? scrollTop (nodes (browser w1)
                                 (_viewportElement (service w1))))) eqn:Y.
    + apply andb_true_iff in Y. destruct Y as [Y1 Y2].
      apply Z.leb_le in Y1. apply Z.ltb_lt in Y2. auto.
    + split; [auto|].
      destruct (Math_round (rect_bottom (_viewportRect (service w1)) - 3) <=? y);
        simpl; rewrite C; simpl; intuition congruence.
  - assert (K : forall w2,
               intervals (browser w2) = [] \/
               (exists k, intervals (browser w2) = [(k, ScrollLeftInc)]) ->
               _viewportRect (service w2) = _viewportRect (service w1) ->
               _viewportElement (service w2) = _viewportElement (service w1) ->
               nodes (browser w2) = nodes (browser w1) ->
               (In (n, ScrollLeftDec)
                  (intervals
                     (browser
                        (if (y <=? Math_round (rect_top (_viewportRect (service w2)))) &&
                            (0 <? scrollTop (viewport w2))
                         then startScrollY ScrollTopDec w2
                         else if Math_round
                                   (rect_bottom (_viewportRect (service w2)) - 3)
                                 <=? y
                              then startScrollY ScrollTopInc w2
                              else w2))) ->
                x <= Math_round (rect_left (_viewportRect (service w1))) /\
                0 < scrollLeft (nodes (browser w1)
                                  (_viewportElement (service w1)))) /\
               (In (n, ScrollTopDec)
                  (intervals
                     (browser
                        (if (y <=? Math_round (rect_top (_viewportRect (service w2)))) &&
                            (0 <? scrollTop (viewport w2))
                         then startScrollY ScrollTopDec w2
                         else if Math_round
                                   (rect_bottom (_viewportRect (service w2)) - 3)
                                 <=? y
                              then startScrollY ScrollTopInc w2
                              else w2))) ->
                y <= Math_round (rect_top (_viewportRect (service w1))) /\
                0 < scrollTop (nodes (browser w1)
                                 (_viewportElement (service w1))))).
    { intros w2 I R2 V2 N2. unfold viewport. rewrite R2, V2, N2.
      destruct ((y <=? Math_round (rect_top (_viewportRect (service w1)))) &&
                (0 <? scrollTop (nodes (browser w1)
                                   (_viewportElement (service w1))))) eqn:Y.
      - apply andb_true_iff in Y. destruct Y as [Y1 Y2].
        apply Z.leb_le in Y1. apply Z.ltb_lt in Y2.
        split; [|auto]. simpl.
        destruct I as [I|[k I]]; rewrite I; simpl; intuition congruence.
      - destruct (Math_round (rect_bottom (_viewportRect (service w1)) - 3)
                  <=? y); simpl;
          destruct I as [I|[k I]]; rewrite I; simpl; intuition congruence. }
    destruct (Math_round (rect_right (_viewportRect (service w1)) - 2) <=? x).
    + apply K; try reflexivity. right. eexists. simpl. rewrite C. reflexivity.
    + apply K; try reflexivity. left. exact C.
Qed.

(** On the concrete page the pointer at the left edge starts no timer: the
    container is not scrolled, so there is no room to scroll left. *)
Example near_edge_without_room_starts_nothing :
  intervals (browser (scrollViewportAsNeeded 0 100 registered)) = [].
Proof. vm_compute. reflexivity. Qed.

(** ** Reachable states are well-formed and no handler raises *)

Lemma timers_tracked_ext (w w' : World) :
  intervals (browser w') = intervals (browser w) ->
  scrollXInterval (service w') = scrollXInterval (service w) ->
  scrollYInterval (service w') = scrollYInterval (service w) ->
  timers_tracked w' = timers_tracked w.
Proof.
  unfold timers_tracked, timer_tracked. intros -> -> ->. reflexivity.
Qed.

Lemma onViewportMouseMove_frame (event : MouseEvent) (w : World) :
  Forall (fun d => item_ok d = true) (_draggables (service w)) ->
  exists w',
    onViewportMouseMove event w = Ok w' /\
    Forall (fun d => item_ok d = true) (_draggables (service w')) /\
    oneShots (browser w') = oneShots (browser w) /\
    subscriptions (browser w') = subscriptions (browser w) /\
    activated w' = activated w /\
    (timers_tracked w = true -> timers_tracked w' = true).
Proof.
  intro O.
  pose proof (scrollViewportAsNeeded_same (clientX event) (clientY event) w)
    as S.
  destruct S as (_ & _ & _ & _ & _ & _ & _ & SM & SR & _ & _ & _ & SU & OS).
  destruct (processed event w) eqn:P.
  - rewrite (onViewportMouseMove_processed event w P).
    destruct (moveDraggables_spec (_draggables (service w))
                (clientX event) (clientY event) O (before_loop event w))
      as (ds' & w' & E & _ & O' & F & _).
    rewrite E. cbn [bind fst snd]. eexists. split; [reflexivity|].
    destruct F as (_ & _ & _ & _ & _ & _ & M' & R' & X' & Y' & I' & SU' & OS').
    unfold activated. cbn [service browser upd_service upd_browser
      _draggables set__draggables viewportMouseMoveSubscription
      viewportResizeSubscription].
    rewrite OS', SU', M', R'. unfold before_loop. simpl.
    rewrite SM, SR. split_ands; auto.
    intro T. rewrite <- (proj1 (scrollViewportAsNeeded_one_timer_per_axis
                                  (clientX event) (clientY event) w T)).
    apply timers_tracked_ext; simpl; assumption.
  - destruct (onViewportMouseMove_spec event w O) as (w' & E & O' & _).
    exists w'. split; [exact E|]. split; [exact O'|].
    unfold processed in P. rewrite andb_false_iff, !negb_false_iff in P.
    destruct (isMouseOutsideViewport w (clientX event) (clientY event)) eqn:U.
    + rewrite (onViewportMouseMove_outside event w U) in E. injection E as <-.
      unfold activated. rewrite SM, SR. split_ands; auto.
      intro T. apply (scrollViewportAsNeeded_one_timer_per_axis _ _ w T).
    + destruct P as [P|P]; [discriminate|].
      apply andb_true_iff in P. destruct P as [X Y].
      apply Z.eqb_eq in X. apply Z.eqb_eq in Y.
      rewrite (onViewportMouseMove_still event w U X Y) in E. injection E as <-.
      unfold activated. simpl. rewrite SM, SR. split_ands; auto.
      intro T. rewrite <- (proj1 (scrollViewportAsNeeded_one_timer_per_axis
                                    (clientX event) (clientY event) w T)).
      apply timers_tracked_ext; reflexivity.
Qed.

Lemma onViewportMouseMove_invariant (event : MouseEvent) (w : World) :
  invariant w ->
  exists w',
    onViewportMouseMove event w = Ok w' /\ invariant w' /\
    subscriptions (browser w') = subscriptions (browser w).
Proof.
  intros (O & L & T & A).
  destruct (onViewportMouseMove_frame event w O)
    as (w' & E & O' & OS & SU & A' & T').
  exists w'. split; [exact E|]. split; [|exact SU].
  unfold invariant. rewrite OS, A'. auto.
Qed.

Lemma emit_mousemove_to_invariant (subs : list Subscription) (t : ElementId)
  (event : MouseEvent) :
  forall w, invariant w ->
            exists w', emit_mousemove_to subs t event w = Ok w' /\ invariant w'.
Proof.
  induction subs as [|s subs IH]; intros w I.
  - exists w. simpl. auto.
  - simpl.
    destruct (EventTarget_eqb (sub_target s) (OnElement t) &&
              EventType_eqb (sub_type s) mousemove).
    + destruct (onViewportMouseMove_invariant event w I) as (w1 & E & I1 & _).
      rewrite E. simpl. apply IH. exact I1.
    + apply IH. exact I.
Qed.

Lemma deactivate_invariant (c : option bool) (w : World) :
  invariant w -> activated w = true ->
  exists w', deactivate c w = Ok w' /\ invariant w' /\ activated w' = true /\
             oneShots (browser w') = oneShots (browser w).
Proof.
  intros (O & L & T & _) A.
  destruct (deactivate_spec c w A)
    as (w' & E & D & _ & _ & _ & _ & A' & OS & _).
  exists w'. split; [exact E|]. split; [|auto].
  unfold invariant. rewrite D, OS. split_ands; auto.
  revert E. unfold deactivate.
  destruct (viewportMouseMoveSubscription (service w)) as [m|]; [|discriminate].
  simpl bind.
  destruct (viewportResizeSubscription (service w)) as [r|]; [|discriminate].
  simpl bind. intro E. injection E as <-.
  set (w2 := upd_browser (unsubscribe r) (upd_browser (unsubscribe m) w)).
  destruct (dragStop_spec c w2)
    as (_ & _ & _ & _ & _ & _ & _ & SX & SY & F & _).
  destruct F as (_ & I & _).
  assert (T2 : timers_tracked (upd_service (set__draggables []) (dragStop c w2))
               = true).
  { rewrite <- T. apply timers_tracked_ext; simpl; assumption. }
  unfold timers_tracked.
  rewrite (clearScrollIntervals_tracked _ T2). reflexivity.
Qed.

Lemma run_callbacks_invariant (ls : list Listener) (event : MouseEvent) :
  forall w,
    invariant w -> activated w = true ->
    exists w', run_callbacks ls event w = Ok w' /\ invariant w' /\
               activated w' = true /\
               oneShots (browser w') = oneShots (browser w).
Proof.
  induction ls as [|l ls IH]; intros w I A.
  - exists w. simpl. auto.
  - simpl. rewrite run_callback_deactivate.
    destruct (deactivate_invariant (callback_cancelled (listener_callback l))
                w I A) as (w1 & E & I1 & A1 & OS1).
    rewrite E. simpl. destruct (IH w1 I1 A1) as (w' & E' & I' & A' & OS').
    exists w'. rewrite OS', OS1. auto.
Qed.

Lemma registerDraggable_invariant (event : MouseEvent) (e : ElementRef)
  (payload : any) (selector draggingClass' draggedClass' : option string)
  (threshold : option Z) (w : World) :
  invariant w ->
  invariant (registerDraggable event e payload selector draggingClass'
               draggedClass' threshold w).
Proof.
  intros (O & L & T & _). unfold invariant. simpl. split_ands.
  - apply Forall_app. split; [exact O|]. repeat constructor.
  - rewrite <- !app_assoc. apply Forall_app. split; [exact L|].
    repeat constructor.
  - rewrite <- T. apply timers_tracked_ext; reflexivity.
  - reflexivity.
Qed.

(** Every handler returns on a well-formed state and keeps it well-formed. *)
Lemma handle_invariant (e : Event) (w : World) :
  invariant w -> exists w', handle e w = Ok w' /\ invariant w'.
Proof.
  intro I. destruct e as [event e payload sel c1 c2 th|t event|t ty event| |t];
    simpl.
  - eexists. split; [reflexivity|]. apply registerDraggable_invariant. exact I.
  - apply emit_mousemove_to_invariant. exact I.
  - unfold fire. cbv zeta.
    destruct I as (O & L & T & A).
    destruct (filter (listens t ty) (oneShots (browser w))) as [|l ls] eqn:F.
    + eexists. split; [reflexivity|]. unfold invariant. simpl.
      split_ands; auto.
      * apply Forall_forall. intros l I. apply filter_In in I.
        rewrite Forall_forall in L. apply L. tauto.
      * intro N. apply A. intros Z0. rewrite Z0 in N. simpl in N. auto.
    + assert (A0 : activated w = true).
      { apply A. intro Z0. rewrite Z0 in F. discriminate. }
      destruct (run_callbacks_invariant (l :: ls) event
                  (upd_browser
                     (fun b => set_oneShots
                                 (filter (fun l => negb (listens t ty l))
                                    (oneShots b)) b) w))
        as (w' & E & I' & _).
      * unfold invariant. simpl. split_ands; auto.
        apply Forall_forall. intros l' I. apply filter_In in I.
        rewrite Forall_forall in L. apply L. tauto.
      * exact A0.
      * exists w'. auto.
  - eexists. split; [reflexivity|]. destruct I as (O & L & T & A).
    unfold emit_resize. destruct (existsb _ _); unfold invariant; auto.
  - eexists. split; [reflexivity|]. destruct I as (O & L & T & A).
    unfold tick. destruct (find _ _) as [p|]; [|unfold invariant; auto].
    destruct (snd p); unfold invariant; simpl; auto.
Qed.

Lemma new_DragDropService_invariant (b : Browser) :
  intervals b = [] -> oneShots b = [] -> invariant (new_DragDropService b).
Proof.
  intros I O. unfold invariant, timers_tracked. simpl. rewrite I, O.
  split_ands; auto; intro N; contradiction.
Qed.

(** From a fresh service, no sequence of events makes a handler raise, and
    the state reached is well-formed. *)
Lemma handle_all_invariant (es : list Event) :
  forall w, invariant w ->
            exists w', handle_all es w = Ok w' /\ invariant w'.
Proof.
  induction es as [|e es IH]; intros w I.
  - exists w. simpl. auto.
  - simpl. destruct (handle_invariant e w I) as (w1 & E & I1).
    rewrite E. simpl. apply IH. exact I1.
Qed.

(** ** The is-dragging flag over the lifetime of a registration *)






(** The concrete page, with the drag of the card begun, is well-formed. *)
Lemma dragging_card_invariant : invariant dragging_card.
Proof.
  unfold invariant. split_ands.
  - vm_compute. repeat constructor.
  - vm_compute. repeat constructor.
  - vm_compute. reflexivity.
  - intros _. vm_compute. reflexivity.
Qed.

(** * The claims of the specification *)

(** C1, as stated, fails: a displacement exactly equal to the threshold on
    both axes passes the test, because the source compares with [>=]. *)
Lemma startThresholdPassed_at_exact_threshold :
  startThreshold card = Some 10 /\
  Z.abs (clientX (mouseDownEvent card) - 60) = 10 /\
  Z.abs (clientY (mouseDownEvent card) - 60) = 10 /\
  startThresholdPassed card 60 60 = true.
Proof. repeat split. Qed.

(** C1 (amended): [startThresholdPassed] is true exactly when the absolute
    displacement from the origin mouse-down reaches or exceeds the threshold
    on the horizontal or on the vertical axis; and a sampled move turns
    is-dragging from false to true only for an object that passes this test
    at the move's coordinates. *)
Theorem startThresholdPassed_reaches_threshold :
  (forall d x y,
      startThresholdPassed d x y = true <->
      exists t, startThreshold d = Some t /\
                (t <= Z.abs (clientX (mouseDownEvent d) - x) \/
                 t <= Z.abs (clientY (mouseDownEvent d) - y))) /\
  (forall event w,
      Forall (fun d => item_ok d = true) (_draggables (service w)) ->
      exists w',
        onViewportMouseMove event w = Ok w' /\
        Forall2 (fun d d' =>
                   isDragging d = false -> isDragging d' = true ->
                   startThresholdPassed d (clientX event) (clientY event) = true)
          (_draggables (service w)) (_draggables (service w'))).
Proof.
  split; [exact startThresholdPassed_iff|].
  intros event w O.
  destruct (onViewportMouseMove_spec event w O) as (w' & E & _ & R & _).
  exists w'. split; [exact E|].
  destruct (processed event w).
  - eapply Forall2_impl; [|exact R].
    intros d d' M. exact (moved_only_past_threshold _ _ d d' M).
  - destruct R as [-> _].
    induction (_draggables (service w)) as [|d ds IH]; constructor.
    + congruence.
    + inversion O; subst. apply IH. assumption.
Qed.

Lemma startThresholdPassed_reaches_threshold_witness :
  exists w',
    onViewportMouseMove (mouse 61 50) after_first_move = Ok w' /\
    Forall2 (fun d d' =>
               isDragging d = false -> isDragging d' = true ->
               startThresholdPassed d 61 50 = true)
      (_draggables (service after_first_move)) (_draggables (service w')).
Proof.
  apply (proj2 startThresholdPassed_reaches_threshold
           (mouse 61 50) after_first_move).
  vm_compute. repeat constructor.
Defined.

(** C2 fails on the code: on the concrete page the drag of the card has
    begun (grab point (10, 10)) and the ghost is at (51, 40); the next sampled
    move, to (55, 50), is processed, but the pointer is back within the
    threshold of the origin (50, 50), so the loop skips the object and the
    ghost stays at (51, 40) instead of (55 - 10, 50 - 10). *)
Theorem ghost_left_behind_within_threshold :
  dragging_flags (moves [mouse 55 53; mouse 61 50] registered) = Some [true] /\
  processed (mouse 55 50) dragging_card = true /\
  ghost_positions (moves [mouse 55 53; mouse 61 50; mouse 55 50] registered) =
    Some [(Some {| point_x := 10 # 1; point_y := 10 # 1 |},
           Some {| point_x := 51 # 1; point_y := 40 # 1 |},
           (Some (51 # 1), Some (40 # 1)))]%Q /\
  ~ (51 # 1 == inject_Z 55 - (10 # 1))%Q.
Proof.
  split_ands; try (vm_compute; reflexivity).
  vm_compute. discriminate.
Qed.

(** C3: [endItemDrag] on an object that is not dragging returns the object
    and the state as they are (nothing is pushed on [_dropping]); two calls
    in a row on a dragging object push exactly one value; and after a
    completed [deactivate], any later event, whichever listeners of
    [activate] are still attached, pushes nothing more on [_dropping]. *)
Theorem endItemDrag_idempotent :
  (forall d c w, isDragging d = false -> endItemDrag d c w = (d, w)) /\
  (forall d c c' w,
      isDragging d = true ->
      fst (endItemDrag (fst (endItemDrag d c w)) c' (snd (endItemDrag d c w))) =
        fst (endItemDrag d c w) /\
      _dropping (service (snd (endItemDrag (fst (endItemDrag d c w)) c'
                                 (snd (endItemDrag d c w))))) =
        _dropping (service w) ++ [ended c d]) /\
  (forall c w w' t ty event,
      deactivate c w = Ok w' ->
      exists w'',
        fire t ty event w' = Ok w'' /\
        _dropping (service w'') = _dropping (service w')).
Proof.
  split; [exact endItemDrag_not_dragging|]. split.
  - intros d c c' w D. rewrite (endItemDrag_dragging d c w D).
    cbn [fst snd]. rewrite endItemDrag_not_dragging by reflexivity.
    split; reflexivity.
  - intros c w w' t ty event E.
    pose proof (deactivate_Ok_activated c w w' E) as A.
    destruct (deactivate_spec c w A) as (w1 & E1 & D1 & _ & _ & _ & _ & A1 & _).
    rewrite E in E1. injection E1 as <-.
    unfold fire. cbv zeta.
    destruct (run_callbacks_idle
                (filter (listens t ty) (oneShots (browser w'))) event
                (upd_browser
                   (fun b => set_oneShots
                               (filter (fun l => negb (listens t ty l))
                                  (oneShots b)) b) w') A1 D1)
      as (w'' & E' & L' & _).
    exists w''. split; [exact E'|exact L'].
Qed.

Lemma endItemDrag_idempotent_witness :
  endItemDrag card (Some true) idle = (card, idle) /\
  (fst (endItemDrag (fst (endItemDrag (set_isDragging true card) None idle))
          (Some true) (snd (endItemDrag (set_isDragging true card) None idle))) =
     fst (endItemDrag (set_isDragging true card) None idle) /\
   _dropping
     (service (snd (endItemDrag
                      (fst (endItemDrag (set_isDragging true card) None idle))
                      (Some true)
                      (snd (endItemDrag (set_isDragging true card) None idle))))) =
     _dropping (service idle) ++ [ended None (set_isDragging true card)]) /\
  exists w'',
    fire (OnElement testContainer) mousedown (mouse 61 50)
      (state_after (deactivate None dragging_card) idle) = Ok w'' /\
    _dropping (service w'') =
    _dropping (service (state_after (deactivate None dragging_card) idle)).
Proof.
  split; [|split].
  - apply (proj1 endItemDrag_idempotent). reflexivity.
  - apply (proj1 (proj2 endItemDrag_idempotent)). reflexivity.
  - apply (proj2 (proj2 endItemDrag_idempotent) None dragging_card).
    apply Ok_state_after. vm_compute. reflexivity.
Defined.






(** C6: [isMouseOutsideViewport] is true exactly when a coordinate lies
    strictly outside the cached rectangle, and a sampled move that is outside
    by this test returns with every registered object, both broadcast
    channels, the saved mouse position and every DOM node as they were (only
    the scroll timers are re-evaluated). *)
Theorem isMouseOutsideViewport_strictly_outside :
  (forall w mouseX mouseY,
      isMouseOutsideViewport w mouseX mouseY = true <->
      (inject_Z mouseX < rect_left (_viewportRect (service w)) \/
       rect_right (_viewportRect (service w)) < inject_Z mouseX \/
       inject_Z mouseY < rect_top (_viewportRect (service w)) \/
       rect_bottom (_viewportRect (service w)) < inject_Z mouseY)%Q) /\
  (forall event w,
      isMouseOutsideViewport w (clientX event) (clientY event) = true ->
      exists w',
        onViewportMouseMove event w = Ok w' /\
        same_but_timers w w').
Proof.
  split; [exact isMouseOutsideViewport_iff|].
  intros event w H. eexists.
  split; [apply onViewportMouseMove_outside; exact H|].
  apply scrollViewportAsNeeded_same.
Qed.

Lemma isMouseOutsideViewport_strictly_outside_witness :
  exists w',
    onViewportMouseMove (mouse 400 100) after_first_move = Ok w' /\
    same_but_timers after_first_move w'.
Proof.
  apply (proj2 isMouseOutsideViewport_strictly_outside
           (mouse 400 100) after_first_move).
  reflexivity.
Defined.

(** C7 fails on the code at the far edge: the container of the concrete page
    has nothing to scroll (its scroll offset 0 is already the largest one),
    yet with the pointer at x = 299, at or beyond the right edge less the
    2-pixel bias, [scrollViewportAsNeeded] starts the incrementing horizontal
    timer; the near-edge branch tests the room ([scrollLeft > 0]), the
    far-edge branch tests nothing, and a tick of the timer changes nothing. *)
Theorem far_edge_timer_started_without_room :
  timers_tracked registered = true /\
  scrollLeft (viewport registered) =
    scrollWidth (viewport registered) - clientWidth (viewport registered) /\
  Math_round (rect_right (_viewportRect (service registered)) - 2) <= 299 /\
  intervals (browser (scrollViewportAsNeeded 299 100 registered)) =
    [(0%nat, ScrollLeftInc)] /\
  scrollXInterval (service (scrollViewportAsNeeded 299 100 registered)) =
    Some 0%nat /\
  scrollLeft (viewport (tick 0 (scrollViewportAsNeeded 299 100 registered))) =
    scrollLeft (viewport registered).
Proof.
  split_ands; try (vm_compute; reflexivity).
  vm_compute. discriminate.
Qed.





(** C10: whatever the state and whatever the coordinates, the first sampled
    move handled after [activate] returns without changing a registered
    object, a broadcast channel or a DOM node: [dragStart] has emptied the
    last mouse position, so the displacement of a move inside the viewport
    is (0, 0). On the concrete page a first move 20 pixels away from the
    origin begins nothing and the move after it begins the drag. *)
Theorem first_move_after_activation_discarded :
  (forall event w,
      exists w',
        onViewportMouseMove event (activate w) = Ok w' /\
        _draggables (service w') = _draggables (service (activate w)) /\
        _dragging (service w') = _dragging (service (activate w)) /\
        _dropping (service w') = _dropping (service (activate w)) /\
        nodes (browser w') = nodes (browser (activate w)) /\
        (isMouseOutsideViewport (activate w) (clientX event) (clientY event) =
           true \/
         lastDisplacement (service w') =
           {| pos_x := Some 0; pos_y := Some 0 |})) /\
  (dragging_flags (moves [mouse 70 50] registered) = Some [false] /\
   dragging_flags (moves [mouse 70 50; mouse 80 50] registered) = Some [true]).
Proof.
  split.
  - intros event w.
    destruct (isMouseOutsideViewport (activate w) (clientX event) (clientY event))
      eqn:U.
    + rewrite (onViewportMouseMove_outside event _ U).
      pose proof (scrollViewportAsNeeded_same (clientX event) (clientY event)
                    (activate w)) as S.
      destruct S as (D & G & Q & _ & _ & _ & _ & _ & _ & _ & N & _).
      eexists. split; [reflexivity|]. auto 6.
    + rewrite (onViewportMouseMove_still event _ U);
        [|rewrite activate_lastMousePos; reflexivity
         |rewrite activate_lastMousePos; reflexivity].
      pose proof (scrollViewportAsNeeded_same (clientX event) (clientY event)
                    (activate w)) as S.
      destruct S as (D & G & Q & _ & _ & _ & _ & _ & _ & _ & N & _).
      eexists. split; [reflexivity|]. simpl. auto 6.
  - split; vm_compute; reflexivity.
Qed.

(** * Further properties of the code *)

(** ** The class helpers of the service *)






Lemma addClasses_nodes (e : ElementId) (classes : option string) (b : Browser) :
  (forall i, style (nodes (addClasses e classes b) i) = style (nodes b i)) /\
  (forall i, childNodes (nodes (addClasses e classes b) i) =
             childNodes (nodes b i)) /\
  (forall i, i <> e -> classList (nodes (addClasses e classes b) i) =
                       classList (nodes b i)).
Proof.
  unfold addClasses. destruct classes as [s|]; [|auto].
  destruct (falsy_string (Some s)); [auto|].
  destruct (fold_classList classList_add e (split s) b) as (_ & S & C & _ & O).
  auto.
Qed.






(** ** The ghost *)


Lemma addClasses_other_node (e : ElementId) (classes : option string)
  (b : Browser) (i : ElementId) :
  i <> e -> nodes (addClasses e classes b) i = nodes b i.
Proof.
  intro N. unfold addClasses. destruct classes as [s|]; [|reflexivity].
  destruct (falsy_string (Some s)); [reflexivity|].
  generalize (split s). intro toks. revert b.
  induction toks as [|tok toks IH]; intro b; simpl; [reflexivity|].
  rewrite IH. apply update_node_other. exact N.
Qed.

Lemma nodes_set_nextNode (k : ElementId) (b : Browser) :
  nodes (set_nextNode k b) = nodes b.
Proof. reflexivity. Qed.

Lemma nextNode_update_node (e : ElementId) (f : HTMLElement -> HTMLElement)
  (b : Browser) : nextNode (update_node e f b) = nextNode b.
Proof. reflexivity. Qed.

Lemma nextNode_addClasses (e : ElementId) (classes : option string)
  (b : Browser) : nextNode (addClasses e classes b) = nextNode b.
Proof. apply (addClasses_frame e classes b). Qed.

(** Reading a node through a chain of single-node updates. *)
Ltac read_node :=
  repeat first
    [ rewrite nodes_set_nextNode
    | rewrite update_node_same
    | rewrite update_node_other by lia
    | rewrite addClasses_other_node by lia ].

(** Projections of a node through the setters of its other fields. *)
Ltac node_fields :=
  cbn [style classList childNodes set_style set_classList set_childNodes
       cursor position style_left style_top style_width style_height zIndex
       visibility pointerEvents set_cursor set_position set_style_left
       set_style_top set_style_width set_style_height set_zIndex
       set_visibility set_pointerEvents boundingClientRect new_div
       empty_style].



(** X4. [moveDraggableElement] raises exactly when the object has no
    position, no grab point or no ghost (its drag has not begun); otherwise
    it returns with the position at the pointer less the grab point, rendered
    as the inline [left] and [top] of the ghost, and changes nothing else:
    not the grab point, not the service, not another node, not another
    property of the ghost. *)
Theorem moveDraggableElement_moves_only_the_ghost (d : DraggableItem)
  (left top : Z) (w : World) :
  (moveDraggableElement d left top w = Throw TypeError <->
   pos d = None \/ grabPoint d = None \/ dragEl d = None) /\
  (forall p g e,
      pos d = Some p -> grabPoint d = Some g -> dragEl d = Some e ->
      exists d' w',
        moveDraggableElement d left top w = Ok (d', w') /\
        pos d' = Some {| point_x := (inject_Z left - point_x g)%Q;
                         point_y := (inject_Z top - point_y g)%Q |} /\
        d' = set_pos (pos d') d /\
        rendered w' e = (Some (inject_Z left - point_x g)%Q,
                         Some (inject_Z top - point_y g)%Q) /\
        service w' = service w /\
        (forall i, i <> e -> nodes (browser w') i = nodes (browser w) i) /\
        nodes (browser w') e =
          set_style (fun s => set_style_top (snd (rendered w' e))
                                (set_style_left (fst (rendered w' e)) s))
            (nodes (browser w) e)).
Proof.
  split.
  - unfold moveDraggableElement.
    destruct (pos d) as [p|], (grabPoint d) as [g|]; simpl;
      try (split; [auto|reflexivity]).
    destruct (dragEl d) as [e|]; simpl.
    + split; [discriminate|]. intros [H|[H|H]]; discriminate.
    + split; [auto|reflexivity].
  - intros p g e P G E. rewrite (moveDraggableElement_Ok d left top w p g e P G E).
    eexists. eexists. split; [reflexivity|].
    unfold rendered.
    cbn [pos set_pos browser service upd_browser fst snd].
    split_ands; try reflexivity.
    + read_node. reflexivity.
    + intros i I. read_node. reflexivity.
    + read_node. reflexivity.
Qed.

(** ** Ending a drag: classes, subscriptions and timers *)







Lemma clearScrollIntervals_subscriptions (w : World) :
  subscriptions (browser (clearScrollIntervals w)) = subscriptions (browser w).
Proof.
  unfold clearScrollIntervals. cbn [browser upd_browser].
  destruct (scrollYInterval (service w)), (scrollXInterval (service w));
    reflexivity.
Qed.

(** What a call of [deactivate] that returns has done to the subscriptions,
    the listeners and the timers. *)
Lemma deactivate_effect (c : option bool) (w w' : World) :
  deactivate c w = Ok w' ->
  exists m r,
    viewportMouseMoveSubscription (service w) = Some m /\
    viewportResizeSubscription (service w) = Some r /\
    subscriptions (browser w') =
      filter (fun s => negb (Nat.eqb (sub_id s) r))
        (filter (fun s => negb (Nat.eqb (sub_id s) m))
           (subscriptions (browser w))) /\
    oneShots (browser w') = oneShots (browser w) /\
    (timers_tracked w = true -> intervals (browser w') = []).
Proof.
  unfold deactivate.
  destruct (viewportMouseMoveSubscription (service w)) as [m|];
    [|discriminate].
  cbn [deref bind service upd_browser].
  destruct (viewportResizeSubscription (service w)) as [r|];
    [|discriminate].
  cbn [deref bind].
  intros E. injection E as <-. exists m, r.
  split; [reflexivity|]. split; [reflexivity|].
  set (w2 := upd_browser (unsubscribe r) (upd_browser (unsubscribe m) w)).
  destruct (dragStop_spec c w2)
    as (_ & _ & _ & _ & _ & _ & _ & SX & SY & F & _).
  destruct F as (_ & I & _ & SU & _ & OS).
  split_ands.
  - rewrite clearScrollIntervals_subscriptions.
    cbn [browser upd_service]. rewrite SU. reflexivity.
  - destruct (clearScrollIntervals_same
                (upd_service (set__draggables []) (dragStop c w2)))
      as (_ & _ & _ & _ & _ & _ & _ & _ & _ & _ & _ & _ & _ & O).
    rewrite O. cbn [browser upd_service]. rewrite OS. reflexivity.
  - intro T. apply clearScrollIntervals_tracked.
    rewrite <- T. apply timers_tracked_ext; simpl; assumption.
Qed.

(** X6. [deactivate] raises exactly when the service has never been
    activated (one of its two saved subscriptions is [undefined]). When it
    returns it has unsubscribed these two subscriptions and no other, it has
    left the listeners behind [first()] attached, and, if every running
    timer was one the service remembered, no interval timer is running. *)
Theorem deactivate_releases_subscriptions_and_timers (c : option bool)
  (w : World) :
  (deactivate c w = Throw TypeError <-> activated w = false) /\
  (forall w',
      deactivate c w = Ok w' ->
      exists m r,
        viewportMouseMoveSubscription (service w) = Some m /\
        viewportResizeSubscription (service w) = Some r /\
        subscriptions (browser w') =
          filter (fun s => negb (Nat.eqb (sub_id s) r))
            (filter (fun s => negb (Nat.eqb (sub_id s) m))
               (subscriptions (browser w))) /\
        oneShots (browser w') = oneShots (browser w) /\
        (timers_tracked w = true -> intervals (browser w') = [])).
Proof.
  split; [|intros w' E; exact (deactivate_effect c w w' E)].
  unfold deactivate, activated.
  destruct (viewportMouseMoveSubscription (service w)) as [m|];
    [|simpl; tauto].
  cbn [deref bind service upd_browser is_some andb].
  destruct (viewportResizeSubscription (service w)) as [r|];
    [|simpl; tauto].
  cbn [deref bind is_some]. split; discriminate.
Qed.

Lemma filter_fresh_subscriptions (n : nat) (l : list Subscription) :
  Forall (fun s => (sub_id s < n)%nat) l ->
  forall k, (n <= k)%nat ->
            filter (fun s => negb (Nat.eqb (sub_id s) k)) l = l.
Proof.
  intros F k K. induction F as [|s l S F IH]; simpl; [reflexivity|].
  assert (Q : Nat.eqb (sub_id s) k = false) by (apply Nat.eqb_neq; lia).
  rewrite Q. simpl. f_equal. exact IH.
Qed.

Lemma filter_fresh_app (n : nat) (l r : list Subscription) :
  Forall (fun s => (sub_id s < n)%nat) l ->
  forall k, (n <= k)%nat ->
            filter (fun s => negb (Nat.eqb (sub_id s) k)) (l ++ r) =
            l ++ filter (fun s => negb (Nat.eqb (sub_id s) k)) r.
Proof.
  intros F k K. rewrite filter_app.
  rewrite (filter_fresh_subscriptions n l F k K). reflexivity.
Qed.



Lemma emit_mousemove_to_none (subs : list Subscription) (t : ElementId)
  (event : MouseEvent) (w : World) :
  existsb (fun s => EventTarget_eqb (sub_target s) (OnElement t) &&
                    EventType_eqb (sub_type s) mousemove) subs = false ->
  emit_mousemove_to subs t event w = Ok w.
Proof.
  induction subs as [|s subs IH]; simpl; [reflexivity|].
  rewrite orb_false_iff. intros [H K]. rewrite H. apply IH. exact K.
Qed.

(** X8. Once [deactivate] has answered an [activate], sampled mouse moves
    are no longer handled: if no mouse-move subscription sat on an element
    before [activate] (and the subscription handles in use are below the next
    fresh one), a sampled move on that element after [deactivate] returns
    the state as it is. *)
Theorem moves_not_handled_after_deactivate (c : option bool) (w : World)
  (t : ElementId) (event : MouseEvent) :
  fresh_subscriptions (browser w) ->
  existsb (fun s => EventTarget_eqb (sub_target s) (OnElement t) &&
                    EventType_eqb (sub_type s) mousemove)
    (subscriptions (browser w)) = false ->
  exists w',
    deactivate c (activate w) = Ok w' /\
    emit_mousemove t event w' = Ok w'.
Proof.
  intros F N.
  destruct (deactivate_spec c (activate w) eq_refl) as (w' & E & _).
  exists w'. split; [exact E|].
  destruct (deactivate_effect c (activate w) w' E)
    as (m & r & M & R & SU & _).
  injection M as <-. injection R as <-.
  unfold emit_mousemove. apply emit_mousemove_to_none.
  rewrite SU. cbn [activate subscriptions browser upd_browser upd_service
                   subscribe subscribe_first fst snd set_nextSubscription
                   set_subscriptions set_oneShots dragStart nextSubscription].
  set (n := nextSubscription (browser w)) in *.
  rewrite <- app_assoc.
  rewrite (filter_fresh_app n _ _ F) by lia.
  rewrite (filter_fresh_app n _ _ F) by lia.
  cbn [app filter sub_id]. rewrite !Nat.eqb_refl.
  replace (S n =? n)%nat with false by (symmetry; apply Nat.eqb_neq; lia).
  cbn [negb filter sub_id]. rewrite !Nat.eqb_refl. cbn [negb].
  rewrite app_nil_r. exact N.
Qed.

Lemma moves_not_handled_after_deactivate_witness :
  exists w',
    deactivate (Some true) (activate idle) = Ok w' /\
    emit_mousemove page_body (mouse 999 400) w' = Ok w'.
Proof.
  apply (moves_not_handled_after_deactivate (Some true) idle page_body
           (mouse 999 400)).
  - constructor.
  - reflexivity.
Defined.

Lemma second_activate_subscriptions (c : option bool) (w : World) :
  fresh_subscriptions (browser w) ->
  exists w',
    deactivate c (activate (activate w)) = Ok w' /\
    subscriptions (browser w') =
      subscriptions (browser w) ++
      [{| sub_id := nextSubscription (browser w);
          sub_target := OnElement (_viewportElement (service w));
          sub_type := mousemove |};
       {| sub_id := S (nextSubscription (browser w));
          sub_target := OnWindow; sub_type := resize |}].
Proof.
  intro F.
  destruct (deactivate_spec c (activate (activate w)) eq_refl) as (w' & E & _).
  exists w'. split; [exact E|].
  destruct (deactivate_effect c (activate (activate w)) w' E)
    as (m & r & M & R & SU & _).
  injection M as <-. injection R as <-.
  rewrite SU. cbn [activate subscriptions browser upd_browser upd_service
                   subscribe subscribe_first fst snd set_nextSubscription
                   set_subscriptions set_oneShots dragStart nextSubscription
                   _viewportElement service set_lastDisplacement
                   set_lastMousePos set__viewportRect
                   set_viewportMouseMoveSubscription
                   set_viewportResizeSubscription].
  set (n := nextSubscription (browser w)) in *.
  rewrite <- !app_assoc.
  rewrite (filter_fresh_app n _ _ F) by lia.
  rewrite (filter_fresh_app n _ _ F) by lia.
  cbn [app filter sub_id].
  replace (n =? S (S n))%nat with false by (symmetry; apply Nat.eqb_neq; lia).
  replace (S n =? S (S n))%nat with false by (symmetry; apply Nat.eqb_neq; lia).
  rewrite !Nat.eqb_refl.
  replace (S (S (S n)) =? S (S n))%nat with false
    by (symmetry; apply Nat.eqb_neq; lia).
  cbn [negb filter sub_id].
  replace (n =? S (S (S n)))%nat with false
    by (symmetry; apply Nat.eqb_neq; lia).
  replace (S n =? S (S (S n)))%nat with false
    by (symmetry; apply Nat.eqb_neq; lia).
  rewrite !Nat.eqb_refl. cbn [negb]. reflexivity.
Qed.

Lemma emit_mousemove_to_app (a b : list Subscription) (t : ElementId)
  (event : MouseEvent) :
  forall w,
    emit_mousemove_to (a ++ b) t event w =
    (w1 <- emit_mousemove_to a t event w ;; emit_mousemove_to b t event w1).
Proof.
  induction a as [|s a IH]; intro w; [reflexivity|]. simpl.
  destruct (EventTarget_eqb (sub_target s) (OnElement t) &&
            EventType_eqb (sub_type s) mousemove); [|apply IH].
  destruct (onViewportMouseMove event w) as [w1|e]; [|reflexivity].
  simpl. apply IH.
Qed.

(** X9. A second [activate] before [deactivate] overwrites the two saved
    subscriptions, so [deactivate] unsubscribes the later pair only: the
    mouse-move and the resize subscription of the first [activate] stay
    attached, and a sampled move on the viewport is still handled after
    [deactivate]. *)
Theorem second_activate_leaks_subscriptions (c : option bool) (w : World) :
  fresh_subscriptions (browser w) ->
  exists w',
    deactivate c (activate (activate w)) = Ok w' /\
    subscriptions (browser w') =
      subscriptions (browser w) ++
      [{| sub_id := nextSubscription (browser w);
          sub_target := OnElement (_viewportElement (service w));
          sub_type := mousemove |};
       {| sub_id := S (nextSubscription (browser w));
          sub_target := OnWindow; sub_type := resize |}] /\
    (existsb (fun s => EventTarget_eqb (sub_target s)
                         (OnElement (_viewportElement (service w))) &&
                       EventType_eqb (sub_type s) mousemove)
       (subscriptions (browser w)) = false ->
     forall event,
       emit_mousemove (_viewportElement (service w)) event w' =
       onViewportMouseMove event w').
Proof.
  intro F. destruct (second_activate_subscriptions c w F) as (w' & E & SU).
  exists w'. split; [exact E|]. split; [exact SU|].
  intros N event. unfold emit_mousemove. rewrite SU, emit_mousemove_to_app.
  rewrite (emit_mousemove_to_none _ _ event w' N). cbn [bind].
  cbn [emit_mousemove_to sub_target sub_type EventTarget_eqb EventType_eqb].
  rewrite Nat.eqb_refl. cbn [andb].
  destruct (onViewportMouseMove event w'); reflexivity.
Qed.

Lemma second_activate_leaks_subscriptions_witness :
  exists w',
    deactivate None (activate (activate idle)) = Ok w' /\
    subscriptions (browser w') =
      subscriptions (browser idle) ++
      [{| sub_id := nextSubscription (browser idle);
          sub_target := OnElement (_viewportElement (service idle));
          sub_type := mousemove |};
       {| sub_id := S (nextSubscription (browser idle));
          sub_target := OnWindow; sub_type := resize |}] /\
    (existsb (fun s => EventTarget_eqb (sub_target s)
                         (OnElement (_viewportElement (service idle))) &&
                       EventType_eqb (sub_type s) mousemove)
       (subscriptions (browser idle)) = false ->
     forall event,
       emit_mousemove (_viewportElement (service idle)) event w' =
       onViewportMouseMove event w').
Proof.
  apply (second_activate_leaks_subscriptions None idle).
  constructor.
Defined.

(** On the concrete page: after two registrations and one [deactivate], a
    sampled move at the right edge of the container still starts a scroll
    timer, with nothing registered. *)
Example leaked_subscription_starts_a_timer :
  match w <- deactivate None
               (registerDraggable (mouse 50 50) {| nativeElement := dragTarget |}
                  (JSString "card") (Some "#testContainer"%string) None None
                  (Some 10) registered) ;;
        emit_mousemove testContainer (mouse 299 150) w with
  | Ok w => (_draggables (service w), map snd (intervals (browser w)))
  | Throw _ => ([], [])
  end = ([], [ScrollLeftInc]).
Proof. vm_compute. reflexivity. Qed.

(** ** What holds in every state the service can reach *)








(** One call of [deactivate] in a well-formed, activated state. *)
Lemma deactivate_reachable_ok (c : option bool) (w : World) :
  invariant w -> activated w = true ->
  exists w',
    deactivate c w = Ok w' /\ invariant w' /\ activated w' = true /\
    oneShots (browser w') = oneShots (browser w) /\
    _draggables (service w') = [] /\
    intervals (browser w') = [] /\
    _dragging (service w') = _dragging (service w) /\
    _dropping (service w') =
      _dropping (service w) ++
      map (ended c) (filter isDragging (_draggables (service w))).
Proof.
  intros I A.
  destruct (deactivate_invariant c w I A) as (w' & E & I' & A' & OS).
  exists w'. split; [exact E|].
  destruct (deactivate_spec c w A) as (w1 & E1 & D & DR & DG & _).
  rewrite E in E1. injection E1 as <-.
  destruct (deactivate_effect c w w' E) as (_ & _ & _ & _ & _ & _ & T).
  destruct I as (_ & _ & TT & _).
  split_ands; auto.
Qed.

Lemma run_callbacks_effect (ls : list Listener) (event : MouseEvent) :
  forall w,
    invariant w -> activated w = true ->
    exists w',
      run_callbacks ls event w = Ok w' /\ invariant w' /\
      oneShots (browser w') = oneShots (browser w) /\
      _dragging (service w') = _dragging (service w) /\
      match ls with
      | [] => w' = w
      | l :: _ =>
          _draggables (service w') = [] /\
          intervals (browser w') = [] /\
          _dropping (service w') =
            _dropping (service w) ++
            map (ended (callback_cancelled (listener_callback l)))
              (filter isDragging (_draggables (service w)))
      end.
Proof.
  induction ls as [|l ls IH]; intros w I A.
  - exists w. simpl. auto.
  - cbn [run_callbacks]. rewrite run_callback_deactivate.
    destruct (deactivate_reachable_ok
                (callback_cancelled (listener_callback l)) w I A)
      as (w1 & E & I1 & A1 & OS1 & D1 & T1 & DG1 & DR1).
    rewrite E. cbn [bind].
    destruct (IH w1 I1 A1) as (w' & E' & I' & OS' & DG' & K).
    exists w'. split; [exact E'|]. split; [exact I'|].
    rewrite OS', DG'. split; [exact OS1|]. split; [exact DG1|].
    destruct ls as [|l' ls'].
    + subst w'. auto.
    + destruct K as (D' & T' & DR'). rewrite D1 in DR'. simpl in DR'.
      rewrite app_nil_r in DR'. rewrite DR'. auto.
Qed.

(** An event reaching the listeners behind [first()], in a well-formed
    state. *)
Lemma fire_effect (t : EventTarget) (ty : EventType) (event : MouseEvent)
  (w : World) :
  invariant w ->
  exists w',
    fire t ty event w = Ok w' /\ invariant w' /\
    oneShots (browser w') =
      filter (fun l => negb (listens t ty l)) (oneShots (browser w)) /\
    _dragging (service w') = _dragging (service w) /\
    if existsb (listens t ty) (oneShots (browser w))
    then _draggables (service w') = [] /\
         intervals (browser w') = [] /\
         _dropping (service w') =
           _dropping (service w) ++
           map (ended (route_cancelled t ty))
             (filter isDragging (_draggables (service w)))
    else _draggables (service w') = _draggables (service w) /\
         intervals (browser w') = intervals (browser w) /\
         _dropping (service w') = _dropping (service w).
Proof.
  intro I. unfold fire. cbv zeta.
  set (w0 := upd_browser
               (fun b => set_oneShots
                           (filter (fun l => negb (listens t ty l)) (oneShots b))
                           b) w).
  assert (I0 : invariant w0).
  { destruct I as (O & L & T & A). unfold invariant, w0. simpl.
    split_ands; auto.
    - apply Forall_forall. intros l H. apply filter_In in H.
      rewrite Forall_forall in L. apply L. tauto.
    - intro N. apply A. intros Z0. rewrite Z0 in N. simpl in N. auto. }
  destruct (filter (listens t ty) (oneShots (browser w))) as [|l ls] eqn:F.
  - exists w0. split; [reflexivity|]. split; [exact I0|].
    split; [reflexivity|]. split; [reflexivity|].
    assert (X : existsb (listens t ty) (oneShots (browser w)) = false).
    { destruct (existsb (listens t ty) (oneShots (browser w))) eqn:X;
        [|reflexivity].
      apply existsb_exists in X. destruct X as (x & H & Q).
      assert (H' : In x (filter (listens t ty) (oneShots (browser w)))).
      { apply filter_In. auto. }
      rewrite F in H'. destruct H'. }
    rewrite X. auto.
  - assert (H : In l (filter (listens t ty) (oneShots (browser w)))).
    { rewrite F. simpl. auto. }
    apply filter_In in H. destruct H as [H Q].
    assert (X : existsb (listens t ty) (oneShots (browser w)) = true).
    { apply existsb_exists. exists l. auto. }
    rewrite X.
    assert (A0 : activated w0 = true).
    { destruct I as (_ & _ & _ & A). apply A. intro Z0. rewrite Z0 in H.
      destruct H. }
    destruct (run_callbacks_effect (l :: ls) event w0 I0 A0)
      as (w' & E & I' & OS & DG & D & T & DR).
    exists w'. split; [exact E|]. split; [exact I'|].
    split; [exact OS|]. split; [exact DG|].
    split; [exact D|]. split; [exact T|].
    rewrite DR.
    destruct I as (_ & L & _). rewrite Forall_forall in L.
    destruct (listener_flag t ty l (L l H) Q) as [-> _]. reflexivity.
Qed.








(** Deciding which of at most two running timers has a given handler. *)
Ltac which_timer :=
  split;
  [ intros (n & I); simpl in I;
    repeat match goal with
           | H : _ \/ _ |- _ => destruct H
           | H : False |- _ => destruct H
           | H : (_, _) = (_, _) |- _ => inversion H; clear H
           end;
    try discriminate; lia
  | intro; first [ exfalso; lia | eexists; simpl; eauto ] ].

(** X12. Which scroll timers run after [scrollViewportAsNeeded], from a
    state whose timers the service remembers, is decided by the pointer and
    the scroll offsets alone. Per axis: the decrementing timer runs exactly
    when the pointer is at or before the rounded near edge of the cached
    rectangle and the scroll offset is positive; the incrementing timer runs
    exactly when that is not the case and the pointer is at or beyond the
    rounded far edge less the bias (2 pixels on the right, 3 at the bottom),
    whether or not the viewport can scroll further. *)
Theorem scroll_timers_follow_the_pointer (x y : Z) (w : World) :
  timers_tracked w = true ->
  let running := intervals (browser (scrollViewportAsNeeded x y w)) in
  let near_x := x <= Math_round (rect_left (_viewportRect (service w))) /\
                0 < scrollLeft (viewport w) in
  let near_y := y <= Math_round (rect_top (_viewportRect (service w))) /\
                0 < scrollTop (viewport w) in
  ((exists n, In (n, ScrollLeftDec) running) <-> near_x) /\
  ((exists n, In (n, ScrollLeftInc) running) <->
   ~ near_x /\
   Math_round (rect_right (_viewportRect (service w)) - 2) <= x) /\
  ((exists n, In (n, ScrollTopDec) running) <-> near_y) /\
  ((exists n, In (n, ScrollTopInc) running) <->
   ~ near_y /\
   Math_round (rect_bottom (_viewportRect (service w)) - 3) <= y).
Proof.
  intro T. pose proof (clearScrollIntervals_tracked w T) as C.
  destruct (clearScrollIntervals_same w)
    as (_ & _ & _ & _ & _ & R & V & _ & _ & _ & N & _).
  cbv zeta. unfold scrollViewportAsNeeded. cbv zeta.
  unfold viewport in *. rewrite <- R, <- V, <- N.
  set (w1 := clearScrollIntervals w) in *. clearbody w1.
  destruct ((x <=? Math_round (rect_left (_viewportRect (service w1)))) &&
            (0 <? scrollLeft (nodes (browser w1) (_viewportElement (service w1)))))
    eqn:X;
    [|destruct (Math_round (rect_right (_viewportRect (service w1)) - 2) <=? x)
        eqn:X'];
    cbn [service browser startScrollX startScrollY upd_service upd_browser
         _viewportRect set_scrollXInterval set_scrollYInterval
         _viewportElement setInterval fst snd nodes set_nextInterval
         set_intervals intervals];
    (destruct ((y <=? Math_round (rect_top (_viewportRect (service w1)))) &&
               (0 <? scrollTop (nodes (browser w1)
                                  (_viewportElement (service w1))))) eqn:Y;
     [|destruct (Math_round (rect_bottom (_viewportRect (service w1)) - 3) <=? y)
         eqn:Y']);
    cbn [service browser startScrollX startScrollY upd_service upd_browser
         _viewportRect set_scrollXInterval set_scrollYInterval
         _viewportElement setInterval fst snd nodes set_nextInterval
         set_intervals intervals];
    rewrite ?C; cbn [app];
    rewrite ?andb_true_iff, ?andb_false_iff in *;
    rewrite ?Z.leb_le, ?Z.ltb_lt, ?Z.leb_gt, ?Z.ltb_ge in *;
    split_ands; which_timer.
Qed.

Lemma scroll_timers_follow_the_pointer_witness :
  let running :=
    intervals (browser (scrollViewportAsNeeded 299 0 registered)) in
  let near_x :=
    299 <= Math_round (rect_left (_viewportRect (service registered))) /\
    0 < scrollLeft (viewport registered) in
  let near_y :=
    0 <= Math_round (rect_top (_viewportRect (service registered))) /\
    0 < scrollTop (viewport registered) in
  ((exists n, In (n, ScrollLeftDec) running) <-> near_x) /\
  ((exists n, In (n, ScrollLeftInc) running) <->
   ~ near_x /\
   Math_round (rect_right (_viewportRect (service registered)) - 2) <= 299) /\
  ((exists n, In (n, ScrollTopDec) running) <-> near_y) /\
  ((exists n, In (n, ScrollTopInc) running) <->
   ~ near_y /\
   Math_round (rect_bottom (_viewportRect (service registered)) - 3) <= 0).
Proof.
  apply (scroll_timers_follow_the_pointer 299 0 registered). reflexivity.
Defined.

(** ** A sampled move repeated at the same position *)




(** ** The drag source directive *)







(** On the concrete page: while the card is being dragged, a press of the
    secondary button on the source bubbles to the container and ends the drag
    as cancelled; a press of the primary button registers a second object
    and ends nothing. *)
Example secondary_button_aborts_on_the_page :
  dropped_flags (mousedown_on_source card_source [testContainer; page_body]
                   (secondary_button 70 70) dragging_card) =
    Some [Some true] /\
  dragging_flags (mousedown_on_source card_source [testContainer; page_body]
                    (secondary_button 70 70) dragging_card) = Some [] /\
  dropped_flags (mousedown_on_source card_source [testContainer; page_body]
                   (mouse 70 70) dragging_card) = Some [] /\
  dragging_flags (mousedown_on_source card_source [testContainer; page_body]
                    (mouse 70 70) dragging_card) = Some [true; false].
Proof. split_ands; vm_compute; reflexivity. Qed.

(** ** The drop target directive *)














(** ** The drop target over a whole run *)








Lemma clearTimeout_remembered (ht : option nat) (l : list nat) :
  (forall t, In t l -> ht = Some t) -> Hover.clearTimeout ht l = [].
Proof.
  intro T. destruct ht as [n|]; simpl.
  - induction l as [|a l IH]; simpl; [reflexivity|].
    assert (Q : Some n = Some a) by (apply T; simpl; auto).
    injection Q as <-. rewrite Nat.eqb_refl. simpl. apply IH.
    intros t I. apply T. simpl. auto.
  - destruct l as [|a l]; [reflexivity|].
    assert (Q : None = Some a) by (apply T; simpl; auto). discriminate.
Qed.














Lemma mouseleave_callbacks_clear (l : list Subscription) (dr : bool) :
  forall p : Hover.Target * Browser,
    Hover.timeouts (fst p) = [] ->
    Droppable.dragging (Hover.directive (fst p)) = dr ->
    (dr = true -> Droppable.isDropTarget (Hover.directive (fst p)) = false) ->
    let s := fold_left (fun p _ => Hover.mouseleave_callback (fst p) (snd p))
               l p in
    Hover.timeouts (fst s) = [] /\
    (dr = true -> Droppable.isDropTarget (Hover.directive (fst s)) = false).
Proof.
  induction l as [|x l IH]; intros p T D I; [cbn [fold_left]; auto|].
  cbn [fold_left]. apply IH.
  - unfold Hover.mouseleave_callback. cbn [fst Hover.timeouts]. rewrite T.
    destruct (Hover.hoverTimer (fst p)); reflexivity.
  - unfold Hover.mouseleave_callback, Droppable.onMouseLeave.
    cbn [fst Hover.directive]. rewrite D.
    destruct dr;
      cbn [negb fst Droppable.dragging Droppable.set_isDropTarget]; exact D.
  - intro R. unfold Hover.mouseleave_callback, Droppable.onMouseLeave.
    cbn [fst Hover.directive]. rewrite D, R. reflexivity.
Qed.

(** X20. When the pointer leaves the element of a target that has a
    [mouseleave] subscription attached and whose pending timeouts are the
    one it remembers, no hover timeout is pending afterwards, so a timeout
    handle that comes up later finds nothing to run: a pass over the target
    that is shorter than the hover delay never makes it a drop target. If
    the target is dragging, it is no drop target afterwards. *)
Theorem pointer_leaving_cancels_pending_hover (h : Hover.Target) (b : Browser) :
  (forall t, In t (Hover.timeouts h) -> Hover.hoverTimer h = Some t) ->
  Hover.attached (nativeElement (Droppable.directive_el (Hover.directive h)))
    mouseleave b <> [] ->
  Hover.timeouts (fst (Hover.mouseleave_event h b)) = [] /\
  (forall t, Hover.timeout t (fst (Hover.mouseleave_event h b))
               (snd (Hover.mouseleave_event h b)) =
             Hover.mouseleave_event h b) /\
  (Droppable.dragging (Hover.directive h) = true ->
   Droppable.isDropTarget
     (Hover.directive (fst (Hover.mouseleave_event h b))) = false).
Proof.
  intros T A. unfold Hover.mouseleave_event in *.
  destruct (Hover.attached
              (nativeElement (Droppable.directive_el (Hover.directive h)))
              mouseleave b) as [|x l]; [contradiction|].
  cbn [fold_left fst snd].
  destruct (mouseleave_callbacks_clear l
              (Droppable.dragging (Hover.directive h))
              (Hover.mouseleave_callback h b)) as [C I].
  - unfold Hover.mouseleave_callback. cbn [fst Hover.timeouts].
    apply clearTimeout_remembered. exact T.
  - unfold Hover.mouseleave_callback, Droppable.onMouseLeave.
    cbn [fst Hover.directive].
    destruct (Droppable.dragging (Hover.directive h)) eqn:R;
      cbn [negb fst Droppable.dragging Droppable.set_isDropTarget];
      exact R.
  - intro R. unfold Hover.mouseleave_callback, Droppable.onMouseLeave.
    cbn [fst Hover.directive]. rewrite R. reflexivity.
  - cbv zeta in C, I. split; [exact C|]. split; [|exact I].
    intro t. unfold Hover.timeout. rewrite C. cbn [existsb].
    destruct (fold_left _ l _). reflexivity.
Qed.

Lemma pointer_leaving_cancels_pending_hover_witness :
  Hover.timeouts
    (fst (Hover.mouseleave_event (fst (hovering zone page))
            (snd (hovering zone page)))) = [] /\
  (forall t,
      Hover.timeout t
        (fst (Hover.mouseleave_event (fst (hovering zone page))
                (snd (hovering zone page))))
        (snd (Hover.mouseleave_event (fst (hovering zone page))
                (snd (hovering zone page)))) =
      Hover.mouseleave_event (fst (hovering zone page))
        (snd (hovering zone page))) /\
  (Droppable.dragging (Hover.directive (fst (hovering zone page))) = true ->
   Droppable.isDropTarget
     (Hover.directive
        (fst (Hover.mouseleave_event (fst (hovering zone page))
                (snd (hovering zone page))))) = false).
Proof.
  apply (pointer_leaving_cancels_pending_hover (fst (hovering zone page))
           (snd (hovering zone page))).
  - vm_compute. intros t [<-|[]]. reflexivity.
  - vm_compute. discriminate.
Defined.

(** On the concrete page, with the default [acceptDrop] (false): the pointer
    resting on the target until the timeout fires shows the not-droppable
    class; after the host has accepted, the droppable class; a pass that ends
    before the timeout fires shows nothing; and a timeout that fires after
    the drop shows nothing. *)
Example hover_on_the_page :
  target_shows
    (Hover.handle_all [Hover.Dragging card; Hover.MouseEnter;
                       Hover.Timeout 0%nat]
       (Hover.new_Target zone, page)) =
    Some (true, ["ok"%string; "rejects"%string], []) /\
  target_shows
    (Hover.handle_all [Hover.Dragging card; Hover.Accept true;
                       Hover.MouseEnter; Hover.Timeout 0%nat]
       (Hover.new_Target zone, page)) =
    Some (true, ["ok"%string; "accepts"%string], []) /\
  target_shows
    (Hover.handle_all [Hover.Dragging card; Hover.MouseEnter;
                       Hover.MouseLeave; Hover.Timeout 0%nat]
       (Hover.new_Target zone, page)) =
    Some (false, ["ok"%string], []) /\
  target_shows
    (Hover.handle_all [Hover.Dragging card; Hover.MouseEnter;
                       Hover.Dropping (ended None card); Hover.Timeout 0%nat]
       (Hover.new_Target zone, page)) =
    Some (false, ["ok"%string], []) /\
  target_shows
    (Hover.handle_all [Hover.Dropping (ended None card)]
       (Hover.new_Target zone, page)) = None.
Proof. split_ands; vm_compute; reflexivity. Qed.

(** ** The ghost is drawn where the object says it is *)

Lemma ghost_drawn_ext (w w' : World) (d : DraggableItem) :
  (forall g, (g < nextNode (browser w))%nat -> rendered w' g = rendered w g) ->
  (nextNode (browser w) <= nextNode (browser w'))%nat ->
  ghost_drawn w d -> ghost_drawn w' d.
Proof.
  intros R N G D. destruct (G D) as (g & p & E & P & L & S).
  exists g, p. split_ands; auto; [lia|]. rewrite R by exact L. exact S.
Qed.

Lemma ghosts_drawn_ext (w w' : World) :
  _draggables (service w') = _draggables (service w) ->
  (forall g, (g < nextNode (browser w))%nat -> rendered w' g = rendered w g) ->
  (nextNode (browser w) <= nextNode (browser w'))%nat ->
  ghosts_drawn w -> ghosts_drawn w'.
Proof.
  unfold ghosts_drawn. intros -> R N [F U]. split; [|exact U].
  eapply Forall_impl; [|exact F]. intros d. apply ghost_drawn_ext; assumption.
Qed.

(** [beginItemDrag] on an object that is not dragging: it makes a ghost with
    a fresh handle and leaves the inline position of every node that was
    there as it is. *)
Lemma beginItemDrag_others (d : DraggableItem) (w : World) :
  isDragging d = false ->
  exists d1 w1,
    beginItemDrag d w = Ok (d1, w1) /\
    isDragging d1 = true /\
    is_some (pos d1) = true /\ is_some (grabPoint d1) = true /\
    dragEl d1 = Some (S (nextNode (browser w))) /\
    nextNode (browser w1) = S (S (nextNode (browser w))) /\
    (forall g, (g < nextNode (browser w))%nat -> rendered w1 g = rendered w g).
Proof.
  intros D. unfold beginItemDrag. rewrite D. cbv zeta.
  unfold createDraggableElement, appendChild, cloneNode, createElement, viewport.
  cbv zeta.
  cbn [fst snd browser service upd_browser upd_service set_nextNode nextNode
       el set_pos set_grabPoint set_dragEl set_isDragging draggingClass
       draggedClass dragEl bind deref _viewportElement set_viewportCursor
       set__dragging mouseDownEvent].
  repeat rewrite nextNode_update_node.
  set (n := nextNode (browser w)) in *.
  set (v := _viewportElement (service w)) in *.
  eexists. eexists. split; [reflexivity|].
  cbn [fst snd browser service upd_browser upd_service set_nextNode nextNode
       el set_pos set_grabPoint set_dragEl set_isDragging draggingClass
       draggedClass dragEl _viewportElement set_viewportCursor
       set__dragging mouseDownEvent isDragging pos grabPoint is_some].
  split_ands; try reflexivity.
  - repeat first [rewrite nextNode_update_node | rewrite nextNode_addClasses].
    reflexivity.
  - intros g G. unfold rendered.
    cbn [browser upd_service upd_browser service].
    rewrite !(proj1 (addClasses_nodes _ _ _)).
    destruct (Nat.eq_dec g v) as [->|N]; read_node; node_fields; reflexivity.
Qed.

Lemma moveDraggableElement_others (d : DraggableItem) (left top : Z) (w : World)
  (p g : Point) (e : ElementId) :
  pos d = Some p -> grabPoint d = Some g -> dragEl d = Some e ->
  exists d2 w2 p2,
    moveDraggableElement d left top w = Ok (d2, w2) /\
    isDragging d2 = isDragging d /\ dragEl d2 = Some e /\ pos d2 = Some p2 /\
    rendered w2 e = (Some (point_x p2), Some (point_y p2)) /\
    nextNode (browser w2) = nextNode (browser w) /\
    (forall i, i <> e -> rendered w2 i = rendered w i).
Proof.
  intros P G E. rewrite (moveDraggableElement_Ok d left top w p g e P G E).
  eexists. eexists. eexists. split; [reflexivity|].
  unfold rendered. cbn [pos set_pos browser upd_browser isDragging dragEl].
  split_ands; try reflexivity; try assumption.
  - read_node. reflexivity.
  - intros i I. read_node. reflexivity.
Qed.

(** One iteration of the loop of [onViewportMouseMove] on an object that
    passes the threshold test. *)
Lemma move_one_drawn (d : DraggableItem) (x y : Z) (w : World) :
  item_ok d = true ->
  ghost_drawn w d ->
  exists d1 w1 d2 w2 g2,
    beginItemDrag d w = Ok (d1, w1) /\
    moveDraggableElement d1 x y w1 = Ok (d2, w2) /\
    isDragging d2 = true /\ dragEl d2 = Some g2 /\
    ghost_drawn w2 d2 /\
    (if isDragging d then dragEl d = Some g2
     else g2 = S (nextNode (browser w))) /\
    (nextNode (browser w) <= nextNode (browser w2))%nat /\
    (forall g, (g < nextNode (browser w))%nat -> g <> g2 ->
               rendered w2 g = rendered w g).
Proof.
  intros O G. destruct (isDragging d) eqn:D.
  - destruct (item_ok_dragging d O D) as (p & gp & e & P & GP & E).
    destruct (moveDraggableElement_others d x y w p gp e P GP E)
      as (d2 & w2 & p2 & M & D2 & E2 & P2 & R2 & N2 & F2).
    exists d, w, d2, w2, e. rewrite (beginItemDrag_dragging d w D).
    split; [reflexivity|]. split; [exact M|].
    rewrite D2, D. split; [reflexivity|]. split; [exact E2|].
    destruct (G D) as (g0 & p0 & E0 & _ & L0 & _).
    rewrite E in E0. injection E0 as <-.
    split_ands; auto; [|lia].
    intros _. exists e, p2. split_ands; auto. lia.
  - destruct (beginItemDrag_others d w D)
      as (d1 & w1 & B & D1 & P1 & GP1 & E1 & N1 & F1).
    destruct (pos d1) as [p|] eqn:P; [|discriminate].
    destruct (grabPoint d1) as [gp|] eqn:GP; [|discriminate].
    destruct (moveDraggableElement_others d1 x y w1 p gp _ P GP E1)
      as (d2 & w2 & p2 & M & D2 & E2 & P2 & R2 & N2 & F2).
    exists d1, w1, d2, w2, (S (nextNode (browser w))).
    split; [exact B|]. split; [exact M|].
    rewrite D2, D1. split; [reflexivity|]. split; [exact E2|].
    split_ands; auto; [|lia|].
    + intros _. exists (S (nextNode (browser w))), p2. split_ands; auto. lia.
    + intros g L Q. rewrite F2 by exact Q. apply F1. exact L.
Qed.

Lemma ghosts_dragging_cons (d : DraggableItem) (ds : list DraggableItem)
  (g : ElementId) :
  isDragging d = true -> dragEl d = Some g ->
  ghosts (filter isDragging (d :: ds)) = g :: ghosts (filter isDragging ds).
Proof. intros D E. cbn [filter]. rewrite D. simpl. rewrite E. reflexivity. Qed.

Lemma ghosts_not_dragging_cons (d : DraggableItem) (ds : list DraggableItem) :
  isDragging d = false ->
  ghosts (filter isDragging (d :: ds)) = ghosts (filter isDragging ds).
Proof. intros D. cbn [filter]. rewrite D. reflexivity. Qed.

(** The ghosts of the dragging objects are below the next fresh handle. *)
Lemma drawn_ghosts_below (w : World) (ds : list DraggableItem) (g : ElementId) :
  Forall (ghost_drawn w) ds ->
  In g (ghosts (filter isDragging ds)) -> (g < nextNode (browser w))%nat.
Proof.
  induction 1 as [|d ds G F IH]; [intros []|].
  destruct (isDragging d) eqn:D.
  - destruct (G D) as (g0 & p0 & E0 & _ & L0 & _).
    rewrite (ghosts_dragging_cons d ds g0 D E0). intros [<-|I]; auto.
  - rewrite (ghosts_not_dragging_cons d ds D). exact IH.
Qed.

Lemma moveDraggables_drawn (ds : list DraggableItem) (x y : Z) :
  forall w,
    Forall (fun d => item_ok d = true) ds ->
    Forall (ghost_drawn w) ds ->
    NoDup (ghosts (filter isDragging ds)) ->
    exists ds' w',
      moveDraggables ds x y w = Ok (ds', w') /\
      Forall (ghost_drawn w') ds' /\
      NoDup (ghosts (filter isDragging ds')) /\
      (nextNode (browser w) <= nextNode (browser w'))%nat /\
      (forall g, In g (ghosts (filter isDragging ds')) ->
                 In g (ghosts (filter isDragging ds)) \/
                 (nextNode (browser w) <= g)%nat) /\
      (forall g, (g < nextNode (browser w))%nat ->
                 ~ In g (ghosts (filter isDragging ds')) ->
                 rendered w' g = rendered w g).
Proof.
  induction ds as [|d ds IH]; intros w O G U.
  - exists [], w. simpl. split_ands; auto; constructor.
  - inversion O as [|? ? Od Ods]. subst. inversion G as [|? ? Gd Gds]. subst.
    cbn [moveDraggables].
    destruct (startThresholdPassed d x y) eqn:T.
    + destruct (move_one_drawn d x y w Od Gd)
        as (d1 & w1 & d2 & w2 & g2 & B & M & D2 & E2 & G2 & K & N2 & F2).
      rewrite B. cbn [bind fst snd]. rewrite M. cbn [bind fst snd].
      assert (Urest : NoDup (ghosts (filter isDragging ds)) /\
                      ~ In g2 (ghosts (filter isDragging ds))).
      { destruct (isDragging d) eqn:D.
        - rewrite (ghosts_dragging_cons d ds g2 D K) in U.
          inversion U. auto.
        - rewrite (ghosts_not_dragging_cons d ds D) in U. split; [exact U|].
          intro I. apply (drawn_ghosts_below w ds g2 Gds) in I. lia. }
      destruct Urest as [Urest Ng2].
      assert (Grest : Forall (ghost_drawn w2) ds).
      { rewrite Forall_forall in Gds |- *. intros r I Dr.
        destruct (Gds r I Dr) as (g & p & E & P & L & S).
        exists g, p. split_ands; auto; [lia|].
        rewrite F2; [exact S|exact L|].
        intros ->. apply Ng2.
        apply in_flat_map. exists r. split.
        - apply filter_In. auto.
        - rewrite E. simpl. auto. }
      destruct (IH w2 Ods Grest Urest)
        as (ds' & w' & E & G' & U' & N' & A' & F').
      rewrite E. cbn [bind fst snd]. exists (d2 :: ds'), w'.
      split; [reflexivity|].
      assert (Ng2' : ~ In g2 (ghosts (filter isDragging ds'))).
      { intro I. apply A' in I. destruct I as [I|I]; [exact (Ng2 I)|].
        destruct (G2 D2) as (g & p & Eg & _ & L & _).
        rewrite E2 in Eg. injection Eg as <-. lia. }
      rewrite (ghosts_dragging_cons d2 ds' g2 D2 E2).
      split_ands.
      * constructor; [|exact G'].
        intros _. destruct (G2 D2) as (g & p & Eg & P & L & S).
        rewrite E2 in Eg. injection Eg as <-.
        exists g2, p. split_ands; auto; [lia|].
        rewrite F'; assumption.
      * constructor; assumption.
      * lia.
      * intros g [<-|I].
        -- destruct (isDragging d) eqn:D.
           ++ left. rewrite (ghosts_dragging_cons d ds g2 D K). simpl. auto.
           ++ right. subst g2. lia.
        -- apply A' in I. destruct I as [I|I]; [|right; lia].
           left. destruct (isDragging d) eqn:D.
           ++ rewrite (ghosts_dragging_cons d ds g2 D K). simpl. auto.
           ++ rewrite (ghosts_not_dragging_cons d ds D). exact I.
      * intros g L Ng. simpl in Ng.
        rewrite F'; [|lia|tauto]. apply F2; [exact L|]. intros ->. tauto.
    + destruct (IH w Ods Gds) as (ds' & w' & E & G' & U' & N' & A' & F').
      { destruct (isDragging d) eqn:D.
        - destruct (Gd D) as (g & p & Eg & _).
          rewrite (ghosts_dragging_cons d ds g D Eg) in U. inversion U. auto.
        - rewrite (ghosts_not_dragging_cons d ds D) in U. exact U. }
      rewrite E. cbn [bind fst snd]. exists (d :: ds'), w'.
      split; [reflexivity|].
      destruct (isDragging d) eqn:D.
      * destruct (Gd D) as (g & p & Eg & P & L & S).
        rewrite (ghosts_dragging_cons d ds g D Eg) in U |- *.
        rewrite (ghosts_dragging_cons d ds' g D Eg).
        assert (Ng' : ~ In g (ghosts (filter isDragging ds'))).
        { intro I. apply A' in I. destruct I as [I|I]; [|lia].
          inversion U. auto. }
        split_ands.
        -- constructor; [|exact G'].
           intros _. exists g, p. split_ands; auto; [lia|].
           rewrite F'; assumption.
        -- constructor; assumption.
        -- exact N'.
        -- intros g0 [<-|I]; [left; simpl; auto|].
           apply A' in I. destruct I as [I|I]; [left; simpl; auto|auto].
        -- intros g0 L0 Ng0. simpl in Ng0. apply F'; [exact L0|tauto].
      * rewrite (ghosts_not_dragging_cons d ds D).
        rewrite (ghosts_not_dragging_cons d ds' D).
        split_ands; auto.
        constructor; [|exact G']. intro X. rewrite D in X. discriminate.
Qed.

Lemma ghosts_drawn_same_nodes (w w' : World) :
  _draggables (service w') = _draggables (service w) ->
  nodes (browser w') = nodes (browser w) ->
  nextNode (browser w') = nextNode (browser w) ->
  ghosts_drawn w -> ghosts_drawn w'.
Proof.
  intros D N X. apply ghosts_drawn_ext; [exact D| |lia].
  intros g _. unfold rendered. rewrite N. reflexivity.
Qed.

Lemma onViewportMouseMove_drawn (event : MouseEvent) (w : World) :
  Forall (fun d => item_ok d = true) (_draggables (service w)) ->
  ghosts_drawn w ->
  exists w', onViewportMouseMove event w = Ok w' /\ ghosts_drawn w'.
Proof.
  intros O G.
  destruct (scrollViewportAsNeeded_same (clientX event) (clientY event) w)
    as (SD & _ & _ & _ & _ & _ & _ & _ & _ & _ & SN & SX & _).
  destruct (processed event w) eqn:P.
  - rewrite (onViewportMouseMove_processed event w P).
    assert (G0 : ghosts_drawn (before_loop event w)).
    { apply (ghosts_drawn_same_nodes w); try assumption. }
    destruct G0 as [G0 U0].
    assert (D0 : _draggables (service (before_loop event w)) =
                 _draggables (service w)) by exact SD.
    rewrite D0 in G0, U0.
    destruct (moveDraggables_drawn (_draggables (service w))
                (clientX event) (clientY event) (before_loop event w) O G0 U0)
      as (ds' & w' & E & G' & U' & _).
    rewrite E. cbn [bind fst snd]. eexists. split; [reflexivity|].
    split; [exact G'|exact U'].
  - unfold processed in P. rewrite andb_false_iff, !negb_false_iff in P.
    destruct (isMouseOutsideViewport w (clientX event) (clientY event)) eqn:U.
    + rewrite (onViewportMouseMove_outside event w U). eexists.
      split; [reflexivity|].
      apply (ghosts_drawn_same_nodes w); assumption.
    + destruct P as [P|P]; [discriminate|].
      apply andb_true_iff in P. destruct P as [X Y].
      apply Z.eqb_eq in X. apply Z.eqb_eq in Y.
      rewrite (onViewportMouseMove_still event w U X Y). eexists.
      split; [reflexivity|].
      apply (ghosts_drawn_same_nodes w); assumption.
Qed.

Lemma emit_mousemove_to_drawn (subs : list Subscription) (t : ElementId)
  (event : MouseEvent) :
  forall w,
    invariant w -> ghosts_drawn w ->
    exists w', emit_mousemove_to subs t event w = Ok w' /\ ghosts_drawn w'.
Proof.
  induction subs as [|s subs IH]; intros w I G.
  - exists w. simpl. auto.
  - simpl.
    destruct (EventTarget_eqb (sub_target s) (OnElement t) &&
              EventType_eqb (sub_type s) mousemove).
    + destruct (onViewportMouseMove_invariant event w I) as (w1 & E & I1 & _).
      destruct (onViewportMouseMove_drawn event w (proj1 I) G)
        as (w2 & E2 & G2).
      rewrite E in E2. injection E2 as <-.
      rewrite E. simpl. apply IH; assumption.
    + apply IH; assumption.
Qed.

Lemma fire_idle (t : EventTarget) (ty : EventType) (event : MouseEvent)
  (w : World) :
  existsb (listens t ty) (oneShots (browser w)) = false ->
  fire t ty event w =
  Ok (upd_browser
        (fun b => set_oneShots
                    (filter (fun l => negb (listens t ty l)) (oneShots b)) b)
        w).
Proof.
  intro X. unfold fire. cbv zeta. rewrite (filter_existsb_false _ _ X).
  reflexivity.
Qed.

Lemma handle_drawn (e : Event) (w : World) :
  invariant w -> ghosts_drawn w ->
  exists w', handle e w = Ok w' /\ ghosts_drawn w'.
Proof.
  intros I G.
  destruct e as [event e payload sel c1 c2 th|t event|t ty event| |t].
  - eexists. split; [reflexivity|]. destruct G as [F U]. split.
    + cbn [registerDraggable]. simpl. apply Forall_app. split.
      * eapply Forall_impl; [|exact F]. intros d Gd. exact Gd.
      * constructor; [|constructor]. intro X. discriminate.
    + simpl. rewrite filter_app. simpl. rewrite app_nil_r. exact U.
  - apply emit_mousemove_to_drawn; assumption.
  - cbn [handle].
    destruct (existsb (listens t ty) (oneShots (browser w))) eqn:X.
    + destruct (fire_effect t ty event w I) as (w' & E & _ & _ & _ & K).
      rewrite X in K. destruct K as (D & _).
      exists w'. split; [exact E|]. unfold ghosts_drawn. rewrite D.
      split; constructor.
    + rewrite (fire_idle t ty event w X). eexists. split; [reflexivity|].
      apply (ghosts_drawn_same_nodes w); try reflexivity. exact G.
  - eexists. split; [reflexivity|]. cbn [handle].
    unfold emit_resize. destruct (existsb _ _); [|exact G].
    apply (ghosts_drawn_same_nodes w); try reflexivity. exact G.
  - eexists. split; [reflexivity|]. unfold tick.
    destruct (find _ _) as [p|]; [|exact G].
    apply (ghosts_drawn_ext w).
    + destruct (snd p); reflexivity.
    + intros g _. unfold rendered, run_timer.
      destruct (snd p); cbn [browser upd_browser];
        (destruct (Nat.eq_dec g (_viewportElement (service w))) as [->|N];
         [rewrite update_node_same|rewrite update_node_other by exact N];
         reflexivity).
    + destruct (snd p); simpl; lia.
    + exact G.
Qed.

Lemma handle_all_drawn (es : list Event) :
  forall w,
    invariant w -> ghosts_drawn w ->
    exists w', handle_all es w = Ok w' /\ ghosts_drawn w'.
Proof.
  induction es as [|e es IH]; intros w I G.
  - exists w. simpl. auto.
  - simpl. destruct (handle_invariant e w I) as (w1 & E & I1).
    destruct (handle_drawn e w I G) as (w2 & E2 & G2).
    rewrite E in E2. injection E2 as <-.
    rewrite E. simpl. apply IH; assumption.
Qed.

(** X21. In every state the service reaches from its construction, each
    dragging object has a ghost whose inline [left] and [top] are the
    object's position, and no two dragging objects share a ghost: what is
    drawn never disagrees with what the object says. *)
Theorem ghosts_drawn_at_their_position (b : Browser) (es : list Event) :
  intervals b = [] -> oneShots b = [] ->
  exists w',
    handle_all es (new_DragDropService b) = Ok w' /\
    (forall d,
        In d (_draggables (service w')) -> isDragging d = true ->
        exists g p,
          dragEl d = Some g /\ pos d = Some p /\
          style_left (style (nodes (browser w') g)) = Some (point_x p) /\
          style_top (style (nodes (browser w') g)) = Some (point_y p)) /\
    NoDup (ghosts (filter isDragging (_draggables (service w')))).
Proof.
  intros I O.
  destruct (handle_all_drawn es (new_DragDropService b)
              (new_DragDropService_invariant b I O))
    as (w' & E & F & U).
  { split; constructor. }
  exists w'. split; [exact E|]. split; [|exact U].
  intros d H D. rewrite Forall_forall in F.
  destruct (F d H D) as (g & p & Eg & P & _ & R).
  exists g, p. unfold rendered in R. injection R as R1 R2. auto.
Qed.

Lemma ghosts_drawn_at_their_position_witness :
  exists w',
    handle_all
      [Register (mouse 50 50) {| nativeElement := dragTarget |}
         (JSString "card") (Some "#testContainer"%string) None None (Some 10);
       Register (mouse 210 210) {| nativeElement := dropTarget |}
         (JSString "tile") (Some "#testContainer"%string) None None (Some 10);
       SampledMove testContainer (mouse 55 53);
       SampledMove testContainer (mouse 61 50);
       SampledMove testContainer (mouse 55 50)]
      (new_DragDropService page) = Ok w' /\
    (forall d,
        In d (_draggables (service w')) -> isDragging d = true ->
        exists g p,
          dragEl d = Some g /\ pos d = Some p /\
          style_left (style (nodes (browser w') g)) = Some (point_x p) /\
          style_top (style (nodes (browser w') g)) = Some (point_y p)) /\
    NoDup (ghosts (filter isDragging (_draggables (service w')))).
Proof.
  apply (ghosts_drawn_at_their_position page); reflexivity.
Defined.

(** ** An object registered without a threshold *)

(** X22. A sampled move leaves alone every object whose threshold is
    [undefined] (a registration that passed no threshold): the comparison
    with [undefined] is false, so its drag never begins. *)
Theorem object_without_threshold_never_drags (event : MouseEvent) (w : World) :
  Forall (fun d => item_ok d = true) (_draggables (service w)) ->
  exists w',
    onViewportMouseMove event w = Ok w' /\
    Forall2 (fun d d' => startThreshold d = None -> d' = d)
      (_draggables (service w)) (_draggables (service w')).
Proof.
  intro O.
  destruct (onViewportMouseMove_spec event w O) as (w' & E & _ & K & _).
  exists w'. split; [exact E|].
  destruct (processed event w).
  - eapply Forall2_impl; [|exact K]. intros d d' M T.
    unfold moved in M.
    assert (P : startThresholdPassed d (clientX event) (clientY event) = false).
    { unfold startThresholdPassed. rewrite T. reflexivity. }
    rewrite P in M. exact M.
  - destruct K as [-> _]. clear.
    induction (_draggables (service w)); constructor; auto.
Qed.

Lemma object_without_threshold_never_drags_witness :
  exists w',
    onViewportMouseMove (mouse 150 150)
      (after [mouse 55 53]
         (registerDraggable (mouse 50 50) {| nativeElement := dragTarget |}
            (JSString "card") (Some "#testContainer"%string) None None None
            idle)) = Ok w' /\
    Forall2 (fun d d' => startThreshold d = None -> d' = d)
      (_draggables
         (service
            (after [mouse 55 53]
               (registerDraggable (mouse 50 50)
                  {| nativeElement := dragTarget |} (JSString "card")
                  (Some "#testContainer"%string) None None None idle))))
      (_draggables (service w')).
Proof.
  apply (object_without_threshold_never_drags (mouse 150 150)).
  vm_compute. repeat constructor.
Defined.
